(** * IMPERIAL-LSU velocity model (ivlsu.c / ivlsu.h): grid query and interpolation

    A shallow embedding of the query engine of [src/src/ivlsu.c].  C [double]s
    are Rocq's primitive binary64 floats, so every arithmetic step rounds as
    the compiled code does; C [int]s are integers in [Z]; the process-wide
    variables of [ivlsu.h] are the fields of one record that is passed
    explicitly; behaviour that C leaves undefined is an explicit outcome. *)

From Stdlib Require Import ZArith Floats Uint63 Bool List String Ascii Lia.
Import ListNotations.

Set Warnings "-inexact-float".

Local Open Scope Z_scope.

(** ** C doubles *)

Module CDouble.

Definition double := float.

Definition INT_MAX : Z := 2147483647.
Definition INT_MIN : Z := -2147483648.

Definition in_int (z : Z) : bool := (INT_MIN <=? z) && (z <=? INT_MAX).

(** [(double) i] for an [int] i: exact, every int is a binary64 value. *)
Definition int_to_double (z : Z) : double :=
  if z <? 0 then PrimFloat.opp (PrimFloat.of_uint63 (Uint63.of_Z (- z)))
  else PrimFloat.of_uint63 (Uint63.of_Z z).

(** The integer part of [m * 2^e], rounding toward zero ([m] positive). *)
Definition truncate_mantissa (m : positive) (e : Z) : Z := Z.shiftl (Z.pos m) e.

(** [(int) x]: the value truncated toward zero; undefined (C11 6.3.1.4) when
    the truncated value is not an [int], in particular for NaN and infinities. *)
Definition double_to_int (x : double) : option Z :=
  match Prim2SF x with
  | S754_zero _ => Some 0
  | S754_finite s m e =>
      let z := cond_Zopp s (truncate_mantissa m e) in
      if in_int z then Some z else None
  | _ => None
  end.

(** libm [round]: nearest integral value, halfway cases away from zero;
    the sign of the argument is kept, NaN and infinities are returned as is. *)
Definition c_round (x : double) : double :=
  match Prim2SF x with
  | S754_finite s m e =>
      if 0 <=? e then x
      else
        let q := Z.shiftl (Z.pos m) e in
        let r := Z.pos m - Z.shiftl q (- e) in
        let n := if Z.shiftl 1 (- e) <=? 2 * r then q + 1 else q in
        let a := PrimFloat.of_uint63 (Uint63.of_Z n) in
        if s then PrimFloat.opp a else a
  | _ => x
  end.

(** libm [fmod]: the exact remainder [x - n*y] with [n] the quotient [x/y]
    truncated toward zero; it has the sign of [x].  NaN when [x] is infinite,
    [y] is zero or either is NaN; [x] itself when [y] is infinite. *)
Definition c_fmod (x y : double) : double :=
  match Prim2SF x, Prim2SF y with
  | S754_nan, _ | _, S754_nan => PrimFloat.nan
  | S754_infinity _, _ => PrimFloat.nan
  | _, S754_zero _ => PrimFloat.nan
  | S754_zero _, _ => x
  | S754_finite _ _ _, S754_infinity _ => x
  | S754_finite sx mx ex, S754_finite _ my ey =>
      let e := Z.min ex ey in
      let r := Z.rem (Z.shiftl (Z.pos mx) (ex - e)) (Z.shiftl (Z.pos my) (ey - e)) in
      SF2Prim (binary_normalize prec emax (cond_Zopp sx r) e sx)
  end.

(** Neither NaN nor an infinity. *)
Definition finite (x : double) : bool :=
  match Prim2SF x with
  | S754_zero _ | S754_finite _ _ _ => true
  | _ => false
  end.

(** The binary64 encoding of a double, as the 64-bit word the object holds. *)
Definition bits_of_double (x : double) : Z :=
  let sign (s : bool) := if s then Z.shiftl 1 63 else 0 in
  match Prim2SF x with
  | S754_zero s => sign s
  | S754_infinity s => sign s + Z.shiftl 2047 52
  | S754_nan => Z.shiftl 4095 51
  | S754_finite s m e =>
      if Z.pos m <? Z.shiftl 1 52 then sign s + Z.pos m
      else sign s + Z.shiftl (e + 1075) 52 + (Z.pos m - Z.shiftl 1 52)
  end.

Definition double_of_bits (b : Z) : double :=
  let s := Z.testbit b 63 in
  let ex := Z.land (Z.shiftr b 52) 2047 in
  let mant := Z.land b (Z.shiftl 1 52 - 1) in
  if ex =? 0 then SF2Prim (binary_normalize prec emax (cond_Zopp s mant) (-1074) s)
  else if ex =? 2047 then
    if mant =? 0 then SF2Prim (S754_infinity s) else PrimFloat.nan
  else SF2Prim (binary_normalize prec emax
                  (cond_Zopp s (Z.shiftl 1 52 + mant)) (ex - 1075) s).

(** The value of a binary32 word, widened to double (always exact). *)
Definition float_of_bits (w : Z) : double :=
  let s := Z.testbit w 31 in
  let ex := Z.land (Z.shiftr w 23) 255 in
  let mant := Z.land w (Z.shiftl 1 23 - 1) in
  if ex =? 0 then SF2Prim (binary_normalize prec emax (cond_Zopp s mant) (-149) s)
  else if ex =? 255 then
    if mant =? 0 then SF2Prim (S754_infinity s) else PrimFloat.nan
  else SF2Prim (binary_normalize prec emax
                  (cond_Zopp s (Z.shiftl 1 23 + mant)) (ex - 150) s).

(** Four bytes stored at the address of a double on a little-endian machine:
    they replace the low half of its encoding. *)
Definition store_low_word (w : Z) (old : double) : double :=
  double_of_bits (Z.lor (Z.shiftl (Z.shiftr (bits_of_double old) 32) 32)
                        (Z.land w (Z.shiftl 1 32 - 1))).

End CDouble.
Export CDouble.

Local Open Scope float_scope.

(** ** Data model (ivlsu.h) *)

Definition SUCCESS : Z := 0.
Definition FAIL : Z := 1.

(** [ivlsu_point_t] *)
Record ivlsu_point_t := mk_point {
  longitude : double;
  latitude : double;
  depth : double
}.

(** [ivlsu_properties_t] *)
Record ivlsu_properties_t := mk_properties {
  vp : double;
  vs : double;
  rho : double;
  qp : double;
  qs : double
}.

Definition set_vp (v : double) (d : ivlsu_properties_t) : ivlsu_properties_t :=
  mk_properties v (vs d) (rho d) (qp d) (qs d).
Definition set_vs (v : double) (d : ivlsu_properties_t) : ivlsu_properties_t :=
  mk_properties (vp d) v (rho d) (qp d) (qs d).
Definition set_rho (v : double) (d : ivlsu_properties_t) : ivlsu_properties_t :=
  mk_properties (vp d) (vs d) v (qp d) (qs d).
Definition set_qp (v : double) (d : ivlsu_properties_t) : ivlsu_properties_t :=
  mk_properties (vp d) (vs d) (rho d) v (qs d).
Definition set_qs (v : double) (d : ivlsu_properties_t) : ivlsu_properties_t :=
  mk_properties (vp d) (vs d) (rho d) (qp d) v.

(** [ivlsu_configuration_t]; the field [p5] is never read or written. *)
Record ivlsu_configuration_t := mk_configuration {
  utm_zone : Z;
  model_dir : string;
  nx : Z;
  ny : Z;
  nz : Z;
  cfg_depth : double;
  top_left_corner_e : double;
  top_left_corner_n : double;
  top_right_corner_e : double;
  top_right_corner_n : double;
  bottom_left_corner_e : double;
  bottom_left_corner_n : double;
  bottom_right_corner_e : double;
  bottom_right_corner_n : double;
  depth_interval : double;
  interpolation : Z
}.

(** An open stream on a file of binary32 words, with its byte position. *)
Record FILE := mk_FILE {
  words : list Z;
  position : Z
}.

(** What the [void *vp] of [ivlsu_model_t] points to: nothing, the malloc'ed
    array of floats, or the [FILE *] that [fopen] returned for [vp.dat]. *)
Inductive vp_pointer :=
| NullPointer
| Samples (buf : list double)
| Stream (file : FILE).

(** [ivlsu_model_t] *)
Record ivlsu_model_t := mk_model {
  vp_ptr : vp_pointer;
  vp_status : Z
}.

(** A PROJ transformation object ([PJ *]), known only through [proj_trans]. *)
Definition PJ := Z.

(** The collaborators the file calls but does not define: libm's [atan], [cos],
    [sin] and [pow], PROJ's forward transform read together with the context
    errno that follows it, and [UCVM_CODE_ERROR] of ucvm_model_dtypes.h. *)
Record externals := mk_externals {
  c_atan : double -> double;
  c_cos : double -> double;
  c_sin : double -> double;
  c_pow : double -> double -> double;
  proj_trans_fwd : option PJ -> double -> double -> Z * (double * double);
  UCVM_CODE_ERROR : Z
}.

(** The variables of ivlsu.h and ivlsu.c that the query reads. *)
Record globals := mk_globals {
  ivlsu_is_initialized : Z;
  ivlsu_configuration : option ivlsu_configuration_t;
  ivlsu_velocity_model : option ivlsu_model_t;
  ivlsu_cos_rotation_angle : double;
  ivlsu_sin_rotation_angle : double;
  ivlsu_total_height_m : double;
  ivlsu_total_width_m : double;
  ivlsu_geo2utm : option PJ
}.

(** The variables as the loader finds them at program start. *)
Definition globals0 : globals :=
  mk_globals 0 None None 0 0 0 0 None.

Definition set_is_initialized (v : Z) (g : globals) : globals :=
  mk_globals v (ivlsu_configuration g) (ivlsu_velocity_model g)
    (ivlsu_cos_rotation_angle g) (ivlsu_sin_rotation_angle g)
    (ivlsu_total_height_m g) (ivlsu_total_width_m g) (ivlsu_geo2utm g).

(** ** Outcomes: a value, or behaviour the C standard leaves undefined *)

Inductive fault :=
| NullDereference      (* -> through a null struct pointer *)
| NullStream           (* fseek/fread on a null FILE* *)
| NotAnArray           (* indexing a pointer that is not the sample array *)
| OutOfBounds          (* array subscript outside the object *)
| IntConversion.       (* (int) of a double with no int value *)

Inductive outcome (A : Type) :=
| Ok (a : A)
| Undefined (why : fault).
Arguments Ok {A} a.
Arguments Undefined {A} why.

(** A lattice index triple as handed to the storage accessor. *)
Definition lattice_index := (Z * Z * Z)%type.

(** Computations that may be undefined and that record, in call order, every
    index triple [ivlsu_read_properties] is called with. *)
Definition M (A : Type) := list lattice_index -> outcome A * list lattice_index.

Definition ret {A} (a : A) : M A := fun log => (Ok a, log).
Definition undefined {A} (why : fault) : M A := fun log => (Undefined why, log).
Definition bind {A B} (m : M A) (k : A -> M B) : M B :=
  fun log =>
    match m log with
    | (Ok a, log') => k a log'
    | (Undefined why, log') => (Undefined why, log')
    end.
Definition called (i : lattice_index) : M unit := fun log => (Ok tt, log ++ [i]).
Definition lift {A} (why : fault) (o : option A) : M A :=
  match o with
  | Some a => ret a
  | None => undefined why
  end.

Declare Scope m_scope.
Delimit Scope m_scope with M.
Notation "x <- m ;; k" := (bind m (fun x => k))
  (at level 61, m at next level, right associativity) : m_scope.
Notation "' p <- m ;; k" := (bind m (fun x => match x with p => k end))
  (at level 61, p pattern, m at next level, right associativity) : m_scope.
Local Open Scope m_scope.

(** [a[i]] for an array held as a list. *)
Definition subscript {A} (a : list A) (i : Z) : option A :=
  if (i <? 0)%Z then None else nth_error a (Z.to_nat i).

(** [a[i] = v]; the caller has checked the subscript. *)
Fixpoint store {A} (a : list A) (i : nat) (v : A) : list A :=
  match a, i with
  | [], _ => []
  | _ :: t, O => v :: t
  | h :: t, S j => h :: store t j v
  end.

(** ** Storage accessor, interpolation and derived properties (ivlsu.c) *)

Definition sizeof_float : Z := 4.

(** [fseek(fp, offset, SEEK_SET)] *)
Definition fseek (fp : option FILE) (offset : Z) : M (option FILE) :=
  match fp with
  | None => undefined NullStream
  | Some f => ret (Some (mk_FILE (words f) offset))
  end.

(** [fread(&x, sizeof(float), 1, fp)] where [x] is a double: one word of the
    file, when there is one at the position, lands in the low bytes of [x]. *)
Definition fread_float (x : double) (fp : option FILE) : M double :=
  match fp with
  | None => undefined NullStream
  | Some f =>
      match subscript (words f) (position f / sizeof_float) with
      | Some w => ret (store_low_word w x)
      | None => ret x
      end
  end.

(** [ivlsu_read_properties]: [data] is the struct behind the out-pointer.  The
    function sets three fields to -1, computes the flat location and then
    dispatches on [vp_status].  In the file branch the local [fp] still holds
    its initialiser NULL when it is handed to [fseek].  The location is
    written here as an integer; the [int] arithmetic of line 291 is
    [int_location] below, and the two agree at the lattice points of a grid
    of at most INT_MAX samples. *)
Definition ivlsu_read_properties (g : globals) (x y z : Z)
    (data : ivlsu_properties_t) : M ivlsu_properties_t :=
  _ <- called (x, y, z) ;;
  let data := set_vp (-1) data in
  let data := set_vs (-1) data in
  let data := set_rho (-1) data in
  let fp : option FILE := None in
  cfg <- lift NullDereference (ivlsu_configuration g) ;;
  let location := (z * (nx cfg * ny cfg) + y * nx cfg + x)%Z in
  model <- lift NullDereference (ivlsu_velocity_model g) ;;
  if (vp_status model =? 2)%Z then
    match vp_ptr model with
    | Samples ptr =>
        v <- lift OutOfBounds (subscript ptr location) ;;
        ret (set_vp v data)
    | _ => undefined NotAnArray
    end
  else if (vp_status model =? 1)%Z then
    fp <- fseek fp (location * sizeof_float) ;;
    v <- fread_float (vp data) fp ;;
    ret (set_vp v data)
  else ret data.

(** [ivlsu_linear_interpolation]: writes vp, vs and rho of [*ret_properties]. *)
Definition ivlsu_linear_interpolation (percent : double)
    (x0 x1 ret_properties : ivlsu_properties_t) : ivlsu_properties_t :=
  let r := set_vp ((1 - percent) * vp x0 + percent * vp x1) ret_properties in
  let r := set_vs ((1 - percent) * vs x0 + percent * vs x1) r in
  set_rho ((1 - percent) * rho x0 + percent * rho x1) r.

(** What [calloc] hands out: all bytes zero. *)
Definition calloc_properties : ivlsu_properties_t := mk_properties 0 0 0 0 0.

(** [four_points[k]]; the callers pass arrays that hold the elements read. *)
Definition element (a : list ivlsu_properties_t) (k : nat) : ivlsu_properties_t :=
  nth k a calloc_properties.

(** [ivlsu_bilinear_interpolation] *)
Definition ivlsu_bilinear_interpolation (x_percent y_percent : double)
    (four_points : list ivlsu_properties_t)
    (ret_properties : ivlsu_properties_t) : ivlsu_properties_t :=
  let temp_array_0 := calloc_properties in
  let temp_array_1 := calloc_properties in
  let temp_array_0 :=
    ivlsu_linear_interpolation x_percent (element four_points 0)
      (element four_points 1) temp_array_0 in
  let temp_array_1 :=
    ivlsu_linear_interpolation x_percent (element four_points 2)
      (element four_points 3) temp_array_1 in
  ivlsu_linear_interpolation y_percent temp_array_0 temp_array_1 ret_properties.

(** [ivlsu_trilinear_interpolation]: top plane first, then [four_points += 4]. *)
Definition ivlsu_trilinear_interpolation (x_percent y_percent z_percent : double)
    (eight_points : list ivlsu_properties_t)
    (ret_properties : ivlsu_properties_t) : ivlsu_properties_t :=
  let temp_array_0 := calloc_properties in
  let temp_array_1 := calloc_properties in
  let four_points := eight_points in
  let temp_array_0 :=
    ivlsu_bilinear_interpolation x_percent y_percent four_points temp_array_0 in
  let four_points := skipn 4 four_points in
  let temp_array_1 :=
    ivlsu_bilinear_interpolation x_percent y_percent four_points temp_array_1 in
  ivlsu_linear_interpolation z_percent temp_array_0 temp_array_1 ret_properties.

(** [ivlsu_calculate_density] *)
Definition ivlsu_calculate_density (vp : double) : double :=
  let vp := vp * 0.001 in
  let t1 := vp * 1.6612 in
  let t2 := (vp * vp) * 0.4721 in
  let t3 := (vp * vp * vp) * 0.0671 in
  let t4 := (vp * vp * vp * vp) * 0.0043 in
  let t5 := (vp * vp * vp * vp * vp) * 0.000106 in
  let retVal := t1 - t2 + t3 - t4 + t5 in
  let retVal := if retVal <? 1.0 then 1.0 else retVal in
  retVal * 1000.0.

(** [ivlsu_calculate_vs] *)
Definition ivlsu_calculate_vs (vp : double) : double :=
  let vp := vp * 0.001 in
  let t1 := vp * 1.2344 in
  let t2 := (vp * vp) * 0.7949 in
  let t3 := (vp * vp * vp) * 0.1238 in
  let t4 := (vp * vp * vp * vp) * 0.0064 in
  let retVal := 0.7858 - t1 + t2 - t3 + t4 in
  retVal * 1000.0.

(** ** Version string (ivlsu_version) *)

Section Version.

Local Open Scope Z_scope.

(** [ivlsu_version_string] of ivlsu.h *)
Definition ivlsu_version_string : string := "IMPERIAL".

(** An [int] converted to [size_t], 64 bits wide. *)
Definition to_size_t (n : Z) : Z := n mod 2 ^ 64.

(** [memset(s, 0, n)]: the first n bytes of the buffer become 0; writing past
    the buffer is undefined. *)
Definition memset_zero (s : list ascii) (n : Z) : outcome (list ascii) :=
  let n := to_size_t n in
  if (n <=? Z.of_nat (List.length s))%Z
  then Ok (repeat Ascii.zero (Z.to_nat n) ++ skipn (Z.to_nat n) s)
  else Undefined OutOfBounds.

(** [strncpy(dst, src, n)]: exactly n bytes are written, the characters of
    [src] as far as n allows, then zeros; no terminator unless there is room. *)
Definition strncpy (dst : list ascii) (src : string) (n : Z) : outcome (list ascii) :=
  let n := to_size_t n in
  if (n <=? Z.of_nat (List.length dst))%Z then
    let k := Z.to_nat n in
    let chars := list_ascii_of_string src in
    Ok (firstn k chars ++ repeat Ascii.zero (k - List.length chars) ++ skipn k dst)
  else Undefined OutOfBounds.

(** [ivlsu_version]: [ver] is the caller's buffer, [len] its declared size;
    the result is the return value with the buffer afterwards.  [len - 1] is
    an [int] for every [len] above INT_MIN. *)
Definition ivlsu_version (ver : list ascii) (len : Z) : outcome (Z * list ascii) :=
  let verlen := Z.of_nat (String.length ivlsu_version_string) in
  let verlen := if (len - 1 <? verlen)%Z then (len - 1)%Z else verlen in
  match memset_zero ver len with
  | Undefined why => Undefined why
  | Ok ver =>
      match strncpy ver ivlsu_version_string verlen with
      | Undefined why => Undefined why
      | Ok ver => Ok (0%Z, ver)
      end
  end.

(** The C string a buffer holds: its bytes up to the first zero. *)
Fixpoint c_string (s : list ascii) : list ascii :=
  match s with
  | [] => []
  | c :: t => if Ascii.eqb c Ascii.zero then [] else c :: c_string t
  end.

End Version.

(** ** Initialization (ivlsu_init and its helpers) *)

(** What initialization finds on the machine: the configuration file (absent,
    or the assignments its lines make to the calloc'ed struct), the words of
    [vp.dat] when it is readable, and whether [malloc] grants the array. *)
Record host := mk_host {
  config_file : option (ivlsu_configuration_t -> ivlsu_configuration_t);
  vp_dat : option (list Z);
  malloc_succeeds : bool;
  proj_create_crs_to_crs : Z -> option PJ
}.

Definition calloc_configuration : ivlsu_configuration_t :=
  mk_configuration 0 EmptyString 0 0 0 0 0 0 0 0 0 0 0 0 0 0.

Definition calloc_model : ivlsu_model_t := mk_model NullPointer 0.

Definition string_is_empty (s : string) : bool :=
  match s with
  | EmptyString => true
  | String _ _ => false
  end.

(** [ivlsu_read_configuration]: the parse loop, then the check that no
    parameter is left at zero. *)
Definition ivlsu_read_configuration
    (fp : option (ivlsu_configuration_t -> ivlsu_configuration_t))
    (config : ivlsu_configuration_t) : Z * ivlsu_configuration_t :=
  match fp with
  | None => (FAIL, config)
  | Some parse =>
      let config := parse config in
      if (utm_zone config =? 0)%Z || (nx config =? 0)%Z || (ny config =? 0)%Z
         || (nz config =? 0)%Z || string_is_empty (model_dir config)
         || (top_left_corner_e config =? 0) || (top_left_corner_n config =? 0)
         || (top_right_corner_e config =? 0) || (top_right_corner_n config =? 0)
         || (bottom_left_corner_e config =? 0) || (bottom_left_corner_n config =? 0)
         || (bottom_right_corner_e config =? 0) || (bottom_right_corner_n config =? 0)
         || (cfg_depth config =? 0) || (depth_interval config =? 0)
      then (FAIL, config)
      else (SUCCESS, config)
  end.

(** [ivlsu_try_reading_model]: 2 when the samples are in memory, SUCCESS when
    the file is found but left on disk, FAIL when there is no file.  A file
    shorter than nx*ny*nz floats leaves the tail of the array unwritten; the
    model keeps only the part that was read.  The count is written here as an
    integer; the [int] product of line 575 is [int_sample_count] below. *)
Definition ivlsu_try_reading_model (h : host) (cfg : ivlsu_configuration_t)
    (model : ivlsu_model_t) : Z * ivlsu_model_t :=
  let count := (nx cfg * ny cfg * nz cfg)%Z in
  match vp_dat h with
  | Some file =>
      if malloc_succeeds h then
        (2%Z, mk_model (Samples (map float_of_bits (firstn (Z.to_nat count) file))) 2)
      else
        (SUCCESS, mk_model (Stream (mk_FILE file 0)) 1)
  | None => (FAIL, model)
  end.

Section Model.

Variable E : externals.

(** [ivlsu_init] *)
Definition ivlsu_init (h : host) (g : globals) : Z * globals :=
  let configuration := calloc_configuration in
  let velocity_model := calloc_model in
  let '(rc, configuration) := ivlsu_read_configuration (config_file h) configuration in
  let g := mk_globals (ivlsu_is_initialized g) (Some configuration) (Some velocity_model)
             (ivlsu_cos_rotation_angle g) (ivlsu_sin_rotation_angle g)
             (ivlsu_total_height_m g) (ivlsu_total_width_m g) (ivlsu_geo2utm g) in
  if negb (rc =? SUCCESS)%Z then (FAIL, g)
  else
    let '(tempVal, velocity_model) :=
      ivlsu_try_reading_model h configuration velocity_model in
    let g := mk_globals (ivlsu_is_initialized g) (Some configuration) (Some velocity_model)
               (ivlsu_cos_rotation_angle g) (ivlsu_sin_rotation_angle g)
               (ivlsu_total_height_m g) (ivlsu_total_width_m g) (ivlsu_geo2utm g) in
    if (tempVal =? FAIL)%Z then (FAIL, g)
    else
      let north_height_m :=
        top_left_corner_n configuration - bottom_left_corner_n configuration in
      let east_width_m :=
        top_left_corner_e configuration - bottom_left_corner_e configuration in
      let rotation_angle := c_atan E (east_width_m / north_height_m) in
      let total_height_m :=
        PrimFloat.sqrt
          (c_pow E (top_left_corner_n configuration - bottom_left_corner_n configuration) 2
           + c_pow E (top_left_corner_e configuration - bottom_left_corner_e configuration) 2) in
      let total_width_m :=
        PrimFloat.sqrt
          (c_pow E (top_right_corner_n configuration - top_left_corner_n configuration) 2
           + c_pow E (top_right_corner_e configuration - top_left_corner_e configuration) 2) in
      let geo2utm := proj_create_crs_to_crs h (utm_zone configuration) in
      let g := mk_globals (ivlsu_is_initialized g) (Some configuration) (Some velocity_model)
                 (c_cos E rotation_angle) (c_sin E rotation_angle)
                 total_height_m total_width_m geo2utm in
      match geo2utm with
      | None => (UCVM_CODE_ERROR E, g)
      | Some _ => (SUCCESS, set_is_initialized 1 g)
      end.

(** ** Query (to_utm and ivlsu_query) *)

(** [to_utm]: the two out-parameters are written only when PROJ reports no
    error; the pair returned with the code is their content afterwards. *)
Definition to_utm (g : globals) (lon lat : double) (point_u point_v : double)
    : Z * (double * double) :=
  let '(err, (x, y)) := proj_trans_fwd E (ivlsu_geo2utm g) lat lon in
  if negb (err =? 0)%Z then (UCVM_CODE_ERROR E, (point_u, point_v))
  else (err, (x, y)).

(** The locals of [ivlsu_query] that live across loop iterations. *)
Record locals := mk_locals {
  point_u : double;
  point_v : double;
  surrounding_points : list ivlsu_properties_t
}.

(** Lines 184-196: transform, shift to the bottom-left corner, rotate.  The
    code returned by [to_utm] is not looked at. *)
Definition project (g : globals) (cfg : ivlsu_configuration_t)
    (p : ivlsu_point_t) (l : locals) : double * double * (double * double) :=
  let '(_, (point_u, point_v)) :=
    to_utm g (longitude p) (latitude p) (point_u l) (point_v l) in
  let point_u := point_u - bottom_left_corner_e cfg in
  let point_v := point_v - bottom_left_corner_n cfg in
  let point_x :=
    ivlsu_cos_rotation_angle g * point_u - ivlsu_sin_rotation_angle g * point_v in
  let point_y :=
    ivlsu_sin_rotation_angle g * point_u + ivlsu_cos_rotation_angle g * point_v in
  (point_u, point_v, (point_x, point_y)).

(** Lines 169-170. *)
Definition delta_lon (cfg : ivlsu_configuration_t) : double :=
  (top_right_corner_e cfg - bottom_left_corner_e cfg) / int_to_double (nx cfg - 1).
Definition delta_lat (cfg : ivlsu_configuration_t) : double :=
  (top_right_corner_n cfg - bottom_left_corner_n cfg) / int_to_double (ny cfg - 1).

(** Lines 203-205, in the order (x, y, z). *)
Definition load_coords (cfg : ivlsu_configuration_t) (p : ivlsu_point_t)
    (point_x point_y : double) : option lattice_index :=
  match double_to_int (c_round (point_y / delta_lat cfg)) with
  | None => None
  | Some load_y_coord =>
      match double_to_int (c_round (point_x / delta_lon cfg)) with
      | None => None
      | Some load_x_coord =>
          match double_to_int (depth p / 1000) with
          | None => None
          | Some load_z_coord => Some (load_x_coord, load_y_coord, load_z_coord)
          end
      end
  end.

(** Line 210. *)
Definition outside (cfg : ivlsu_configuration_t) (p : ivlsu_point_t)
    (c : lattice_index) : bool :=
  let '(load_x_coord, load_y_coord, load_z_coord) := c in
  (cfg_depth cfg <? depth p)
  || (nx cfg - 1 <? load_x_coord)%Z || (ny cfg - 1 <? load_y_coord)%Z
  || (load_x_coord <? 0)%Z || (load_y_coord <? 0)%Z || (load_z_coord <? 0)%Z.

(** Lines 218-226. *)
Definition x_interval (g : globals) (cfg : ivlsu_configuration_t) : double :=
  if (1 <? nx cfg)%Z then ivlsu_total_width_m g / int_to_double (nx cfg - 1)
  else ivlsu_total_width_m g.
Definition y_interval (g : globals) (cfg : ivlsu_configuration_t) : double :=
  if (1 <? ny cfg)%Z then ivlsu_total_height_m g / int_to_double (ny cfg - 1)
  else ivlsu_total_height_m g.
Definition x_percent (g : globals) (cfg : ivlsu_configuration_t) (point_u : double) :=
  c_fmod point_u (x_interval g cfg) / x_interval g cfg.
Definition y_percent (g : globals) (cfg : ivlsu_configuration_t) (point_v : double) :=
  c_fmod point_v (y_interval g cfg) / y_interval g cfg.
Definition z_percent (cfg : ivlsu_configuration_t) (p : ivlsu_point_t) : double :=
  c_fmod (depth p) (depth_interval cfg) / depth_interval cfg.

(** [ivlsu_read_properties(x, y, z, &(a[k]))] *)
Definition read_into (g : globals) (x y z : Z) (a : list ivlsu_properties_t)
    (k : nat) : M (list ivlsu_properties_t) :=
  d <- ivlsu_read_properties g x y z (element a k) ;;
  ret (store a k d).

(** Lines 230-261: [d] is [data[i]], [sp] the array [surrounding_points]. *)
Definition gather (g : globals) (cfg : ivlsu_configuration_t) (c : lattice_index)
    (x_percent y_percent z_percent : double)
    (d : ivlsu_properties_t) (sp : list ivlsu_properties_t)
    : M (ivlsu_properties_t * list ivlsu_properties_t) :=
  let '(load_x_coord, load_y_coord, load_z_coord) := c in
  if (load_z_coord =? 0)%Z && (z_percent =? 0) then
    let load_z_coord := 0%Z in
    if negb (interpolation cfg =? 0)%Z then
      sp <- read_into g load_x_coord load_y_coord load_z_coord sp 0 ;;
      sp <- read_into g (load_x_coord + 1) load_y_coord load_z_coord sp 1 ;;
      sp <- read_into g load_x_coord (load_y_coord + 1) load_z_coord sp 2 ;;
      sp <- read_into g (load_x_coord + 1) (load_y_coord + 1) load_z_coord sp 3 ;;
      ret (ivlsu_bilinear_interpolation x_percent y_percent sp d, sp)
    else
      d <- ivlsu_read_properties g load_x_coord load_y_coord load_z_coord d ;;
      ret (d, sp)
  else
    if negb (interpolation cfg =? 0)%Z then
      sp <- read_into g load_x_coord load_y_coord load_z_coord sp 0 ;;
      sp <- read_into g (load_x_coord + 1) load_y_coord load_z_coord sp 1 ;;
      sp <- read_into g load_x_coord (load_y_coord + 1) load_z_coord sp 2 ;;
      sp <- read_into g (load_x_coord + 1) (load_y_coord + 1) load_z_coord sp 3 ;;
      sp <- read_into g load_x_coord load_y_coord (load_z_coord - 1) sp 4 ;;
      sp <- read_into g (load_x_coord + 1) load_y_coord (load_z_coord - 1) sp 5 ;;
      sp <- read_into g load_x_coord (load_y_coord + 1) (load_z_coord - 1) sp 6 ;;
      sp <- read_into g (load_x_coord + 1) (load_y_coord + 1) (load_z_coord - 1) sp 7 ;;
      ret (ivlsu_trilinear_interpolation x_percent y_percent z_percent sp d, sp)
    else
      d <- ivlsu_read_properties g load_x_coord load_y_coord load_z_coord d ;;
      ret (d, sp).

(** The all-sentinel tuple of lines 176-180 and the three fields of lines 211-213. *)
Definition no_data_5 (d : ivlsu_properties_t) : ivlsu_properties_t :=
  set_qs (-1) (set_qp (-1) (set_rho (-1) (set_vs (-1) (set_vp (-1) d)))).
Definition no_data_3 (d : ivlsu_properties_t) : ivlsu_properties_t :=
  set_rho (-1) (set_vs (-1) (set_vp (-1) d)).

(** Lines 263-264. *)
Definition derive (d : ivlsu_properties_t) : ivlsu_properties_t :=
  let d := set_rho (ivlsu_calculate_density (vp d)) d in
  set_vs (ivlsu_calculate_vs (vp d)) d.

(** One iteration of the loop of [ivlsu_query]: [p] is [points[i]], [d] the
    content of [data[i]] on entry; the result is its content afterwards. *)
Definition query_point (g : globals) (cfg : ivlsu_configuration_t)
    (p : ivlsu_point_t) (d : ivlsu_properties_t) (l : locals)
    : M (ivlsu_properties_t * locals) :=
  if depth p <? 0 then ret (no_data_5 d, l)
  else
    let '(point_u, point_v, (point_x, point_y)) := project g cfg p l in
    let l := mk_locals point_u point_v (surrounding_points l) in
    c <- lift IntConversion (load_coords cfg p point_x point_y) ;;
    if outside cfg p c then ret (no_data_3 d, l)
    else
      ' (d, sp) <- gather g cfg c (x_percent g cfg point_u) (y_percent g cfg point_v)
                     (z_percent cfg p) d (surrounding_points l) ;;
      ret (derive d, mk_locals point_u point_v sp).

(** [for (i = 0; i < numpoints; i++)], with [count] iterations left. *)
Fixpoint query_loop (g : globals) (cfg : ivlsu_configuration_t) (count i : nat)
    (points : list ivlsu_point_t) (data : list ivlsu_properties_t) (l : locals)
    : M (list ivlsu_properties_t) :=
  match count with
  | O => ret data
  | S count' =>
      p <- lift OutOfBounds (nth_error points i) ;;
      d <- lift OutOfBounds (nth_error data i) ;;
      ' (d, l) <- query_point g cfg p d l ;;
      query_loop g cfg count' (S i) points (store data i d) l
  end.

(** [ivlsu_query]: [data] is the caller's array on entry, [garbage] what the
    stack holds where [surrounding_points] is placed.  The result is the
    return code with the array on exit. *)
Definition ivlsu_query (g : globals) (garbage : ivlsu_properties_t)
    (points : list ivlsu_point_t) (data : list ivlsu_properties_t)
    (numpoints : Z) : M (Z * list ivlsu_properties_t) :=
  cfg <- lift NullDereference (ivlsu_configuration g) ;;
  data <- query_loop g cfg (Z.to_nat numpoints) 0 points data
            (mk_locals 0 0 (repeat garbage 8)) ;;
  ret (SUCCESS, data).

End Model.

(** ** A small installation: a 2 x 2 x 2 grid over an axis-aligned square *)

Module Example.

(** Stand-ins for libm that agree with it at the arguments an axis-aligned
    grid produces ([atan 0], [cos 0], [sin 0], [pow x 2]), and a stand-in for
    the PROJ transform: a scaling that reports an error for latitudes beyond
    the poles and hands back infinities then. *)
Definition E : externals :=
  mk_externals
    (fun x => x)
    (fun _ => 1)
    (fun x => x)
    (fun x _ => x * x)
    (fun _ lat lon =>
       if (90 <? lat) || (lat <? -90) then (2049%Z, (infinity, infinity))
       else (0%Z, (1000 * lon, 1000 * lat)))
    1.

Definition cfg : ivlsu_configuration_t :=
  mk_configuration 11 "ivlsu" 2 2 2 1000
    1000 2000 2000 2000 1000 1000 2000 1000 1000 1.

(** The floats 100, 200, ..., 800 as the words of vp.dat. *)
Definition vp_words : list Z :=
  [1120403456; 1128792064; 1133903872; 1137180672;
   1140457472; 1142292480; 1143930880; 1145569280]%Z.

Definition h : host :=
  mk_host (Some (fun _ => cfg)) (Some vp_words) true (fun zone => Some zone).

(** The variables after a successful [ivlsu_init]. *)
Definition g : globals := snd (ivlsu_init E h globals0).

(** The same machine without vp.dat, and the variables after the failed
    [ivlsu_init] there. *)
Definition h_without_vp_dat : host :=
  mk_host (Some (fun _ => cfg)) None true (fun zone => Some zone).

Definition g_not_ready : globals := snd (ivlsu_init E h_without_vp_dat globals0).

(** A slot of the caller's output array as [calloc] hands it out. *)
Definition zeros : ivlsu_properties_t := calloc_properties.

(** The same installation configured with interpolation off. *)
Definition cfg_nearest : ivlsu_configuration_t :=
  mk_configuration 11 "ivlsu" 2 2 2 1000
    1000 2000 2000 2000 1000 1000 2000 1000 1000 0.

Definition g_nearest : globals :=
  snd (ivlsu_init E (mk_host (Some (fun _ => cfg_nearest)) (Some vp_words) true
                       (fun zone => Some zone)) globals0).

(** The variables after an [ivlsu_init] that accepted the configuration with
    interpolation off and then found no vp.dat. *)
Definition g_nearest_not_ready : globals :=
  snd (ivlsu_init E (mk_host (Some (fun _ => cfg_nearest)) None true
                       (fun zone => Some zone)) globals0).

(** The example machine when [malloc] refuses the sample array. *)
Definition h_without_memory : host :=
  mk_host (Some (fun _ => cfg)) (Some vp_words) false (fun zone => Some zone).

(** The same square with a single layer of samples, and the variables after
    a successful [ivlsu_init] there. *)
Definition cfg_one_layer : ivlsu_configuration_t :=
  mk_configuration 11 "ivlsu" 2 2 1 1000
    1000 2000 2000 2000 1000 1000 2000 1000 1000 1.

Definition g_one_layer : globals :=
  snd (ivlsu_init E (mk_host (Some (fun _ => cfg_one_layer)) (Some vp_words) true
                       (fun zone => Some zone)) globals0).

(** A grid of 65536 x 65536 x 2 samples. *)
Definition cfg_wide : ivlsu_configuration_t :=
  mk_configuration 11 "ivlsu" 65536 65536 2 1000
    1000 2000 2000 2000 1000 1000 2000 1000 1000 1.

(** A caller's buffer of four bytes. *)
Definition four_bytes : list ascii := ["x"; "x"; "x"; "x"]%char.

(** Two tuples of finite values, and eight of them. *)
Definition rock : ivlsu_properties_t := mk_properties 1500 800 2000 (-1) (-1).
Definition hard_rock : ivlsu_properties_t := mk_properties 6000 3400 2700 (-1) (-1).
Definition cube : list ivlsu_properties_t :=
  [rock; hard_rock; rock; hard_rock; hard_rock; rock; hard_rock; rock].

End Example.

(** ** The spec's words for the index and fraction formulas (sections 4.2) *)

Module Spec.

(** The floor of the exact value of a double; NaN and infinities have none. *)
Definition floor (x : double) : option Z :=
  match Prim2SF x with
  | S754_zero _ => Some 0%Z
  | S754_finite s m e => Some (Z.shiftl (cond_Zopp s (Z.pos m)) e)
  | _ => None
  end.

(** An index is an [int]. *)
Definition as_int (z : option Z) : option Z :=
  match z with
  | Some v => if in_int v then Some v else None
  | None => None
  end.

(** "spacing values ... computed from corner coordinates divided by (n-1)" *)
Definition lonSpacing (cfg : ivlsu_configuration_t) : double :=
  (top_right_corner_e cfg - bottom_left_corner_e cfg) / int_to_double (nx cfg - 1).
Definition latSpacing (cfg : ivlsu_configuration_t) : double :=
  (top_right_corner_n cfg - bottom_left_corner_n cfg) / int_to_double (ny cfg - 1).

(** "yIndex = round(y / latSpacing), xIndex = round(x / lonSpacing),
    zIndex = floor(depth / 1000)" *)
Definition xIndex (cfg : ivlsu_configuration_t) (x : double) : option Z :=
  double_to_int (c_round (x / lonSpacing cfg)).
Definition yIndex (cfg : ivlsu_configuration_t) (y : double) : option Z :=
  double_to_int (c_round (y / latSpacing cfg)).
Definition zIndex (depth : double) : option Z :=
  as_int (floor (depth / 1000)).

(** "zPercent = (depth mod depth_interval) / depth_interval" *)
Definition zPercent (depth_interval depth : double) : double :=
  c_fmod depth depth_interval / depth_interval.

Definition indices (cfg : ivlsu_configuration_t) (x y depth : double)
    : option lattice_index :=
  match xIndex cfg x, yIndex cfg y, zIndex depth with
  | Some i, Some j, Some k => Some (i, j, k)
  | _, _, _ => None
  end.

End Spec.

(** The configuration with another vertical sample spacing. *)
Definition with_depth_interval (v : double) (c : ivlsu_configuration_t)
    : ivlsu_configuration_t :=
  mk_configuration (utm_zone c) (model_dir c) (nx c) (ny c) (nz c) (cfg_depth c)
    (top_left_corner_e c) (top_left_corner_n c) (top_right_corner_e c)
    (top_right_corner_n c) (bottom_left_corner_e c) (bottom_left_corner_n c)
    (bottom_right_corner_e c) (bottom_right_corner_n c) v (interpolation c).

(** The all-sentinel tuple. *)
Definition sentinel : ivlsu_properties_t := mk_properties (-1) (-1) (-1) (-1) (-1).

(** C's [==] on the three fields the interpolation writes. *)
Definition same_vp_vs_rho (a b : ivlsu_properties_t) : bool :=
  (vp a =? vp b) && (vs a =? vs b) && (rho a =? rho b).

(** A tuple whose vp, vs and rho are numbers (neither NaN nor infinite). *)
Definition finite_properties (a : ivlsu_properties_t) : bool :=
  finite (vp a) && finite (vs a) && finite (rho a).

(** [x] is one of the lattice indices of a grid with [n] points on that axis. *)
Definition in_range (n x : Z) : bool := (0 <=? x)%Z && (x <=? n - 1)%Z.

Definition in_grid (cfg : ivlsu_configuration_t) (c : lattice_index) : bool :=
  let '(x, y, z) := c in
  in_range (nx cfg) x && in_range (ny cfg) y && in_range (nz cfg) z.

(** The reads of one plane: the origin, +1x, +1y, +1x+1y. *)
Definition plane (x y z : Z) : list lattice_index :=
  [(x, y, z); (x + 1, y, z); (x, y + 1, z); (x + 1, y + 1, z)]%Z.

(** The variables with a given configuration and model. *)
Definition with_store (cfg : ivlsu_configuration_t) (m : ivlsu_model_t) (g : globals)
    : globals :=
  mk_globals (ivlsu_is_initialized g) (Some cfg) (Some m)
    (ivlsu_cos_rotation_angle g) (ivlsu_sin_rotation_angle g)
    (ivlsu_total_height_m g) (ivlsu_total_width_m g) (ivlsu_geo2utm g).

(** The locals of [ivlsu_query] on entry to the loop, over a zeroed stack. *)
Definition locals0 : locals := mk_locals 0 0 (repeat Example.zeros 8).

(** The flat position of the lattice point (x, y, z) in the sample array:
    the value of the expression of line 291 as an integer. *)
Definition flat_location (cfg : ivlsu_configuration_t) (c : lattice_index) : Z :=
  let '(x, y, z) := c in
  (z * (nx cfg * ny cfg) + y * nx cfg + x)%Z.

(** Arithmetic in [int]: a result that is not an [int] is a signed overflow
    and has no value. *)
Definition int_result (r : Z) : option Z := if in_int r then Some r else None.
Definition int_mul (a b : Z) : option Z := int_result (a * b).
Definition int_add (a b : Z) : option Z := int_result (a + b).

(** The expression of line 291 with every operation taken in [int]:
    [z * (nx * ny) + (y * nx) + x]. *)
Definition int_location (cfg : ivlsu_configuration_t) (c : lattice_index) : option Z :=
  let '(x, y, z) := c in
  match int_mul (nx cfg) (ny cfg) with
  | None => None
  | Some plane_size =>
      match int_mul z plane_size, int_mul y (nx cfg) with
      | Some a, Some b =>
          match int_add a b with
          | Some s => int_add s x
          | None => None
          end
      | _, _ => None
      end
  end.

(** The number of samples of line 575, [nx * ny * nz] taken in [int]. *)
Definition int_sample_count (cfg : ivlsu_configuration_t) : option Z :=
  match int_mul (nx cfg) (ny cfg) with
  | Some a => int_mul a (nz cfg)
  | None => None
  end.

(** The sample of the array [buf] that belongs to a lattice point. *)
Definition sample (cfg : ivlsu_configuration_t) (buf : list double) (c : lattice_index)
    : option double :=
  match int_location cfg c with
  | Some i => subscript buf i
  | None => None
  end.

(** What a read that found the sample [v] leaves in a slot. *)
Definition read_as (v : double) (slot : ivlsu_properties_t) : ivlsu_properties_t :=
  mk_properties v (-1) (-1) (qp slot) (qs slot).

(** The array [surrounding_points] after reads that found the samples
    [vals] have filled its first slots in order. *)
Fixpoint refill (vals : list double) (sp : list ivlsu_properties_t)
    : list ivlsu_properties_t :=
  match vals, sp with
  | v :: vals', slot :: sp' => read_as v slot :: refill vals' sp'
  | _, _ => sp
  end.

(** What an iteration leaves in [data[i]], without the locals it hands on. *)
Definition answer (r : outcome (ivlsu_properties_t * locals) * list lattice_index)
    : outcome ivlsu_properties_t * list lattice_index :=
  match r with
  | (Ok (d, _), log) => (Ok d, log)
  | (Undefined why, log) => (Undefined why, log)
  end.

(** Two tuples with the same vp, vs and rho. *)
Definition agree (a b : ivlsu_properties_t) : Prop :=
  vp a = vp b /\ vs a = vs b /\ rho a = rho b.

(** A mantissa followed by [k] zero bits. *)
Fixpoint shift_left (m : positive) (k : nat) : positive :=
  match k with
  | O => m
  | S k' => xO (shift_left m k')
  end.

(** Equal as C's [==] sees numbers: the same value, or two zeros of any sign. *)
Definition sf_same (x a : spec_float) : Prop :=
  match x, a with
  | S754_zero _, S754_zero _ => True
  | _, _ => x = a
  end.

Definition same (x a : double) : Prop := sf_same (Prim2SF x) (Prim2SF a).

Definition same_properties (r a : ivlsu_properties_t) : Prop :=
  same (vp r) (vp a) /\ same (vs r) (vs a) /\ same (rho r) (rho a).

(** Sign classes of binary64 values: a zero of any sign or a value with the
    sign [s]; infinities; zeros. *)
Definition sgn_ok (s : bool) (x : spec_float) : Prop :=
  match x with
  | S754_zero _ => True
  | S754_finite s' _ _ | S754_infinity s' => s' = s
  | S754_nan => False
  end.

Definition is_inf (x : spec_float) : Prop :=
  match x with
  | S754_infinity _ => True
  | _ => False
  end.

Definition is_zero (x : spec_float) : Prop :=
  match x with
  | S754_zero _ => True
  | _ => False
  end.

Definition cls (s : bool) (x : double) : Prop := sgn_ok s (Prim2SF x).

(** [w] is infinite when [v] is and zero when [v] is, as a power of [v]. *)
Definition follows (v w : double) : Prop :=
  (is_inf (Prim2SF v) -> is_inf (Prim2SF w))
  /\ (is_zero (Prim2SF v) -> is_zero (Prim2SF w)).

(** A computation that only appends to the record of reads and never looks
    at it: started from any record, it does what it does from the empty one. *)
Definition log_parametric {A} (m : M A) : Prop :=
  forall log, m log = (fst (m []), log ++ snd (m [])).

(** The value an iteration writes, when it is defined. *)
Definition written (r : outcome (ivlsu_properties_t * locals) * list lattice_index)
    : option ivlsu_properties_t :=
  match r with
  | (Ok (d, _), _) => Some d
  | (Undefined _, _) => None
  end.

(** * Properties *)

(** ** Arrays and the bookkeeping of outcomes *)

Lemma store_same {A} (a : list A) (i : nat) (v w : A) :
  nth_error a i = Some w -> nth_error (store a i v) i = Some v.
Proof.
  revert i; induction a as [|h t IH]; intros [|i] H; simpl in *; try discriminate; auto.
Qed.

Lemma store_other {A} (a : list A) (i j : nat) (v : A) :
  i <> j -> nth_error (store a i v) j = nth_error a j.
Proof.
  revert i j; induction a as [|h t IH]; intros [|i] [|j] H; simpl; auto.
  contradiction.
Qed.

Lemma store_length {A} (a : list A) (i : nat) (v : A) :
  List.length (store a i v) = List.length a.
Proof.
  revert i; induction a as [|h t IH]; intros [|i]; simpl; auto.
Qed.

Ltac run := unfold bind, ret, lift, undefined, called in *; simpl in *.

Section Properties.

Variable E : externals.

(** The loop writes [data[i]] in iteration i only: slots it has passed keep
    their content to the end of the call. *)
Lemma query_loop_keeps_earlier_slots g cfg points :
  forall count j data l log out log',
    query_loop E g cfg count j points data l log = (Ok out, log') ->
    forall i, (i < j)%nat -> nth_error out i = nth_error data i.
Proof.
  induction count as [|count IH]; intros j data l log out log' H i Hi.
  - simpl in H. run. now inversion H.
  - simpl in H. run.
    destruct (nth_error points j) as [p|]; simpl in H; [|discriminate].
    destruct (nth_error data j) as [d|]; simpl in H; [|discriminate].
    destruct (query_point E g cfg p d l log) as [[[d' l']|why] log1]; [|discriminate].
    rewrite (IH _ _ _ _ _ _ H i) by lia.
    apply store_other; lia.
Qed.


(** ** Points above the surface *)

(** C8.  A query point with [depth < 0] gets the tuple with all five fields at
    -1, and the loop goes on with the next point: the iteration changes
    nothing but [data[i]] (no lattice read, no local touched), and the slot
    still holds the all-sentinel tuple when the call returns. *)
Theorem negative_depth_is_all_sentinel :
  forall g cfg count i points data l log p d,
    nth_error points i = Some p ->
    nth_error data i = Some d ->
    (depth p <? 0) = true ->
    query_loop E g cfg (S count) i points data l log
    = query_loop E g cfg count (S i) points (store data i sentinel) l log
    /\ (forall out log',
          query_loop E g cfg (S count) i points data l log = (Ok out, log') ->
          nth_error out i = Some sentinel).
Proof.
  intros g cfg count i points data l log p d Hp Hd Hneg.
  assert (Hstep : query_loop E g cfg (S count) i points data l log
                  = query_loop E g cfg count (S i) points (store data i sentinel) l log).
  { simpl. unfold bind at 1. unfold lift at 1. rewrite Hp. unfold ret at 1.
    unfold bind at 1. unfold lift at 1. rewrite Hd. unfold ret at 1.
    unfold bind at 1. unfold query_point. rewrite Hneg. reflexivity. }
  split; [exact Hstep|].
  intros out log' H. rewrite Hstep in H.
  rewrite (query_loop_keeps_earlier_slots g cfg points _ _ _ _ _ _ _ H i) by lia.
  eapply store_same; eauto.
Qed.


(** ** The record of reads *)

(** Every call of the storage accessor adds its index triple to the record,
    whatever becomes of the read. *)
Lemma read_properties_log g x y z d log :
  snd (ivlsu_read_properties g x y z d log) = log ++ [(x, y, z)].
Proof.
  unfold ivlsu_read_properties. run.
  destruct (ivlsu_configuration g) as [cfg|]; simpl; auto.
  destruct (ivlsu_velocity_model g) as [model|]; simpl; auto.
  destruct (vp_status model =? 2)%Z.
  - destruct (vp_ptr model) as [|ptr|f]; simpl; auto.
    destruct (subscript ptr _); simpl; auto.
  - destruct (vp_status model =? 1)%Z; simpl; auto.
Qed.

Lemma read_into_log g x y z a k log :
  snd (read_into g x y z a k log) = log ++ [(x, y, z)].
Proof.
  unfold read_into, bind.
  pose proof (read_properties_log g x y z (element a k) log) as H.
  destruct (ivlsu_read_properties g x y z (element a k) log) as [[d|why] log1];
    simpl in *; auto.
Qed.



(** ** Index and fraction formulas *)

(** Rounding to a binary64 value keeps the sign it is given. *)
Lemma binary_round_aux_sign s m e l :
  match binary_round_aux prec emax s m e l with
  | S754_zero s' | S754_infinity s' | S754_finite s' _ _ => s' = s
  | S754_nan => True
  end.
Proof.
  unfold binary_round_aux.
  destruct (shr_fexp prec emax m e l) as [mrs' e'].
  destruct (shr_fexp prec emax _ e' loc_Exact) as [mrs'' e''].
  destruct (shr_m mrs''); auto.
  destruct (e'' <=? emax - prec)%Z; auto.
Qed.

(** A quotient by 1000 is negative only when the dividend is. *)
Lemma quotient_by_1000_not_negative d :
  (d <? 0) = false ->
  match Prim2SF (d / 1000) with
  | S754_finite true _ _ => False
  | _ => True
  end.
Proof.
  intro H. rewrite FloatAxioms.ltb_spec in H. rewrite FloatAxioms.div_spec.
  change (Prim2SF 1000) with (S754_finite false 8796093022208000 (-43)).
  change (Prim2SF 0) with (S754_zero false) in H.
  destruct (Prim2SF d) as [s|s| |s m e]; simpl; auto.
  destruct s; [discriminate H|].
  destruct (SFdiv_core_binary prec emax (Z.pos m) e 8796093022208000 (-43))
    as [[mz ez] lz].
  pose proof (binary_round_aux_sign false mz ez lz) as Hs. simpl.
  destruct (binary_round_aux prec emax false mz ez lz) as [s'|s'| |s' m' e']; auto.
  now subst s'.
Qed.

(** Truncation toward zero is the floor on values that are not negative. *)
Lemma truncation_is_floor q :
  match Prim2SF q with
  | S754_finite true _ _ => False
  | _ => True
  end ->
  double_to_int q = Spec.as_int (Spec.floor q).
Proof.
  unfold double_to_int, Spec.floor, Spec.as_int, truncate_mantissa.
  destruct (Prim2SF q) as [s|s| |s m e]; auto.
  destruct s; [contradiction|]. reflexivity.
Qed.

(** C5.  For a point that is not above the surface, the indices the query
    computes are the spec's: the vertical one is the floor of depth / 1000
    with the fixed 1000 m layer, whatever [depth_interval] the configuration
    holds, the horizontal ones are round(y / delta_lat) and
    round(x / delta_lon) with the deltas taken from the corner coordinates
    over (n - 1); the vertical fraction is (depth mod depth_interval) over
    depth_interval with the configured [depth_interval]. *)
Theorem indices_and_vertical_fraction :
  forall cfg p point_x point_y,
    (depth p <? 0) = false ->
    load_coords cfg p point_x point_y = Spec.indices cfg point_x point_y (depth p)
    /\ (forall other,
          load_coords (with_depth_interval other cfg) p point_x point_y
          = load_coords cfg p point_x point_y)
    /\ z_percent cfg p = Spec.zPercent (depth_interval cfg) (depth p).
Proof.
  intros cfg p point_x point_y Hdepth.
  split; [|split; reflexivity].
  unfold load_coords, Spec.indices, Spec.xIndex, Spec.yIndex, Spec.zIndex.
  fold (Spec.lonSpacing cfg) (Spec.latSpacing cfg).
  change (delta_lon cfg) with (Spec.lonSpacing cfg).
  change (delta_lat cfg) with (Spec.latSpacing cfg).
  rewrite <- (truncation_is_floor (depth p / 1000))
    by (apply quotient_by_1000_not_negative; exact Hdepth).
  destruct (double_to_int (c_round (point_y / Spec.latSpacing cfg)));
    destruct (double_to_int (c_round (point_x / Spec.lonSpacing cfg)));
    destruct (double_to_int (depth p / 1000)); reflexivity.
Qed.


(** ** A failed coordinate transform *)

(** When PROJ reports an error, [to_utm] returns [UCVM_CODE_ERROR] and leaves
    the out-parameters alone; [ivlsu_query] goes on with what they held: the
    values of the previous iteration, already shifted to the corner once. *)
Lemma failed_transform_keeps_stale_uv g cfg p l :
  fst (proj_trans_fwd E (ivlsu_geo2utm g) (latitude p) (longitude p)) <> 0%Z ->
  fst (to_utm E g (longitude p) (latitude p) (point_u l) (point_v l)) = UCVM_CODE_ERROR E
  /\ fst (project E g cfg p l)
     = (point_u l - bottom_left_corner_e cfg, point_v l - bottom_left_corner_n cfg).
Proof.
  intro H. unfold project, to_utm.
  destruct (proj_trans_fwd E (ivlsu_geo2utm g) (latitude p) (longitude p))
    as [err [x y]]; simpl in *.
  apply Z.eqb_neq in H. rewrite H. simpl. auto.
Qed.

(** ** The file-resident store *)

(** C3 on the code.  With [vp_status == 1] every lattice read hands the null
    [fp] to [fseek]: whatever stream [vp] holds, no byte of it is read. *)
Theorem file_resident_read_seeks_null_stream :
  forall g cfg ptr x y z d log,
    ivlsu_read_properties (with_store cfg (mk_model ptr 1) g) x y z d log
    = (Undefined NullStream, log ++ [(x, y, z)]).
Proof. reflexivity. Qed.

(** ** The fields qp and qs *)

Lemma read_properties_keeps_qp_qs g x y z d log d' log' :
  ivlsu_read_properties g x y z d log = (Ok d', log') ->
  qp d' = qp d /\ qs d' = qs d.
Proof.
  unfold ivlsu_read_properties. run.
  destruct (ivlsu_configuration g) as [cfg|]; simpl; [|discriminate].
  destruct (ivlsu_velocity_model g) as [model|]; simpl; [|discriminate].
  destruct (vp_status model =? 2)%Z.
  - destruct (vp_ptr model) as [|ptr|f]; simpl; try discriminate.
    destruct (subscript ptr _); simpl; [|discriminate].
    intro H; inversion H; subst; auto.
  - destruct (vp_status model =? 1)%Z; simpl; [discriminate|].
    intro H; inversion H; subst; auto.
Qed.

(** Whatever a point that is not above the surface resolves to (the three
    sentinels, a raw sample or an interpolated value), the iteration leaves
    qp and qs of its slot as the caller passed them. *)
Lemma query_point_keeps_qp_qs g cfg p d l log d' l' log' :
  (depth p <? 0) = false ->
  query_point E g cfg p d l log = (Ok (d', l'), log') ->
  qp d' = qp d /\ qs d' = qs d.
Proof.
  intros Hdepth. unfold query_point. rewrite Hdepth.
  destruct (project E g cfg p l) as [[pu pv] [px py]].
  unfold bind at 1. unfold lift.
  destruct (load_coords cfg p px py) as [[[x y] z]|]; [|discriminate].
  unfold ret at 1.
  destruct (outside cfg p (x, y, z)).
  { unfold ret. intro H; inversion H; subst; auto. }
  unfold gather.
  destruct ((z =? 0)%Z && (z_percent cfg p =? 0));
    destruct (negb (interpolation cfg =? 0)%Z); unfold bind, ret;
    repeat match goal with
      | |- context [read_into ?g ?a ?b ?c ?s ?k ?lg] =>
          destruct (read_into g a b c s k lg) as [[?|?] ?]; try discriminate
      end;
    try (intro H; inversion H; subst; auto; fail).
  - destruct (ivlsu_read_properties g x y 0 d log) as [[d1|?] l1] eqn:Hr; [|discriminate].
    intro H; inversion H; subst. simpl.
    eapply read_properties_keeps_qp_qs; eauto.
  - destruct (ivlsu_read_properties g x y z d log) as [[d1|?] l1] eqn:Hr; [|discriminate].
    intro H; inversion H; subst. simpl.
    eapply read_properties_keeps_qp_qs; eauto.
Qed.


(** ** The ready flag *)

Lemma read_properties_ignores_flag v g x y z d :
  ivlsu_read_properties (set_is_initialized v g) x y z d
  = ivlsu_read_properties g x y z d.
Proof. reflexivity. Qed.

Lemma query_point_ignores_flag v g cfg p d l :
  query_point E (set_is_initialized v g) cfg p d l = query_point E g cfg p d l.
Proof. reflexivity. Qed.

Lemma query_loop_ignores_flag v g cfg points :
  forall count i data l log,
    query_loop E (set_is_initialized v g) cfg count i points data l log
    = query_loop E g cfg count i points data l log.
Proof.
  induction count as [|count IH]; intros i data l log; [reflexivity|].
  simpl. unfold bind.
  destruct (lift OutOfBounds (nth_error points i) log) as [[p|?] l1]; auto.
  destruct (lift OutOfBounds (nth_error data i) l1) as [[d|?] l2]; auto.
  rewrite query_point_ignores_flag.
  destruct (query_point E g cfg p d l l2) as [[[d' l']|?] l3]; auto.
Qed.

(** C7 as the code has it.  [ivlsu_init] sets the ready flag to 1 exactly
    when it returns SUCCESS, as its last step, and leaves the flag as it was
    on every failing return; [ivlsu_query] never reads the flag: a call gives
    the same outcome whatever value the flag holds. *)
Theorem ready_flag_set_by_init_not_read_by_query :
  forall h g,
    UCVM_CODE_ERROR E <> SUCCESS ->
    (fst (ivlsu_init E h g) = SUCCESS ->
     ivlsu_is_initialized (snd (ivlsu_init E h g)) = 1%Z)
    /\ (fst (ivlsu_init E h g) <> SUCCESS ->
        ivlsu_is_initialized (snd (ivlsu_init E h g)) = ivlsu_is_initialized g)
    /\ (forall v garbage points data numpoints log,
          ivlsu_query E (set_is_initialized v g) garbage points data numpoints log
          = ivlsu_query E g garbage points data numpoints log).
Proof.
  intros h g Hcode. split; [|split].
  - unfold ivlsu_init.
    destruct (ivlsu_read_configuration (config_file h) calloc_configuration) as [rc c].
    destruct (negb (rc =? SUCCESS)%Z); [discriminate|].
    destruct (ivlsu_try_reading_model h c calloc_model) as [t m].
    destruct (t =? FAIL)%Z; [discriminate|].
    destruct (proj_create_crs_to_crs h (utm_zone c)); simpl; auto.
    intro H; contradiction.
  - unfold ivlsu_init.
    destruct (ivlsu_read_configuration (config_file h) calloc_configuration) as [rc c].
    destruct (negb (rc =? SUCCESS)%Z); [reflexivity|].
    destruct (ivlsu_try_reading_model h c calloc_model) as [t m].
    destruct (t =? FAIL)%Z; [reflexivity|].
    destruct (proj_create_crs_to_crs h (utm_zone c)); simpl; auto.
    intro H; now contradiction H.
  - intros v garbage points data numpoints log.
    unfold ivlsu_query, bind. 
    change (ivlsu_configuration (set_is_initialized v g)) with (ivlsu_configuration g).
    destruct (lift NullDereference (ivlsu_configuration g) log) as [[cfg|?] l1]; auto.
    rewrite query_loop_ignores_flag. reflexivity.
Qed.


(** ** Points outside the model *)

(** X1.  A point that is not above the surface and fails the boundary check
    of line 210 (too deep, or a horizontal index off the grid, or a negative
    index) gets -1 in vp, vs and rho, its qp and qs stay as the caller passed
    them, the storage accessor is not called, and the loop goes on with the
    next point; the slot still holds that tuple when the call returns. *)
Theorem out_of_domain_is_three_sentinels :
  forall g cfg count i points data l log p d pu pv px py c,
    nth_error points i = Some p ->
    nth_error data i = Some d ->
    (depth p <? 0) = false ->
    project E g cfg p l = (pu, pv, (px, py)) ->
    load_coords cfg p px py = Some c ->
    outside cfg p c = true ->
    let answer := mk_properties (-1) (-1) (-1) (qp d) (qs d) in
    query_loop E g cfg (S count) i points data l log
    = query_loop E g cfg count (S i) points (store data i answer)
        (mk_locals pu pv (surrounding_points l)) log
    /\ (forall out log',
          query_loop E g cfg (S count) i points data l log = (Ok out, log') ->
          nth_error out i = Some answer).
Proof.
  intros g cfg count i points data l log p d pu pv px py c Hp Hd Hdepth Hproj Hload Hout answer.
  assert (Hstep : query_loop E g cfg (S count) i points data l log
                  = query_loop E g cfg count (S i) points (store data i answer)
                      (mk_locals pu pv (surrounding_points l)) log).
  { simpl. unfold bind at 1. unfold lift at 1. rewrite Hp. unfold ret at 1.
    unfold bind at 1. unfold lift at 1. rewrite Hd. unfold ret at 1.
    unfold bind at 1. unfold query_point. rewrite Hdepth, Hproj.
    unfold bind at 1. unfold lift. rewrite Hload. unfold ret at 1.
    rewrite Hout. reflexivity. }
  split; [exact Hstep|].
  intros out log' H. rewrite Hstep in H.
  rewrite (query_loop_keeps_earlier_slots g cfg points _ _ _ _ _ _ _ H i) by lia.
  eapply store_same; eauto.
Qed.

(** A depth beyond the configured one fails the boundary check whatever the
    indices are. *)
Lemma too_deep_is_outside cfg p c :
  (cfg_depth cfg <? depth p) = true -> outside cfg p c = true.
Proof.
  intro H. unfold outside. destruct c as [[x y] z]. now rewrite H.
Qed.

(** ** The batch as a whole *)

Lemma query_loop_length g cfg points :
  forall count j data l log out log',
    query_loop E g cfg count j points data l log = (Ok out, log') ->
    List.length out = List.length data.
Proof.
  induction count as [|count IH]; intros j data l log out log' H.
  - simpl in H. run. now inversion H.
  - simpl in H. run.
    destruct (nth_error points j) as [p|]; simpl in H; [|discriminate].
    destruct (nth_error data j) as [d|]; simpl in H; [|discriminate].
    destruct (query_point E g cfg p d l log) as [[[d' l']|why] log1]; [|discriminate].
    rewrite (IH _ _ _ _ _ _ H). apply store_length.
Qed.

(** The loop started at slot j with [count] iterations left writes the slots
    j, ..., j + count - 1 only. *)
Lemma query_loop_keeps_later_slots g cfg points :
  forall count j data l log out log',
    query_loop E g cfg count j points data l log = (Ok out, log') ->
    forall i, (j + count <= i)%nat -> nth_error out i = nth_error data i.
Proof.
  induction count as [|count IH]; intros j data l log out log' H i Hi.
  - simpl in H. run. now inversion H.
  - simpl in H. run.
    destruct (nth_error points j) as [p|]; simpl in H; [|discriminate].
    destruct (nth_error data j) as [d|]; simpl in H; [|discriminate].
    destruct (query_point E g cfg p d l log) as [[[d' l']|why] log1]; [|discriminate].
    rewrite (IH _ _ _ _ _ _ H i) by lia.
    apply store_other; lia.
Qed.

(** X2.  Whenever [ivlsu_query] returns, it returns SUCCESS: no point of a
    batch makes it report failure.  The output array keeps its length, and
    the slots from [numpoints] on are not written.  With [numpoints <= 0] and
    a configuration in place the call does nothing at all. *)
Theorem query_reports_success_and_writes_only_its_slots :
  forall g garbage points data numpoints log,
    (forall rc out log',
       ivlsu_query E g garbage points data numpoints log = (Ok (rc, out), log') ->
       rc = SUCCESS
       /\ List.length out = List.length data
       /\ (forall i, (Z.to_nat numpoints <= i)%nat -> nth_error out i = nth_error data i))
    /\ (forall cfg,
          ivlsu_configuration g = Some cfg ->
          (numpoints <= 0)%Z ->
          ivlsu_query E g garbage points data numpoints log = (Ok (SUCCESS, data), log)).
Proof.
  intros g garbage points data numpoints log. split.
  - intros rc out log' H. unfold ivlsu_query in H. unfold bind at 1 in H.
    unfold lift in H.
    destruct (ivlsu_configuration g) as [cfg|]; [|discriminate]. unfold ret at 1 in H.
    unfold bind in H.
    destruct (query_loop E g cfg (Z.to_nat numpoints) 0 points data _ log)
      as [[out'|why] log1] eqn:Hl; [|discriminate].
    unfold ret in H. inversion H; subst.
    split; [reflexivity|]. split.
    + eapply query_loop_length; eauto.
    + intros i Hi. eapply query_loop_keeps_later_slots; eauto.
  - intros cfg Hc Hn. unfold ivlsu_query. rewrite Hc.
    replace (Z.to_nat numpoints) with 0%nat by lia. reflexivity.
Qed.


(** ** Reads with interpolation off *)

Lemma not_outside_bounds cfg p x y z :
  outside cfg p (x, y, z) = false ->
  (cfg_depth cfg <? depth p) = false
  /\ (0 <= x <= nx cfg - 1)%Z /\ (0 <= y <= ny cfg - 1)%Z /\ (0 <= z)%Z.
Proof.
  unfold outside. intro H.
  repeat (apply orb_false_elim in H; destruct H as [H ?]).
  repeat match goal with
         | H : (_ <? _)%Z = false |- _ => apply Z.ltb_ge in H
         end.
  repeat split; auto; lia.
Qed.

(** X3.  With interpolation off, a point that passes both checks causes
    exactly one call of the storage accessor, at the computed indices, and
    these are on the grid horizontally (0 <= x <= nx - 1, 0 <= y <= ny - 1)
    and not negative vertically; the answer is that sample with vs and rho
    derived from it. *)
Theorem without_interpolation_one_read_at_the_node :
  forall g cfg p d l log pu pv px py x y z,
    (depth p <? 0) = false ->
    project E g cfg p l = (pu, pv, (px, py)) ->
    load_coords cfg p px py = Some (x, y, z) ->
    outside cfg p (x, y, z) = false ->
    interpolation cfg = 0%Z ->
    query_point E g cfg p d l log
    = (d' <- ivlsu_read_properties g x y z d ;;
       ret (derive d', mk_locals pu pv (surrounding_points l))) log
    /\ snd (query_point E g cfg p d l log) = log ++ [(x, y, z)]
    /\ (0 <= x <= nx cfg - 1)%Z /\ (0 <= y <= ny cfg - 1)%Z /\ (0 <= z)%Z.
Proof.
  intros g cfg p d l log pu pv px py x y z Hdepth Hproj Hload Hin Hoff.
  assert (Heq : query_point E g cfg p d l log
                = (d' <- ivlsu_read_properties g x y z d ;;
                   ret (derive d', mk_locals pu pv (surrounding_points l))) log).
  { unfold query_point. rewrite Hdepth, Hproj. unfold bind at 1. unfold lift.
    rewrite Hload. unfold ret at 1. rewrite Hin.
    unfold gather. rewrite Hoff. cbn [Z.eqb negb].
    destruct ((z =? 0)%Z && (z_percent cfg p =? 0)) eqn:Hz.
    - apply andb_prop in Hz. destruct Hz as [Hz _]. apply Z.eqb_eq in Hz. subst z.
      unfold bind, ret. cbn [surrounding_points].
      destruct (ivlsu_read_properties g x y 0 d log) as [[d'|?] l1]; auto.
    - unfold bind, ret. cbn [surrounding_points].
      destruct (ivlsu_read_properties g x y z d log) as [[d'|?] l1]; auto. }
  split; [exact Heq|]. split.
  - rewrite Heq. unfold bind, ret.
    pose proof (read_properties_log g x y z d log) as H1.
    destruct (ivlsu_read_properties g x y z d log) as [[d'|?] l1]; simpl in *; auto.
  - apply not_outside_bounds in Hin. tauto.
Qed.

(** ** The sample array *)

Lemma flat_location_bounds cfg x y z :
  in_grid cfg (x, y, z) = true ->
  (0 <= flat_location cfg (x, y, z) < nx cfg * ny cfg * nz cfg)%Z.
Proof.
  unfold in_grid, in_range, flat_location. intro H.
  repeat (apply andb_prop in H; destruct H as [H ?]).
  repeat match goal with
         | H : (_ <=? _)%Z = true |- _ => apply Z.leb_le in H
         end.
  set (a := nx cfg) in *. set (b := ny cfg) in *. set (c := nz cfg) in *.
  assert (0 <= a * b)%Z by (apply Z.mul_nonneg_nonneg; lia).
  assert (0 <= z * (a * b))%Z by (apply Z.mul_nonneg_nonneg; lia).
  assert (0 <= y * a)%Z by (apply Z.mul_nonneg_nonneg; lia).
  assert (y * a <= (b - 1) * a)%Z by (apply Z.mul_le_mono_nonneg_r; lia).
  assert (z * (a * b) <= (c - 1) * (a * b))%Z by (apply Z.mul_le_mono_nonneg_r; lia).
  split; [lia|].
  replace (a * b * c)%Z with ((c - 1) * (a * b) + (b - 1) * a + a)%Z by ring.
  lia.
Qed.

Lemma int_result_small r : (0 <= r <= INT_MAX)%Z -> int_result r = Some r.
Proof.
  intro H. unfold int_result, in_int.
  destruct (Z.leb_spec INT_MIN r) as [_|Hlo]; [|unfold INT_MIN in Hlo; lia].
  destruct (Z.leb_spec r INT_MAX) as [_|Hhi]; [reflexivity|lia].
Qed.

Lemma in_grid_bounds cfg x y z :
  in_grid cfg (x, y, z) = true ->
  (0 <= x <= nx cfg - 1 /\ 0 <= y <= ny cfg - 1 /\ 0 <= z <= nz cfg - 1)%Z.
Proof.
  unfold in_grid, in_range. intro H.
  repeat (apply andb_prop in H; destruct H as [H ?]).
  repeat match goal with
         | H : (_ <=? _)%Z = true |- _ => apply Z.leb_le in H
         end.
  lia.
Qed.

(** On a grid of at most INT_MAX samples no operation of line 291 overflows
    at a lattice point of the grid, and the [int] it yields is the row-major
    position. *)
Lemma int_location_in_grid cfg c :
  (nx cfg * ny cfg * nz cfg <= INT_MAX)%Z ->
  in_grid cfg c = true ->
  int_location cfg c = Some (flat_location cfg c).
Proof.
  destruct c as [[x y] z]. intros Hmax Hin.
  pose proof (flat_location_bounds cfg x y z Hin) as Hb.
  apply in_grid_bounds in Hin. destruct Hin as (Hx & Hy & Hz).
  unfold int_location, flat_location, int_mul, int_add in *.
  set (a := nx cfg) in *. set (b := ny cfg) in *. set (c := nz cfg) in *.
  assert (H0 : (0 <= a * b)%Z) by (apply Z.mul_nonneg_nonneg; lia).
  assert (H1 : (a * b * 1 <= a * b * c)%Z) by (apply Z.mul_le_mono_nonneg_l; lia).
  assert (H2 : (0 <= z * (a * b))%Z) by (apply Z.mul_nonneg_nonneg; lia).
  assert (H3 : (0 <= y * a)%Z) by (apply Z.mul_nonneg_nonneg; lia).
  rewrite (int_result_small (a * b)) by lia.
  rewrite (int_result_small (z * (a * b))) by lia.
  rewrite (int_result_small (y * a)) by lia.
  rewrite (int_result_small (z * (a * b) + y * a)) by lia.
  apply int_result_small. lia.
Qed.

Lemma int_sample_count_in_grid cfg c :
  (nx cfg * ny cfg * nz cfg <= INT_MAX)%Z ->
  in_grid cfg c = true ->
  int_sample_count cfg = Some (nx cfg * ny cfg * nz cfg)%Z.
Proof.
  destruct c as [[x y] z]. intros Hmax Hin.
  apply in_grid_bounds in Hin. destruct Hin as (Hx & Hy & Hz).
  unfold int_sample_count, int_mul.
  set (a := nx cfg) in *. set (b := ny cfg) in *. set (c := nz cfg) in *.
  assert (H0 : (0 <= a * b)%Z) by (apply Z.mul_nonneg_nonneg; lia).
  assert (H1 : (a * b * 1 <= a * b * c)%Z) by (apply Z.mul_le_mono_nonneg_l; lia).
  rewrite (int_result_small (a * b)) by lia.
  apply int_result_small. lia.
Qed.

Lemma sample_in_grid cfg buf c :
  (nx cfg * ny cfg * nz cfg <= INT_MAX)%Z ->
  (nx cfg * ny cfg * nz cfg <= Z.of_nat (List.length buf))%Z ->
  in_grid cfg c = true ->
  exists v, sample cfg buf c = Some v.
Proof.
  intros Hmax Hlen Hin. unfold sample. rewrite (int_location_in_grid cfg c Hmax Hin).
  destruct c as [[x y] z].
  pose proof (flat_location_bounds cfg x y z Hin) as Hb.
  unfold subscript.
  destruct (Z.ltb_spec (flat_location cfg (x, y, z)) 0) as [Hneg|_]; [lia|].
  destruct (nth_error buf (Z.to_nat (flat_location cfg (x, y, z)))) as [v|] eqn:Hv.
  - now exists v.
  - apply nth_error_None in Hv. lia.
Qed.

(** A read at a lattice point of the grid whose sample is [v]. *)
Lemma read_in_grid g cfg buf x y z d log v :
  ivlsu_configuration g = Some cfg ->
  ivlsu_velocity_model g = Some (mk_model (Samples buf) 2) ->
  (nx cfg * ny cfg * nz cfg <= INT_MAX)%Z ->
  in_grid cfg (x, y, z) = true ->
  sample cfg buf (x, y, z) = Some v ->
  ivlsu_read_properties g x y z d log = (Ok (read_as v d), log ++ [(x, y, z)]).
Proof.
  intros Hc Hm Hmax Hin Hv.
  unfold sample in Hv. rewrite (int_location_in_grid cfg _ Hmax Hin) in Hv.
  unfold flat_location in Hv.
  unfold ivlsu_read_properties. unfold bind at 1. unfold called.
  unfold bind at 1. unfold lift at 1. rewrite Hc. unfold ret at 1.
  unfold bind at 1. unfold lift at 1. rewrite Hm. unfold ret at 1.
  cbn [vp_status vp_ptr Z.eqb Pos.eqb].
  unfold bind, lift. rewrite Hv. reflexivity.
Qed.

Lemma read_into_in_grid g cfg buf x y z a k log v :
  ivlsu_configuration g = Some cfg ->
  ivlsu_velocity_model g = Some (mk_model (Samples buf) 2) ->
  (nx cfg * ny cfg * nz cfg <= INT_MAX)%Z ->
  in_grid cfg (x, y, z) = true ->
  sample cfg buf (x, y, z) = Some v ->
  read_into g x y z a k log
  = (Ok (store a k (read_as v (element a k))), log ++ [(x, y, z)]).
Proof.
  intros Hc Hm Hmax Hin Hv. unfold read_into, bind.
  now rewrite (read_in_grid g cfg buf x y z (element a k) log v Hc Hm Hmax Hin Hv).
Qed.

(** X4.  On a grid of at most INT_MAX samples the layout is row-major
    without overlap: at the lattice points of the grid the [int] expression
    of line 291 does not overflow, two different points get different
    positions, and every position lies among the nx * ny * nz samples. *)
Theorem flat_location_is_injective_on_the_grid :
  forall cfg a b,
    (nx cfg * ny cfg * nz cfg <= INT_MAX)%Z ->
    in_grid cfg a = true ->
    in_grid cfg b = true ->
    a <> b ->
    exists i j,
      int_location cfg a = Some i /\ int_location cfg b = Some j
      /\ i <> j
      /\ (0 <= i < nx cfg * ny cfg * nz cfg)%Z
      /\ (0 <= j < nx cfg * ny cfg * nz cfg)%Z.
Proof.
  intros cfg a b Hmax Ha Hb Hne.
  exists (flat_location cfg a), (flat_location cfg b).
  split; [now apply int_location_in_grid|].
  split; [now apply int_location_in_grid|].
  destruct a as [[x y] z], b as [[x' y'] z'].
  split; [|split; now apply flat_location_bounds].
  intro Heq. apply Hne.
  apply in_grid_bounds in Ha, Hb. unfold flat_location in Heq.
  assert (Hz : z = z').
  { assert (0 <= y * nx cfg + x < nx cfg * ny cfg)%Z by nia.
    assert (0 <= y' * nx cfg + x' < nx cfg * ny cfg)%Z by nia.
    nia. }
  subst z'.
  assert (Hy : y = y') by nia.
  subst y'.
  assert (Hx : x = x') by lia.
  now subst x'.
Qed.

(** X5.  On a grid of at most INT_MAX samples and a memory-resident store
    that holds at least nx * ny * nz of them, a read at a lattice point of
    the grid is defined and returns in vp the sample at the position the
    [int] expression of line 291 yields, with vs and rho at -1 and qp and qs
    of the destination as they were. *)
Theorem in_grid_read_returns_the_sample :
  forall g cfg buf c d log,
    ivlsu_configuration g = Some cfg ->
    ivlsu_velocity_model g = Some (mk_model (Samples buf) 2) ->
    in_grid cfg c = true ->
    (nx cfg * ny cfg * nz cfg <= INT_MAX)%Z ->
    (nx cfg * ny cfg * nz cfg <= Z.of_nat (List.length buf))%Z ->
    exists i v,
      int_location cfg c = Some i
      /\ subscript buf i = Some v
      /\ (let '(x, y, z) := c in ivlsu_read_properties g x y z d log)
         = (Ok (mk_properties v (-1) (-1) (qp d) (qs d)), log ++ [c]).
Proof.
  intros g cfg buf c d log Hc Hm Hin Hmax Hlen.
  destruct (sample_in_grid cfg buf c Hmax Hlen Hin) as [v Hv].
  exists (flat_location cfg c), v.
  split; [now apply int_location_in_grid|].
  split.
  - unfold sample in Hv. now rewrite (int_location_in_grid cfg c Hmax Hin) in Hv.
  - destruct c as [[x y] z].
    apply (read_in_grid g cfg buf x y z d log v Hc Hm Hmax Hin Hv).
Qed.


(** ** Initialization *)

(** X6.  [ivlsu_read_configuration] returns SUCCESS exactly when the file
    could be opened and, after its assignments, none of the fourteen numeric
    parameters compares equal to zero and [model_dir] is not empty; the struct
    then holds the assignments.  Nothing else is checked: a negative dimension
    or a NaN corner is accepted. *)
Theorem configuration_accepted_iff_nothing_is_zero :
  forall fp config,
    fst (ivlsu_read_configuration fp config) = SUCCESS
    <-> exists parse,
          fp = Some parse
          /\ snd (ivlsu_read_configuration fp config) = parse config
          /\ utm_zone (parse config) <> 0%Z
          /\ nx (parse config) <> 0%Z
          /\ ny (parse config) <> 0%Z
          /\ nz (parse config) <> 0%Z
          /\ model_dir (parse config) <> EmptyString
          /\ (top_left_corner_e (parse config) =? 0) = false
          /\ (top_left_corner_n (parse config) =? 0) = false
          /\ (top_right_corner_e (parse config) =? 0) = false
          /\ (top_right_corner_n (parse config) =? 0) = false
          /\ (bottom_left_corner_e (parse config) =? 0) = false
          /\ (bottom_left_corner_n (parse config) =? 0) = false
          /\ (bottom_right_corner_e (parse config) =? 0) = false
          /\ (bottom_right_corner_n (parse config) =? 0) = false
          /\ (cfg_depth (parse config) =? 0) = false
          /\ (depth_interval (parse config) =? 0) = false.
Proof.
  intros fp config. unfold ivlsu_read_configuration.
  destruct fp as [parse|].
  - set (c := parse config).
    destruct (_ || _) eqn:Hcheck; simpl.
    + split; [discriminate|].
      intros [parse' [Hp H]]. inversion Hp; subst parse'. fold c in H.
      exfalso.
      destruct H as (_ & Hz & Hx & Hy & Hn & Hd & H1 & H2 & H3 & H4 & H5 & H6 & H7 & H8 & H9 & H10).
      apply Z.eqb_neq in Hz, Hx, Hy, Hn.
      rewrite Hz, Hx, Hy, Hn, H1, H2, H3, H4, H5, H6, H7, H8, H9, H10 in Hcheck.
      destruct (model_dir c); [contradiction|]. simpl in Hcheck. discriminate.
    + split; [|reflexivity]. intros _. exists parse. fold c.
      repeat (apply orb_false_elim in Hcheck; destruct Hcheck as [Hcheck ?]).
      repeat match goal with
             | H : (_ =? _)%Z = false |- _ => apply Z.eqb_neq in H
             end.
      repeat split; auto.
      intro Hd. rewrite Hd in *. discriminate.
  - simpl. split; [discriminate|]. intros [parse [Hp _]]. discriminate.
Qed.

(** X7.  Provided [UCVM_CODE_ERROR] is not 0, [ivlsu_init] returns SUCCESS
    exactly when the configuration is accepted, vp.dat is readable and the
    projection could be created.  The variables then hold the accepted
    configuration, a model that is memory-resident (status 2) when [malloc]
    succeeded and file-resident (status 1) otherwise, a projection handle,
    and the ready flag 1. *)
Theorem init_succeeds_iff :
  forall h g,
    UCVM_CODE_ERROR E <> SUCCESS ->
    let rc := fst (ivlsu_read_configuration (config_file h) calloc_configuration) in
    let c := snd (ivlsu_read_configuration (config_file h) calloc_configuration) in
    (fst (ivlsu_init E h g) = SUCCESS
     <-> rc = SUCCESS /\ vp_dat h <> None /\ proj_create_crs_to_crs h (utm_zone c) <> None)
    /\ (fst (ivlsu_init E h g) = SUCCESS ->
        let g' := snd (ivlsu_init E h g) in
        ivlsu_configuration g' = Some c
        /\ (exists m, ivlsu_velocity_model g' = Some m
                      /\ vp_status m = if malloc_succeeds h then 2%Z else 1%Z)
        /\ ivlsu_geo2utm g' <> None
        /\ ivlsu_is_initialized g' = 1%Z).
Proof.
  intros h g Hcode rc c. subst rc c. unfold ivlsu_init.
  destruct (ivlsu_read_configuration (config_file h) calloc_configuration) as [rc c].
  cbn [fst snd].
  destruct (rc =? SUCCESS)%Z eqn:Hrc; cbn [negb].
  2:{ apply Z.eqb_neq in Hrc. cbn [fst].
      split; [split; [discriminate|tauto]|discriminate]. }
  apply Z.eqb_eq in Hrc. unfold ivlsu_try_reading_model.
  destruct (vp_dat h) as [file|].
  2:{ cbn. split; [split; [discriminate|]|discriminate].
      intros (_ & H & _). now contradiction H. }
  destruct (malloc_succeeds h); cbn [Z.eqb FAIL SUCCESS Pos.eqb];
    destruct (proj_create_crs_to_crs h (utm_zone c)) as [pj|]; cbn [fst snd].
  all: split;
    [ split;
      [ intro H; try (contradiction (Hcode H)); repeat split; auto; discriminate
      | intros (_ & _ & H); try reflexivity; now contradiction H ]
    | intro H; try (contradiction (Hcode H));
      cbn; repeat split; eauto; discriminate ].
Qed.


(** After a successful initialization with [malloc] granted, the model holds
    the first nx * ny * nz floats of vp.dat. *)
Lemma init_loads_the_samples h g file :
  fst (ivlsu_init E h g) = SUCCESS ->
  UCVM_CODE_ERROR E <> SUCCESS ->
  malloc_succeeds h = true ->
  vp_dat h = Some file ->
  let c := snd (ivlsu_read_configuration (config_file h) calloc_configuration) in
  ivlsu_configuration (snd (ivlsu_init E h g)) = Some c
  /\ ivlsu_velocity_model (snd (ivlsu_init E h g))
     = Some (mk_model
               (Samples (map float_of_bits
                           (firstn (Z.to_nat (nx c * ny c * nz c)) file))) 2).
Proof.
  intros Hok Hcode Hmalloc Hfile c. subst c. revert Hok. unfold ivlsu_init.
  destruct (ivlsu_read_configuration (config_file h) calloc_configuration) as [rc c].
  cbn [snd].
  destruct (negb (rc =? SUCCESS)%Z); [discriminate|].
  unfold ivlsu_try_reading_model. rewrite Hfile, Hmalloc.
  cbn [Z.eqb FAIL Pos.eqb].
  destruct (proj_create_crs_to_crs h (utm_zone c)); cbn [fst snd].
  - intros _. split; reflexivity.
  - intro H. contradiction (Hcode H).
Qed.

(** X8.  Load, then read.  On a grid of at most INT_MAX samples, after a
    successful initialization that brought the samples into memory, the
    count nx * ny * nz of line 575 and the position of line 291 are computed
    without overflow, and a read at a lattice point of the grid returns in
    vp the float whose word sits at that position in vp.dat, when the file
    reaches that far. *)
Theorem loaded_sample_is_the_word_of_the_file :
  forall h g file idx d log i w,
    UCVM_CODE_ERROR E <> SUCCESS ->
    fst (ivlsu_init E h g) = SUCCESS ->
    malloc_succeeds h = true ->
    vp_dat h = Some file ->
    let c := snd (ivlsu_read_configuration (config_file h) calloc_configuration) in
    (nx c * ny c * nz c <= INT_MAX)%Z ->
    in_grid c idx = true ->
    int_location c idx = Some i ->
    nth_error file (Z.to_nat i) = Some w ->
    int_sample_count c = Some (nx c * ny c * nz c)%Z
    /\ (0 <= i < nx c * ny c * nz c)%Z
    /\ (let '(x, y, z) := idx in
        ivlsu_read_properties (snd (ivlsu_init E h g)) x y z d log)
       = (Ok (mk_properties (float_of_bits w) (-1) (-1) (qp d) (qs d)), log ++ [idx]).
Proof.
  intros h g file idx d log i w Hcode Hok Hmalloc Hfile c Hmax Hin Hi Hw.
  destruct (init_loads_the_samples h g file Hok Hcode Hmalloc Hfile) as [Hc Hm].
  fold c in Hc, Hm.
  rewrite (int_location_in_grid c idx Hmax Hin) in Hi. inversion Hi; subst i.
  split; [now apply (int_sample_count_in_grid c idx)|].
  destruct idx as [[x y] z].
  pose proof (flat_location_bounds c x y z Hin) as Hb.
  split; [exact Hb|].
  apply (read_in_grid _ c _ x y z d log (float_of_bits w) Hc Hm Hmax Hin).
  unfold sample. rewrite (int_location_in_grid c _ Hmax Hin).
  unfold subscript.
  destruct (Z.ltb_spec (flat_location c (x, y, z)) 0) as [Hneg|_]; [lia|].
  rewrite nth_error_map, nth_error_firstn.
  destruct (Nat.ltb_spec (Z.to_nat (flat_location c (x, y, z)))
              (Z.to_nat (nx c * ny c * nz c))) as [Hlt|Hge]; [|lia].
  now rewrite Hw.
Qed.


(** ** Independence of the points of a batch *)

(** What a read leaves in vp, vs and rho, whether it is defined and what it
    records do not depend on the content of the destination. *)
Lemma read_properties_any_destination g x y z d1 d2 log :
  match ivlsu_read_properties g x y z d1 log, ivlsu_read_properties g x y z d2 log with
  | (Ok r1, l1), (Ok r2, l2) => agree r1 r2 /\ l1 = l2
  | (Undefined w1, l1), (Undefined w2, l2) => w1 = w2 /\ l1 = l2
  | _, _ => False
  end.
Proof.
  unfold ivlsu_read_properties, agree. run.
  destruct (ivlsu_configuration g) as [cfg|]; simpl; auto.
  destruct (ivlsu_velocity_model g) as [model|]; simpl; auto.
  destruct (vp_status model =? 2)%Z.
  - destruct (vp_ptr model) as [|ptr|f]; simpl; auto.
    destruct (subscript ptr _); simpl; auto.
  - destruct (vp_status model =? 1)%Z; simpl; auto.
Qed.

Lemma linear_interpolation_agree percent a b a' b' r :
  agree a a' -> agree b b' ->
  ivlsu_linear_interpolation percent a b r = ivlsu_linear_interpolation percent a' b' r.
Proof.
  intros (H1 & H2 & H3) (H4 & H5 & H6). unfold ivlsu_linear_interpolation.
  now rewrite H1, H2, H3, H4, H5, H6.
Qed.

Lemma gather_any_earlier_content g cfg c xp yp zp d sp sp' log :
  List.length sp = 8%nat -> List.length sp' = 8%nat ->
  match gather g cfg c xp yp zp d sp log, gather g cfg c xp yp zp d sp' log with
  | (Ok (d1, _), l1), (Ok (d2, _), l2) => d1 = d2 /\ l1 = l2
  | (Undefined w1, l1), (Undefined w2, l2) => w1 = w2 /\ l1 = l2
  | _, _ => False
  end.
Proof.
  intros Hl Hl'.
  destruct sp as [|a0 [|a1 [|a2 [|a3 [|a4 [|a5 [|a6 [|a7 [|]]]]]]]]]; try discriminate.
  destruct sp' as [|b0 [|b1 [|b2 [|b3 [|b4 [|b5 [|b6 [|b7 [|]]]]]]]]]; try discriminate.
  clear Hl Hl'. destruct c as [[x y] z]. unfold gather.
  destruct ((z =? 0)%Z && (zp =? 0)); destruct (negb (interpolation cfg =? 0)%Z).
  - unfold read_into, bind, ret, element. cbn [nth store].
    pose proof (read_properties_any_destination g x y 0 a0 b0 log) as H0.
    destruct (ivlsu_read_properties g x y 0 a0 log) as [[r0|w0] l0];
      destruct (ivlsu_read_properties g x y 0 b0 log) as [[r0'|w0'] l0'];
      try contradiction; destruct H0 as [H0 ?]; subst; auto.
    cbn [nth store].
    pose proof (read_properties_any_destination g (x + 1) y 0 a1 b1 l0') as H1.
    destruct (ivlsu_read_properties g (x + 1) y 0 a1 l0') as [[r1|w1] l1];
      destruct (ivlsu_read_properties g (x + 1) y 0 b1 l0') as [[r1'|w1'] l1'];
      try contradiction; destruct H1 as [H1 ?]; subst; auto.
    cbn [nth store].
    pose proof (read_properties_any_destination g x (y + 1) 0 a2 b2 l1') as H2.
    destruct (ivlsu_read_properties g x (y + 1) 0 a2 l1') as [[r2|w2] l2];
      destruct (ivlsu_read_properties g x (y + 1) 0 b2 l1') as [[r2'|w2'] l2'];
      try contradiction; destruct H2 as [H2 ?]; subst; auto.
    cbn [nth store].
    pose proof (read_properties_any_destination g (x + 1) (y + 1) 0 a3 b3 l2') as H3.
    destruct (ivlsu_read_properties g (x + 1) (y + 1) 0 a3 l2') as [[r3|w3] l3];
      destruct (ivlsu_read_properties g (x + 1) (y + 1) 0 b3 l2') as [[r3'|w3'] l3'];
      try contradiction; destruct H3 as [H3 ?]; subst; auto.
    cbn [nth store]. split; [|reflexivity].
    unfold ivlsu_bilinear_interpolation, element. cbn [nth].
    now rewrite (linear_interpolation_agree xp r0 r1 r0' r1'),
                (linear_interpolation_agree xp r2 r3 r2' r3').
  - unfold bind, ret.
    destruct (ivlsu_read_properties g x y 0 d log) as [[r|w] l]; auto.
  - unfold read_into, bind, ret, element. cbn [nth store].
    pose proof (read_properties_any_destination g x y z a0 b0 log) as H0.
    destruct (ivlsu_read_properties g x y z a0 log) as [[r0|w0] l0];
      destruct (ivlsu_read_properties g x y z b0 log) as [[r0'|w0'] l0'];
      try contradiction; destruct H0 as [H0 ?]; subst; auto.
    cbn [nth store].
    pose proof (read_properties_any_destination g (x + 1) y z a1 b1 l0') as H1.
    destruct (ivlsu_read_properties g (x + 1) y z a1 l0') as [[r1|w1] l1];
      destruct (ivlsu_read_properties g (x + 1) y z b1 l0') as [[r1'|w1'] l1'];
      try contradiction; destruct H1 as [H1 ?]; subst; auto.
    cbn [nth store].
    pose proof (read_properties_any_destination g x (y + 1) z a2 b2 l1') as H2.
    destruct (ivlsu_read_properties g x (y + 1) z a2 l1') as [[r2|w2] l2];
      destruct (ivlsu_read_properties g x (y + 1) z b2 l1') as [[r2'|w2'] l2'];
      try contradiction; destruct H2 as [H2 ?]; subst; auto.
    cbn [nth store].
    pose proof (read_properties_any_destination g (x + 1) (y + 1) z a3 b3 l2') as H3.
    destruct (ivlsu_read_properties g (x + 1) (y + 1) z a3 l2') as [[r3|w3] l3];
      destruct (ivlsu_read_properties g (x + 1) (y + 1) z b3 l2') as [[r3'|w3'] l3'];
      try contradiction; destruct H3 as [H3 ?]; subst; auto.
    cbn [nth store].
    pose proof (read_properties_any_destination g x y (z - 1) a4 b4 l3') as H4.
    destruct (ivlsu_read_properties g x y (z - 1) a4 l3') as [[r4|w4] l4];
      destruct (ivlsu_read_properties g x y (z - 1) b4 l3') as [[r4'|w4'] l4'];
      try contradiction; destruct H4 as [H4 ?]; subst; auto.
    cbn [nth store].
    pose proof (read_properties_any_destination g (x + 1) y (z - 1) a5 b5 l4') as H5.
    destruct (ivlsu_read_properties g (x + 1) y (z - 1) a5 l4') as [[r5|w5] l5];
      destruct (ivlsu_read_properties g (x + 1) y (z - 1) b5 l4') as [[r5'|w5'] l5'];
      try contradiction; destruct H5 as [H5 ?]; subst; auto.
    cbn [nth store].
    pose proof (read_properties_any_destination g x (y + 1) (z - 1) a6 b6 l5') as H6.
    destruct (ivlsu_read_properties g x (y + 1) (z - 1) a6 l5') as [[r6|w6] l6];
      destruct (ivlsu_read_properties g x (y + 1) (z - 1) b6 l5') as [[r6'|w6'] l6'];
      try contradiction; destruct H6 as [H6 ?]; subst; auto.
    cbn [nth store].
    pose proof (read_properties_any_destination g (x + 1) (y + 1) (z - 1) a7 b7 l6') as H7.
    destruct (ivlsu_read_properties g (x + 1) (y + 1) (z - 1) a7 l6') as [[r7|w7] l7];
      destruct (ivlsu_read_properties g (x + 1) (y + 1) (z - 1) b7 l6') as [[r7'|w7'] l7'];
      try contradiction; destruct H7 as [H7 ?]; subst; auto.
    cbn [nth store]. split; [|reflexivity].
    unfold ivlsu_trilinear_interpolation, ivlsu_bilinear_interpolation, element.
    cbn [nth skipn].
    now rewrite (linear_interpolation_agree xp r0 r1 r0' r1'),
                (linear_interpolation_agree xp r2 r3 r2' r3'),
                (linear_interpolation_agree xp r4 r5 r4' r5'),
                (linear_interpolation_agree xp r6 r7 r6' r7').
  - unfold bind, ret.
    destruct (ivlsu_read_properties g x y z d log) as [[r|w] l]; auto.
Qed.

Lemma answer_any_locals g cfg p d l l' log :
  fst (proj_trans_fwd E (ivlsu_geo2utm g) (latitude p) (longitude p)) = 0%Z ->
  List.length (surrounding_points l) = 8%nat ->
  List.length (surrounding_points l') = 8%nat ->
  answer (query_point E g cfg p d l log) = answer (query_point E g cfg p d l' log).
Proof.
  intros Hok Hl Hl'. unfold query_point.
  destruct (depth p <? 0); [reflexivity|].
  unfold project, to_utm.
  destruct (proj_trans_fwd E (ivlsu_geo2utm g) (latitude p) (longitude p))
    as [err [u v]]. cbn [fst] in Hok. subst err. cbn [Z.eqb negb].
  set (pu := u - bottom_left_corner_e cfg). set (pv := v - bottom_left_corner_n cfg).
  unfold bind at 1. unfold bind at 2. unfold lift.
  destruct (load_coords cfg p _ _) as [c|]; [|reflexivity].
  unfold ret at 1. unfold ret at 3.
  destruct (outside cfg p c); [reflexivity|].
  cbn [surrounding_points]. unfold bind, ret.
  pose proof (gather_any_earlier_content g cfg c (x_percent g cfg pu) (y_percent g cfg pv)
                (z_percent cfg p) d (surrounding_points l) (surrounding_points l') log
                Hl Hl') as H.
  destruct (gather g cfg c _ _ _ d (surrounding_points l) log) as [[[d1 s1]|w1] l1];
    destruct (gather g cfg c _ _ _ d (surrounding_points l') log) as [[[d2 s2]|w2] l2];
    try contradiction; destruct H; subst; reflexivity.
Qed.

(** X9.  When the transform of a point succeeds, what the iteration writes to
    its slot, whether it is defined and which lattice points it reads do not
    depend on the locals the earlier points of the batch left behind: the
    point is answered as if it were queried alone. *)
Theorem answer_does_not_depend_on_earlier_points :
  forall g cfg p d l l' log,
    fst (proj_trans_fwd E (ivlsu_geo2utm g) (latitude p) (longitude p)) = 0%Z ->
    List.length (surrounding_points l) = 8%nat ->
    List.length (surrounding_points l') = 8%nat ->
    answer (query_point E g cfg p d l log) = answer (query_point E g cfg p d l' log).
Proof. intros. now apply answer_any_locals. Qed.


(** ** Binary64 arithmetic at the interpolation weights 0 and 1 *)

Lemma Prim2SF_inj x y : Prim2SF x = Prim2SF y -> x = y.
Proof.
  intro H. rewrite <- (SF2Prim_Prim2SF x), <- (SF2Prim_Prim2SF y). now rewrite H.
Qed.

Lemma digits_shift_left m k :
  Z.pos (digits2_pos (shift_left m k)) = (Z.pos (digits2_pos m) + Z.of_nat k)%Z.
Proof.
  induction k as [|k IH].
  - simpl. lia.
  - cbn [shift_left digits2_pos]. rewrite Pos2Z.inj_succ, IH. lia.
Qed.

Lemma shift_right_52 m :
  iter_pos shr_1 52 (Build_shr_record (Z.pos (shift_left m 52)) false false)
  = Build_shr_record (Z.pos m) false false.
Proof. reflexivity. Qed.

(** The product of the mantissa of 1.0 with a canonical mantissa rounds back
    to that mantissa: nothing is lost. *)
Lemma round_of_one_times s m e :
  bounded prec emax m e = true ->
  binary_round_aux prec emax s (Z.pos (4503599627370496 * m)) (-52 + e) loc_Exact
  = S754_finite s m e.
Proof.
  intro Hb. unfold bounded in Hb. apply andb_prop in Hb. destruct Hb as [Hc He].
  unfold canonical_mantissa in Hc. apply Z.eqb_eq in Hc.
  change (4503599627370496 * m)%positive with (shift_left m 52).
  unfold binary_round_aux, shr_fexp.
  unfold Zdigits2 at 1. rewrite digits_shift_left.
  replace (Z.pos (digits2_pos m) + Z.of_nat 52 + (-52 + e))%Z
    with (Z.pos (digits2_pos m) + e)%Z by lia.
  rewrite Hc.
  replace (e - (-52 + e))%Z with 52%Z by lia.
  unfold shr at 1.
  change (shr_record_of_loc (Z.pos (shift_left m 52)) loc_Exact)
    with (Build_shr_record (Z.pos (shift_left m 52)) false false).
  rewrite shift_right_52.
  cbn [shr_m loc_of_shr_record shr_r shr_s round_nearest_even].
  replace (-52 + e + 52)%Z with e by lia.
  unfold Zdigits2. rewrite Hc. rewrite Z.sub_diag.
  cbn [shr shr_record_of_loc shr_m].
  now rewrite He.
Qed.

(** [1.0 * x] is [x], for every double. *)
Lemma mul_1_l x : 1 * x = x.
Proof.
  apply Prim2SF_inj. rewrite FloatAxioms.mul_spec.
  change (Prim2SF 1) with (S754_finite false 4503599627370496 (-52)).
  pose proof (Prim2SF_valid x) as Hv.
  destruct (Prim2SF x) as [s|s| |s m e]; try reflexivity.
  unfold SF64mul, SFmul. cbn [xorb].
  apply round_of_one_times. exact Hv.
Qed.

Lemma same_refl x : same x x.
Proof. unfold same, sf_same. destruct (Prim2SF x); auto. Qed.

Lemma same_finite x a : same x a -> finite a = true -> finite x = true.
Proof.
  unfold same, sf_same, finite.
  destruct (Prim2SF x), (Prim2SF a); intros H F; try discriminate; auto; inversion H.
Qed.

Lemma same_eqb x a : same x a -> finite a = true -> (x =? a) = true.
Proof.
  unfold same, sf_same, finite. rewrite FloatAxioms.eqb_spec.
  destruct (Prim2SF x) as [s|s| |s m e], (Prim2SF a) as [s'|s'| |s' m' e'];
    intros H F; try discriminate; try (inversion H; fail); auto.
  inversion H; subst. unfold SFeqb, SFcompare.
  rewrite Z.compare_refl, Pos.compare_cont_refl. now destruct s'.
Qed.

Lemma lerp_at_0 a' a b :
  same a' a -> finite a = true -> finite b = true ->
  same ((1 - 0) * a' + 0 * b) a.
Proof.
  intros Hs Fa Fb. change (1 - 0) with 1. rewrite mul_1_l.
  unfold same in *. rewrite FloatAxioms.add_spec, FloatAxioms.mul_spec.
  change (Prim2SF 0) with (S754_zero false).
  unfold finite in *.
  destruct (Prim2SF b) as [sb|sb| |sb mb eb]; try discriminate;
    destruct (Prim2SF a) as [sa|sa| |sa ma ea]; try discriminate;
    destruct (Prim2SF a') as [s|s| |s m e]; simpl in Hs; try (inversion Hs; fail);
    try discriminate; simpl; auto;
    try (destruct s; destruct sb; simpl; auto; fail).
Qed.

Lemma lerp_at_1 a b' b :
  same b' b -> finite a = true -> finite b = true ->
  same ((1 - 1) * a + 1 * b') b.
Proof.
  intros Hs Fa Fb. change (1 - 1) with 0. rewrite mul_1_l.
  unfold same in *. rewrite FloatAxioms.add_spec, FloatAxioms.mul_spec.
  change (Prim2SF 0) with (S754_zero false).
  unfold finite in *.
  destruct (Prim2SF a) as [sa|sa| |sa ma ea]; try discriminate;
    destruct (Prim2SF b) as [sb|sb| |sb mb eb]; try discriminate;
    destruct (Prim2SF b') as [s|s| |s m e]; simpl in Hs; try (inversion Hs; fail);
    try discriminate; simpl; auto;
    try (destruct s; destruct sa; simpl; auto; fail).
Qed.

(** A weight of 0 does not silence a neighbour that is NaN or infinite. *)
Lemma lerp_at_0_not_finite a b :
  finite b = false -> (1 - 0) * a + 0 * b = nan.
Proof.
  intro Fb. apply Prim2SF_inj.
  rewrite FloatAxioms.add_spec, FloatAxioms.mul_spec, FloatAxioms.mul_spec.
  change (Prim2SF 0) with (S754_zero false). change (Prim2SF nan) with S754_nan.
  unfold finite in Fb.
  set (t := SF64mul (Prim2SF (1 - 0)) (Prim2SF a)).
  destruct (Prim2SF b) as [sb|sb| |sb mb eb]; try discriminate;
    cbn [SF64mul SFmul]; unfold SF64mul, SFmul, SF64add, SFadd;
    destruct t; reflexivity.
Qed.

Lemma lerp_at_1_not_finite a b :
  finite a = false -> (1 - 1) * a + 1 * b = nan.
Proof.
  intro Fa. apply Prim2SF_inj.
  rewrite FloatAxioms.add_spec, FloatAxioms.mul_spec, FloatAxioms.mul_spec.
  change (Prim2SF (1 - 1)) with (S754_zero false). change (Prim2SF nan) with S754_nan.
  unfold finite in Fa.
  destruct (Prim2SF a) as [sa|sa| |sa ma ea]; try discriminate; reflexivity.
Qed.

Lemma finite_properties_fields a :
  finite_properties a = true ->
  finite (vp a) = true /\ finite (vs a) = true /\ finite (rho a) = true.
Proof.
  unfold finite_properties. intro H.
  apply andb_prop in H. destruct H as [H H3].
  apply andb_prop in H. tauto.
Qed.

Lemma same_properties_finite r a :
  same_properties r a -> finite_properties a = true -> finite_properties r = true.
Proof.
  intros (H1 & H2 & H3) F. apply finite_properties_fields in F.
  destruct F as (F1 & F2 & F3). unfold finite_properties.
  now rewrite (same_finite _ _ H1 F1), (same_finite _ _ H2 F2), (same_finite _ _ H3 F3).
Qed.

Lemma same_properties_eqb r a :
  same_properties r a -> finite_properties a = true -> same_vp_vs_rho r a = true.
Proof.
  intros (H1 & H2 & H3) F. apply finite_properties_fields in F.
  destruct F as (F1 & F2 & F3). unfold same_vp_vs_rho.
  now rewrite (same_eqb _ _ H1 F1), (same_eqb _ _ H2 F2), (same_eqb _ _ H3 F3).
Qed.

Lemma linear_at_0 a' a b r :
  same_properties a' a -> finite_properties a = true -> finite_properties b = true ->
  same_properties (ivlsu_linear_interpolation 0 a' b r) a.
Proof.
  intros (H1 & H2 & H3) Fa Fb.
  apply finite_properties_fields in Fa, Fb.
  destruct Fa as (A1 & A2 & A3), Fb as (B1 & B2 & B3).
  unfold same_properties, ivlsu_linear_interpolation; cbn [vp vs rho set_vp set_vs set_rho].
  repeat split; apply lerp_at_0; auto.
Qed.

Lemma linear_at_1 a b' b r :
  same_properties b' b -> finite_properties a = true -> finite_properties b = true ->
  same_properties (ivlsu_linear_interpolation 1 a b' r) b.
Proof.
  intros (H1 & H2 & H3) Fa Fb.
  apply finite_properties_fields in Fa, Fb.
  destruct Fa as (A1 & A2 & A3), Fb as (B1 & B2 & B3).
  unfold same_properties, ivlsu_linear_interpolation; cbn [vp vs rho set_vp set_vs set_rho].
  repeat split; apply lerp_at_1; auto.
Qed.

Lemma same_properties_refl a : same_properties a a.
Proof. repeat split; apply same_refl. Qed.

(** X10.  Endpoints of the linear blend.  For tuples whose vp, vs and rho
    are finite numbers, the weight 0 returns the first tuple and the weight 1
    the second, exactly as C's [==] compares the three fields: the binary64
    products and sums lose nothing there. *)
Theorem linear_interpolation_endpoints :
  forall a b r,
    finite_properties a = true ->
    finite_properties b = true ->
    same_vp_vs_rho (ivlsu_linear_interpolation 0 a b r) a = true
    /\ same_vp_vs_rho (ivlsu_linear_interpolation 1 a b r) b = true.
Proof.
  intros a b r Fa Fb. split.
  - apply same_properties_eqb; auto. apply linear_at_0; auto. apply same_properties_refl.
  - apply same_properties_eqb; auto. apply linear_at_1; auto. apply same_properties_refl.
Qed.

(** X11.  The same endpoints fail as soon as the other tuple is not finite: a
    NaN or infinite sample next to the queried node makes the blended field
    NaN even at the weights 0 and 1. *)
Theorem non_finite_neighbour_gives_nan :
  forall a b r,
    (finite (vp b) = false -> vp (ivlsu_linear_interpolation 0 a b r) = nan)
    /\ (finite (vs b) = false -> vs (ivlsu_linear_interpolation 0 a b r) = nan)
    /\ (finite (rho b) = false -> rho (ivlsu_linear_interpolation 0 a b r) = nan)
    /\ (finite (vp a) = false -> vp (ivlsu_linear_interpolation 1 a b r) = nan)
    /\ (finite (vs a) = false -> vs (ivlsu_linear_interpolation 1 a b r) = nan)
    /\ (finite (rho a) = false -> rho (ivlsu_linear_interpolation 1 a b r) = nan).
Proof.
  intros a b r.
  unfold ivlsu_linear_interpolation; cbn [vp vs rho set_vp set_vs set_rho].
  repeat split; intro H;
    first [ now apply lerp_at_0_not_finite | now apply lerp_at_1_not_finite ].
Qed.

(** X12.  Corners of the bilinear and trilinear blends.  For finite tuples,
    Bilinear(0, 0) is the origin of the plane and Bilinear(1, 1) its +1x+1y
    corner; Trilinear(0, 0, 0) is the first of the eight tuples and
    Trilinear(1, 1, 1) the last, exactly as C's [==] compares vp, vs, rho. *)
Theorem bilinear_and_trilinear_corners :
  forall e0 e1 e2 e3 e4 e5 e6 e7 r,
    forallb finite_properties [e0; e1; e2; e3; e4; e5; e6; e7] = true ->
    same_vp_vs_rho (ivlsu_bilinear_interpolation 0 0 [e0; e1; e2; e3] r) e0 = true
    /\ same_vp_vs_rho (ivlsu_bilinear_interpolation 1 1 [e0; e1; e2; e3] r) e3 = true
    /\ same_vp_vs_rho
         (ivlsu_trilinear_interpolation 0 0 0 [e0; e1; e2; e3; e4; e5; e6; e7] r) e0 = true
    /\ same_vp_vs_rho
         (ivlsu_trilinear_interpolation 1 1 1 [e0; e1; e2; e3; e4; e5; e6; e7] r) e7 = true.
Proof.
  intros e0 e1 e2 e3 e4 e5 e6 e7 r F. cbn [forallb] in F.
  repeat (apply andb_prop in F; let H := fresh "F" in destruct F as [H F]).
  assert (B00 : forall a b c d t,
             finite_properties a = true -> finite_properties b = true ->
             finite_properties c = true -> finite_properties d = true ->
             same_properties (ivlsu_bilinear_interpolation 0 0 [a; b; c; d] t) a).
  { intros a b c d t Ha Hb Hc Hd. unfold ivlsu_bilinear_interpolation, element. cbn [nth].
    apply linear_at_0; auto.
    - apply linear_at_0; auto. apply same_properties_refl.
    - apply (same_properties_finite _ c); auto.
      apply linear_at_0; auto. apply same_properties_refl. }
  assert (B11 : forall a b c d t,
             finite_properties a = true -> finite_properties b = true ->
             finite_properties c = true -> finite_properties d = true ->
             same_properties (ivlsu_bilinear_interpolation 1 1 [a; b; c; d] t) d).
  { intros a b c d t Ha Hb Hc Hd. unfold ivlsu_bilinear_interpolation, element. cbn [nth].
    apply linear_at_1; auto.
    - apply linear_at_1; auto. apply same_properties_refl.
    - apply (same_properties_finite _ b); auto.
      apply linear_at_1; auto. apply same_properties_refl. }
  repeat split.
  - apply same_properties_eqb; auto.
  - apply same_properties_eqb; auto.
  - apply same_properties_eqb; auto.
    unfold ivlsu_trilinear_interpolation. cbn [skipn].
    apply linear_at_0; auto.
    + exact (B00 e0 e1 e2 e3 calloc_properties F0 F1 F2 F3).
    + apply (same_properties_finite _ e4); auto.
  - apply same_properties_eqb; auto.
    unfold ivlsu_trilinear_interpolation. cbn [skipn].
    apply linear_at_1; auto.
    apply (same_properties_finite _ e3); auto.
    exact (B11 e0 e1 e2 e3 calloc_properties F0 F1 F2 F3).
Qed.


(** ** Binary64 rounding of a product that is at least its factor *)

Section Rounding.

Local Open Scope Z_scope.

Lemma shr_1_mantissa r : 0 <= shr_m r -> shr_m (shr_1 r) = shr_m r / 2 /\ 0 <= shr_m (shr_1 r).
Proof.
  destruct r as [m rb sb]. cbn [shr_m]. intro H.
  destruct m as [|p|p]; [| |lia].
  - cbn. split; [reflexivity|lia].
  - destruct p as [p|p|].
    + cbn [shr_1 shr_m]. split; [|lia].
      change (Z.pos p~1) with (2 * Z.pos p + 1). apply Z.div_unique with (r := 1); lia.
    + cbn [shr_1 shr_m]. split; [|lia].
      change (Z.pos p~0) with (2 * Z.pos p). apply Z.div_unique with (r := 0); lia.
    + cbn. split; [reflexivity|lia].
Qed.

Lemma iter_pos_nat {A} (f : A -> A) p : forall x, iter_pos f p x = Nat.iter (Pos.to_nat p) f x.
Proof.
  induction p as [p IH|p IH|]; intro x; cbn [iter_pos].
  - rewrite !IH. rewrite Pos2Nat.inj_xI.
    replace (S (2 * Pos.to_nat p))%nat with (Pos.to_nat p + (Pos.to_nat p + 1))%nat by lia.
    rewrite !Nat.iter_add. reflexivity.
  - rewrite !IH. rewrite Pos2Nat.inj_xO.
    replace (2 * Pos.to_nat p)%nat with (Pos.to_nat p + Pos.to_nat p)%nat by lia.
    rewrite Nat.iter_add. reflexivity.
  - reflexivity.
Qed.

Lemma iter_shr_1_mantissa n : forall r, 0 <= shr_m r ->
  shr_m (Nat.iter n shr_1 r) = shr_m r / 2 ^ Z.of_nat n /\ 0 <= shr_m (Nat.iter n shr_1 r).
Proof.
  induction n as [|n IH]; intros r H.
  - change (Nat.iter 0 shr_1 r) with r. change (Z.of_nat 0) with 0.
    rewrite Z.pow_0_r, Z.div_1_r. auto.
  - rewrite Nat.iter_succ. destruct (IH r H) as [H1 H2].
    destruct (shr_1_mantissa _ H2) as [H3 H4]. split; [|exact H4].
    rewrite H3, H1. rewrite Nat2Z.inj_succ, Z.pow_succ_r by lia.
    rewrite Z.div_div by lia. f_equal. lia.
Qed.

Lemma shr_mantissa k r : 0 <= shr_m r ->
  shr_m (iter_pos shr_1 k r) = shr_m r / 2 ^ Z.pos k.
Proof.
  intro H. rewrite iter_pos_nat.
  destruct (iter_shr_1_mantissa (Pos.to_nat k) r H) as [H1 _].
  rewrite H1. now rewrite positive_nat_Z.
Qed.

Lemma round_nearest_even_bounds q l : q <= round_nearest_even q l <= q + 1.
Proof.
  unfold round_nearest_even. destruct l as [|[ | | ]]; try lia.
  destruct (Z.even q); lia.
Qed.

Lemma digits2_pos_bounds p :
  2 ^ (Z.pos (digits2_pos p) - 1) <= Z.pos p < 2 ^ Z.pos (digits2_pos p).
Proof.
  induction p as [p IH|p IH|].
  - cbn [digits2_pos]. rewrite Pos2Z.inj_succ. change (Z.pos p~1) with (2 * Z.pos p + 1).
    set (d := Z.pos (digits2_pos p)) in *.
    replace (Z.succ d - 1) with d by lia.
    rewrite Z.pow_succ_r by (unfold d; lia).
    assert (2 ^ d = 2 * 2 ^ (d - 1)).
    { replace d with (Z.succ (d - 1)) at 1 by lia. apply Z.pow_succ_r. unfold d; lia. }
    lia.
  - cbn [digits2_pos]. rewrite Pos2Z.inj_succ. change (Z.pos p~0) with (2 * Z.pos p).
    set (d := Z.pos (digits2_pos p)) in *.
    replace (Z.succ d - 1) with d by lia.
    rewrite Z.pow_succ_r by (unfold d; lia).
    assert (2 ^ d = 2 * 2 ^ (d - 1)).
    { replace d with (Z.succ (d - 1)) at 1 by lia. apply Z.pow_succ_r. unfold d; lia. }
    lia.
  - cbn. lia.
Qed.

Lemma digits2_pos_unique p n :
  2 ^ (n - 1) <= Z.pos p < 2 ^ n -> Z.pos (digits2_pos p) = n.
Proof.
  intros [H1 H2]. pose proof (digits2_pos_bounds p) as [H3 H4].
  assert (0 < n).
  { destruct (Z.ltb_spec 0 n) as [|Hn]; auto. exfalso.
    destruct (Z.eq_dec n 0) as [Hz|Hz].
    - subst n. rewrite Z.pow_0_r in H2. lia.
    - rewrite Z.pow_neg_r in H2 by lia. lia. }
  assert (Z.pos (digits2_pos p) - 1 < n).
  { apply (Z.pow_lt_mono_r_iff 2); lia. }
  assert (n - 1 < Z.pos (digits2_pos p)).
  { apply (Z.pow_lt_mono_r_iff 2); lia. }
  lia.
Qed.


Lemma SFltb_false_finite m e m' e' :
  SFltb (S754_finite false m e) (S754_finite false m' e') = false ->
  e' < e \/ (e = e' /\ Z.pos m' <= Z.pos m).
Proof.
  unfold SFltb, SFcompare.
  destruct (Z.compare_spec e e') as [Heq|Hl|Hg]; intro H.
  - right. split; [exact Heq|].
    rewrite Pos.compare_cont_spec in H. unfold Pos.switch_Eq in H.
    destruct (Pos.compare_spec m m') as [Hc|Hc|Hc]; [lia|discriminate|lia].
  - discriminate.
  - left. exact Hg.
Qed.

Lemma canonical_digits m e :
  bounded prec emax m e = true -> -1074 < e ->
  Z.pos (digits2_pos m) = 53.
Proof.
  intros Hb He. unfold bounded in Hb. apply andb_prop in Hb. destruct Hb as [Hc _].
  unfold canonical_mantissa in Hc. apply Z.eqb_eq in Hc.
  unfold fexp, SpecFloat.emin, prec, emax in Hc. lia.
Qed.

Lemma product_not_below m e M eM :
  Z.pos (digits2_pos m) = 53 ->
  Z.pos (digits2_pos M) = 53 ->
  -52 <= e ->
  -1074 <= eM ->
  SFltb (binary_round_aux prec emax false (Z.pos (m * M)) (e + eM) loc_Exact)
        (S754_finite false M eM) = false.
Proof.
  intros Hdm HdM He HeM.
  pose proof (digits2_pos_bounds m) as Bm. rewrite Hdm in Bm.
  pose proof (digits2_pos_bounds M) as BM. rewrite HdM in BM.
  replace (53 - 1) with 52 in Bm, BM by reflexivity.
  pose proof (digits2_pos_bounds (m * M)) as Bp.
  set (P := (m * M)%positive) in *.
  set (d := Z.pos (digits2_pos P)) in *.
  assert (HP : Z.pos P = Z.pos m * Z.pos M) by (unfold P; apply Pos2Z.inj_mul).
  assert (T52 : 0 < 2 ^ 52) by (apply Z.pow_pos_nonneg; lia).
  assert (Hlow : 2 ^ 104 <= Z.pos P).
  { replace 104 with (52 + 52) by reflexivity. rewrite Z.pow_add_r by lia.
    rewrite HP. apply Z.mul_le_mono_nonneg; lia. }
  assert (Hhigh : Z.pos P < 2 ^ 106).
  { replace 106 with (53 + 53) by reflexivity. rewrite Z.pow_add_r by lia.
    rewrite HP. apply Z.mul_lt_mono_nonneg; lia. }
  assert (Hd : 105 <= d <= 106).
  { split.
    - assert (104 < d); [|lia]. apply (Z.pow_lt_mono_r_iff 2); lia.
    - assert (d - 1 < 106); [|lia]. apply (Z.pow_lt_mono_r_iff 2); lia. }
  unfold binary_round_aux, shr_fexp.
  change (Zdigits2 (Z.pos P)) with d.
  assert (Hk : fexp prec emax (d + (e + eM)) - (e + eM) = d - 53).
  { unfold fexp, SpecFloat.emin, prec, emax. lia. }
  rewrite Hk.
  destruct (d - 53) as [|kp|kp] eqn:Hkp; try lia.
  unfold shr at 1.
  set (r1 := iter_pos shr_1 kp (shr_record_of_loc (Z.pos P) loc_Exact)).
  assert (Hq : shr_m r1 = Z.pos P / 2 ^ Z.pos kp).
  { unfold r1. rewrite shr_mantissa; cbn [shr_record_of_loc shr_m]; [reflexivity|lia]. }
  pose proof (round_nearest_even_bounds (shr_m r1) (loc_of_shr_record r1)) as Hm1.
  set (m1 := round_nearest_even (shr_m r1) (loc_of_shr_record r1)) in *.
  assert (Tk : 0 < 2 ^ Z.pos kp) by (apply Z.pow_pos_nonneg; lia).
  assert (Hqb : 2 ^ 52 <= shr_m r1 < 2 ^ 53).
  { rewrite Hq. split.
    - apply Z.div_le_lower_bound; [lia|].
      rewrite <- Z.pow_add_r by lia.
      replace (Z.pos kp + 52) with (d - 1) by lia. lia.
    - apply Z.div_lt_upper_bound; [lia|].
      rewrite <- Z.pow_add_r by lia.
      replace (Z.pos kp + 53) with d by lia. lia. }
  assert (Hqm : e = -52 -> d = 105 -> Z.pos M <= shr_m r1).
  { intros He52 Hd105. rewrite Hq. apply Z.div_le_lower_bound; [lia|].
    replace (Z.pos kp) with 52 by lia. rewrite HP.
    apply Z.mul_le_mono_nonneg_r; lia. }
  cbv beta iota.
  set (e1 := e + eM + Z.pos kp).
  destruct m1 as [|pm|pm] eqn:Hm1e; try lia.
  destruct (Z.ltb_spec (Z.pos pm) (2 ^ 53)) as [Hsmall|Hbig].
  - assert (Hdig : Z.pos (digits2_pos pm) = 53).
    { apply digits2_pos_unique. replace (53 - 1) with 52 by reflexivity. lia. }
    change (Zdigits2 (Z.pos pm)) with (Z.pos (digits2_pos pm)). rewrite Hdig.
    assert (Hk2 : fexp prec emax (53 + e1) - e1 = 0).
    { unfold fexp, SpecFloat.emin, prec, emax, e1. lia. }
    rewrite Hk2. cbn [shr shr_record_of_loc shr_m].
    destruct (e1 <=? emax - prec); [|reflexivity].
    unfold SFltb, SFcompare.
    destruct (Z.compare_spec e1 eM) as [Heq|Hl|Hg]; try reflexivity; [|unfold e1 in Hl; lia].
    rewrite Pos.compare_cont_spec. unfold Pos.switch_Eq.
    assert (Z.pos M <= Z.pos pm).
    { apply Z.le_trans with (shr_m r1); [apply Hqm; unfold e1 in Heq; lia|lia]. }
    destruct (Pos.compare_spec pm M); try reflexivity. lia.
  - assert (Hdig : Z.pos (digits2_pos pm) = 54).
    { apply digits2_pos_unique. replace (54 - 1) with 53 by reflexivity.
      replace 54 with (Z.succ 53) by reflexivity. rewrite Z.pow_succ_r by lia. lia. }
    change (Zdigits2 (Z.pos pm)) with (Z.pos (digits2_pos pm)). rewrite Hdig.
    assert (Hk2 : fexp prec emax (54 + e1) - e1 = 1).
    { unfold fexp, SpecFloat.emin, prec, emax, e1. lia. }
    rewrite Hk2. cbn [shr iter_pos shr_record_of_loc].
    destruct (shr_1_mantissa (Build_shr_record (Z.pos pm) false false)) as [Hs1 _];
      [cbn [shr_m]; lia|].
    cbn [shr_m] in Hs1.
    set (r2 := shr_1 (Build_shr_record (Z.pos pm) false false)) in *.
    cbv beta iota.
    assert (0 < shr_m r2).
    { rewrite Hs1. apply Z.div_str_pos. lia. }
    destruct (shr_m r2) as [|pf|pf]; try lia.
    destruct (e1 + 1 <=? emax - prec); [|reflexivity].
    unfold SFltb, SFcompare.
    destruct (Z.compare_spec (e1 + 1) eM) as [Heq|Hl|Hg]; try reflexivity;
      unfold e1 in *; lia.
Qed.

Lemma SFltb_false_classify x m' e' :
  SFltb x (S754_finite false m' e') = false ->
  match x with
  | S754_nan | S754_infinity false => True
  | S754_finite false m e => e' < e \/ (e = e' /\ Z.pos m' <= Z.pos m)
  | _ => False
  end.
Proof.
  destruct x as [s|s| |s m e].
  - destruct s; discriminate.
  - destruct s; [discriminate|auto].
  - auto.
  - destruct s; [discriminate|]. apply SFltb_false_finite.
Qed.

End Rounding.

(** Scaling a value that is not below 1.0 by 1000.0 gives a value that is not
    below 1000.0: the rounded product cannot fall under the factor. *)
Lemma scaled_by_1000_not_below r :
  (r <? 1) = false -> (r * 1000 <? 1000) = false.
Proof.
  rewrite !FloatAxioms.ltb_spec, FloatAxioms.mul_spec.
  change (Prim2SF 1) with (S754_finite false 4503599627370496 (-52)).
  change (Prim2SF 1000) with (S754_finite false 8796093022208000 (-43)).
  intro H. apply SFltb_false_classify in H.
  pose proof (Prim2SF_valid r) as Hv.
  destruct (Prim2SF r) as [s|s| |s m e]; try contradiction.
  - destruct s; [contradiction|]. reflexivity.
  - reflexivity.
  - destruct s; [contradiction|].
    unfold SF64mul, SFmul. cbn [xorb].
    apply product_not_below.
    + apply (canonical_digits m e Hv). lia.
    + reflexivity.
    + lia.
    + lia.
Qed.


(** ** Derived density *)

Lemma clamped_and_scaled v :
  (ivlsu_calculate_density v <? 1000) = false.
Proof.
  unfold ivlsu_calculate_density. cbv zeta.
  set (r := _ - _ + _ - _ + _).
  destruct (r <? 1) eqn:Hr.
  - reflexivity.
  - apply scaled_by_1000_not_below. exact Hr.
Qed.

(** X13.  The density is never below 1000, for every double passed as vp:
    after the clamp at 1.0 the scaling by 1000.0 cannot round under 1000.0.
    (For a NaN vp the result is NaN, which is not below 1000 either.) *)
Theorem density_is_never_below_1000 :
  forall vp, (ivlsu_calculate_density vp <? 1000) = false.
Proof. exact clamped_and_scaled. Qed.

(** X14.  Every point that passes both checks and resolves is written with vs
    and rho derived from the vp it is written with (whatever the sample or
    blend is), and with a rho that is not below 1000. *)
Theorem resolved_point_carries_derived_vs_and_rho :
  forall g cfg p d l log pu pv px py c d' l' log',
    (depth p <? 0) = false ->
    project E g cfg p l = (pu, pv, (px, py)) ->
    load_coords cfg p px py = Some c ->
    outside cfg p c = false ->
    query_point E g cfg p d l log = (Ok (d', l'), log') ->
    rho d' = ivlsu_calculate_density (vp d')
    /\ vs d' = ivlsu_calculate_vs (vp d')
    /\ (rho d' <? 1000) = false.
Proof.
  intros g cfg p d l log pu pv px py c d' l' log' Hdepth Hproj Hload Hin.
  unfold query_point. rewrite Hdepth, Hproj. unfold bind at 1. unfold lift.
  rewrite Hload. unfold ret at 1. rewrite Hin. unfold bind, ret.
  destruct (gather g cfg c _ _ _ d _ log) as [[[d1 sp]|why] log1]; [|discriminate].
  intro H. inversion H; subst. unfold derive. cbn [vp vs rho set_rho set_vs].
  repeat split. apply clamped_and_scaled.
Qed.


(** ** Cells inside the grid *)

Lemma in_grid_intro cfg x y z :
  (0 <= x <= nx cfg - 1)%Z -> (0 <= y <= ny cfg - 1)%Z -> (0 <= z <= nz cfg - 1)%Z ->
  in_grid cfg (x, y, z) = true.
Proof.
  intros Hx Hy Hz. unfold in_grid, in_range.
  repeat (apply andb_true_intro; split); apply Z.leb_le; lia.
Qed.

(** X15.  On a grid of at most INT_MAX samples held in memory, with
    interpolation on, a point that passes both checks with a vertical index
    z >= 1 and whose cell lies inside the grid (the node (x+1, y+1, z) is a
    lattice point) is answered by exactly eight reads: the origin, +1x, +1y,
    +1x+1y of the plane z, then the same four of the plane z - 1, all of them
    lattice points of the grid.  The answer is the trilinear blend of the
    eight samples found there, with vs and rho derived from it. *)
Theorem trilinear_branch_reads_two_planes :
  forall g cfg buf p d l log pu pv px py x y z,
    ivlsu_configuration g = Some cfg ->
    ivlsu_velocity_model g = Some (mk_model (Samples buf) 2) ->
    (nx cfg * ny cfg * nz cfg <= INT_MAX)%Z ->
    (nx cfg * ny cfg * nz cfg <= Z.of_nat (List.length buf))%Z ->
    List.length (surrounding_points l) = 8%nat ->
    (depth p <? 0) = false ->
    project E g cfg p l = (pu, pv, (px, py)) ->
    load_coords cfg p px py = Some (x, y, z) ->
    outside cfg p (x, y, z) = false ->
    interpolation cfg <> 0%Z ->
    (1 <= z)%Z ->
    in_grid cfg (x + 1, y + 1, z)%Z = true ->
    exists vals,
      map (sample cfg buf) (plane x y z ++ plane x y (z - 1)) = map Some vals
      /\ forallb (in_grid cfg) (plane x y z ++ plane x y (z - 1)) = true
      /\ let sp := refill vals (surrounding_points l) in
         query_point E g cfg p d l log
         = (Ok (derive (ivlsu_trilinear_interpolation (x_percent g cfg pu)
                          (y_percent g cfg pv) (z_percent cfg p) sp d),
                mk_locals pu pv sp),
            log ++ plane x y z ++ plane x y (z - 1)).
Proof.
  intros g cfg buf p d l log pu pv px py x y z
         Hc Hm Hmax Hlen H8 Hdepth Hproj Hload Hout Hon Hz Hcell.
  destruct (not_outside_bounds cfg p x y z Hout) as (_ & Hx & Hy & _).
  pose proof (in_grid_bounds cfg _ _ _ Hcell) as (Hx1 & Hy1 & Hz1).
  assert (G0 : in_grid cfg (x, y, z) = true) by (apply in_grid_intro; lia).
  assert (G1 : in_grid cfg (x + 1, y, z)%Z = true) by (apply in_grid_intro; lia).
  assert (G2 : in_grid cfg (x, y + 1, z)%Z = true) by (apply in_grid_intro; lia).
  assert (G4 : in_grid cfg (x, y, z - 1)%Z = true) by (apply in_grid_intro; lia).
  assert (G5 : in_grid cfg (x + 1, y, z - 1)%Z = true) by (apply in_grid_intro; lia).
  assert (G6 : in_grid cfg (x, y + 1, z - 1)%Z = true) by (apply in_grid_intro; lia).
  assert (G7 : in_grid cfg (x + 1, y + 1, z - 1)%Z = true) by (apply in_grid_intro; lia).
  destruct (sample_in_grid cfg buf _ Hmax Hlen G0) as [v0 S0].
  destruct (sample_in_grid cfg buf _ Hmax Hlen G1) as [v1 S1].
  destruct (sample_in_grid cfg buf _ Hmax Hlen G2) as [v2 S2].
  destruct (sample_in_grid cfg buf _ Hmax Hlen Hcell) as [v3 S3].
  destruct (sample_in_grid cfg buf _ Hmax Hlen G4) as [v4 S4].
  destruct (sample_in_grid cfg buf _ Hmax Hlen G5) as [v5 S5].
  destruct (sample_in_grid cfg buf _ Hmax Hlen G6) as [v6 S6].
  destruct (sample_in_grid cfg buf _ Hmax Hlen G7) as [v7 S7].
  exists [v0; v1; v2; v3; v4; v5; v6; v7].
  split; [unfold plane; cbn [map app];
          now rewrite S0, S1, S2, S3, S4, S5, S6, S7|].
  split; [unfold plane; cbn [forallb app];
          now rewrite G0, G1, G2, Hcell, G4, G5, G6, G7|].
  cbv zeta.
  unfold query_point. rewrite Hdepth, Hproj. unfold bind at 1. unfold lift.
  rewrite Hload. unfold ret at 1. rewrite Hout.
  unfold gather.
  destruct (Z.eqb_spec z 0) as [Hz0|_]; [lia|]. cbn [andb].
  apply Z.eqb_neq in Hon. rewrite Hon. cbn [negb surrounding_points].
  destruct l as [lu lv sp0]. cbn [surrounding_points] in *.
  do 8 (destruct sp0 as [|? sp0]; [discriminate|]).
  destruct sp0; [|discriminate].
  unfold bind.
  rewrite (read_into_in_grid g cfg buf x y z _ 0 _ v0 Hc Hm Hmax G0 S0).
  rewrite (read_into_in_grid g cfg buf (x + 1) y z _ 1 _ v1 Hc Hm Hmax G1 S1).
  rewrite (read_into_in_grid g cfg buf x (y + 1) z _ 2 _ v2 Hc Hm Hmax G2 S2).
  rewrite (read_into_in_grid g cfg buf (x + 1) (y + 1) z _ 3 _ v3 Hc Hm Hmax Hcell S3).
  rewrite (read_into_in_grid g cfg buf x y (z - 1) _ 4 _ v4 Hc Hm Hmax G4 S4).
  rewrite (read_into_in_grid g cfg buf (x + 1) y (z - 1) _ 5 _ v5 Hc Hm Hmax G5 S5).
  rewrite (read_into_in_grid g cfg buf x (y + 1) (z - 1) _ 6 _ v6 Hc Hm Hmax G6 S6).
  rewrite (read_into_in_grid g cfg buf (x + 1) (y + 1) (z - 1) _ 7 _ v7 Hc Hm Hmax G7 S7).
  unfold ret, plane, element. cbn [store nth refill app].
  rewrite <- !app_assoc. reflexivity.
Qed.

(** X25.  The bottom boundary plane inside the grid.  On a grid of at most
    INT_MAX samples held in memory, with interpolation on, a point that
    passes both checks with the vertical index 0 and a vertical fraction
    that compares equal to zero, and whose cell lies inside the grid (the
    node (x+1, y+1, 0) is a lattice point), is answered by exactly four
    reads, the origin, +1x, +1y and +1x+1y of the plane z = 0, all of them
    lattice points of the grid; the plane z - 1 is not read.  The answer is
    the bilinear blend of the four samples found there, with vs and rho
    derived from it. *)
Theorem bottom_plane_inside_the_grid_is_bilinear :
  forall g cfg buf p d l log pu pv px py x y,
    ivlsu_configuration g = Some cfg ->
    ivlsu_velocity_model g = Some (mk_model (Samples buf) 2) ->
    (nx cfg * ny cfg * nz cfg <= INT_MAX)%Z ->
    (nx cfg * ny cfg * nz cfg <= Z.of_nat (List.length buf))%Z ->
    List.length (surrounding_points l) = 8%nat ->
    (depth p <? 0) = false ->
    project E g cfg p l = (pu, pv, (px, py)) ->
    load_coords cfg p px py = Some (x, y, 0%Z) ->
    outside cfg p (x, y, 0%Z) = false ->
    (z_percent cfg p =? 0) = true ->
    interpolation cfg <> 0%Z ->
    in_grid cfg (x + 1, y + 1, 0)%Z = true ->
    exists vals,
      map (sample cfg buf) (plane x y 0) = map Some vals
      /\ forallb (in_grid cfg) (plane x y 0) = true
      /\ let sp := refill vals (surrounding_points l) in
         query_point E g cfg p d l log
         = (Ok (derive (ivlsu_bilinear_interpolation (x_percent g cfg pu)
                          (y_percent g cfg pv) sp d),
                mk_locals pu pv sp),
            log ++ plane x y 0).
Proof.
  intros g cfg buf p d l log pu pv px py x y
         Hc Hm Hmax Hlen H8 Hdepth Hproj Hload Hout Hzp Hon Hcell.
  destruct (not_outside_bounds cfg p x y 0 Hout) as (_ & Hx & Hy & _).
  pose proof (in_grid_bounds cfg _ _ _ Hcell) as (Hx1 & Hy1 & Hz1).
  assert (G0 : in_grid cfg (x, y, 0)%Z = true) by (apply in_grid_intro; lia).
  assert (G1 : in_grid cfg (x + 1, y, 0)%Z = true) by (apply in_grid_intro; lia).
  assert (G2 : in_grid cfg (x, y + 1, 0)%Z = true) by (apply in_grid_intro; lia).
  destruct (sample_in_grid cfg buf _ Hmax Hlen G0) as [v0 S0].
  destruct (sample_in_grid cfg buf _ Hmax Hlen G1) as [v1 S1].
  destruct (sample_in_grid cfg buf _ Hmax Hlen G2) as [v2 S2].
  destruct (sample_in_grid cfg buf _ Hmax Hlen Hcell) as [v3 S3].
  exists [v0; v1; v2; v3].
  split; [unfold plane; cbn [map]; now rewrite S0, S1, S2, S3|].
  split; [unfold plane; cbn [forallb]; now rewrite G0, G1, G2, Hcell|].
  cbv zeta.
  unfold query_point. rewrite Hdepth, Hproj. unfold bind at 1. unfold lift.
  rewrite Hload. unfold ret at 1. rewrite Hout.
  unfold gather. rewrite Z.eqb_refl. fold (z_percent cfg p). rewrite Hzp.
  apply Z.eqb_neq in Hon. rewrite Hon. cbn [andb negb surrounding_points].
  destruct l as [lu lv sp0]. cbn [surrounding_points] in *.
  do 8 (destruct sp0 as [|? sp0]; [discriminate|]).
  destruct sp0; [|discriminate].
  unfold bind.
  rewrite (read_into_in_grid g cfg buf x y 0 _ 0 _ v0 Hc Hm Hmax G0 S0).
  rewrite (read_into_in_grid g cfg buf (x + 1) y 0 _ 1 _ v1 Hc Hm Hmax G1 S1).
  rewrite (read_into_in_grid g cfg buf x (y + 1) 0 _ 2 _ v2 Hc Hm Hmax G2 S2).
  rewrite (read_into_in_grid g cfg buf (x + 1) (y + 1) 0 _ 3 _ v3 Hc Hm Hmax Hcell S3).
  unfold ret, plane, element. cbn [store nth refill app].
  rewrite <- !app_assoc. reflexivity.
Qed.

(** ** The file-resident fallback *)

(** X16.  When [malloc] refuses the sample array, [ivlsu_init] keeps the model
    on disk and still returns SUCCESS with the ready flag set; on that model
    every lattice read is undefined, as it hands a null stream to [fseek]. *)
Theorem model_left_on_disk_cannot_be_read :
  forall h g x y z d log,
    UCVM_CODE_ERROR E <> SUCCESS ->
    fst (ivlsu_init E h g) = SUCCESS ->
    malloc_succeeds h = false ->
    ivlsu_is_initialized (snd (ivlsu_init E h g)) = 1%Z
    /\ ivlsu_read_properties (snd (ivlsu_init E h g)) x y z d log
       = (Undefined NullStream, log ++ [(x, y, z)]).
Proof.
  intros h g x y z d log Hcode. unfold ivlsu_init.
  destruct (ivlsu_read_configuration (config_file h) calloc_configuration) as [rc c].
  destruct (negb (rc =? SUCCESS)%Z); [discriminate|].
  unfold ivlsu_try_reading_model.
  destruct (vp_dat h) as [file|]; [|discriminate].
  intros Hok Hmalloc. rewrite Hmalloc in *.
  cbn [Z.eqb FAIL SUCCESS Pos.eqb] in *.
  destruct (proj_create_crs_to_crs h (utm_zone c)); cbn [fst snd] in *.
  - split; reflexivity.
  - contradiction (Hcode Hok).
Qed.

(** ** Depths that are not numbers *)

(** X17.  A depth that is NaN or +infinity is not caught by any check: it is
    not below 0, and the conversion of depth / 1000 to [int] that precedes the
    boundary check has no defined result. *)
Theorem depth_without_a_value_is_undefined :
  forall g cfg p d l log,
    finite (depth p) = false ->
    (depth p <? 0) = false ->
    query_point E g cfg p d l log = (Undefined IntConversion, log).
Proof.
  intros g cfg p d l log Hinf Hdepth. unfold query_point. rewrite Hdepth.
  destruct (project E g cfg p l) as [[pu pv] [px py]].
  assert (Hz : double_to_int (depth p / 1000) = None).
  { unfold double_to_int. rewrite FloatAxioms.div_spec.
    change (Prim2SF 1000) with (S754_finite false 8796093022208000 (-43)).
    unfold finite in Hinf.
    destruct (Prim2SF (depth p)) as [s|s| |s m e]; try discriminate; reflexivity. }
  unfold load_coords. rewrite Hz.
  destruct (double_to_int (c_round (py / delta_lat cfg)));
    [destruct (double_to_int (c_round (px / delta_lon cfg)))|]; reflexivity.
Qed.


(** ** The density of a vp that is not positive *)

Section Signs.

Local Open Scope Z_scope.

Lemma shr_nonneg r e n : 0 <= shr_m r -> 0 <= shr_m (fst (shr r e n)).
Proof.
  intro H. unfold shr. destruct n as [|p|p]; cbn [fst]; auto.
  rewrite iter_pos_nat. now destruct (iter_shr_1_mantissa (Pos.to_nat p) r H).
Qed.

Lemma binary_round_aux_class s p e l :
  sgn_ok s (binary_round_aux prec emax s (Z.pos p) e l).
Proof.
  unfold binary_round_aux, shr_fexp.
  set (n1 := fexp prec emax (Zdigits2 (Z.pos p) + e) - e).
  pose proof (shr_nonneg (shr_record_of_loc (Z.pos p) l) e n1) as H1.
  destruct (shr (shr_record_of_loc (Z.pos p) l) e n1) as [mrs' e'].
  cbn [fst] in H1.
  assert (H0 : 0 <= shr_m mrs').
  { apply H1. destruct l as [|c]; [|destruct c]; cbn; lia. }
  pose proof (round_nearest_even_bounds (shr_m mrs') (loc_of_shr_record mrs')) as Hr.
  set (m1 := round_nearest_even (shr_m mrs') (loc_of_shr_record mrs')) in *.
  set (n2 := fexp prec emax (Zdigits2 m1 + e') - e').
  pose proof (shr_nonneg (shr_record_of_loc m1 loc_Exact) e' n2) as H2.
  destruct (shr (shr_record_of_loc m1 loc_Exact) e' n2) as [mrs'' e''].
  cbn [fst] in H2.
  assert (H3 : 0 <= shr_m mrs'') by (apply H2; cbn; lia).
  destruct (shr_m mrs'') as [|q|q].
  - cbn. auto.
  - destruct (e'' <=? emax - prec); cbn; auto.
  - lia.
Qed.

Lemma binary_normalize_neg_class p e :
  sgn_ok true (binary_normalize prec emax (Z.neg p) e false).
Proof.
  unfold binary_normalize, binary_round.
  destruct (shl_align p e _) as [mz ez]. apply binary_round_aux_class.
Qed.

Lemma SFmul_class sx sy x y :
  sgn_ok sx x -> sgn_ok sy y ->
  (is_zero x -> is_inf y -> False) -> (is_inf x -> is_zero y -> False) ->
  sgn_ok (xorb sx sy) (SFmul prec emax x y).
Proof.
  intros Hx Hy H1 H2.
  destruct x as [s|s| |s m e], y as [s'|s'| |s' m' e']; cbn in *;
    try contradiction; subst; auto.
  apply binary_round_aux_class.
Qed.

Lemma SFadd_class x y :
  sgn_ok true x -> sgn_ok true y -> sgn_ok true (SFadd prec emax x y).
Proof.
  intros Hx Hy.
  destruct x as [s|s| |s m e], y as [s'|s'| |s' m' e']; cbn [sgn_ok] in *;
    try contradiction; subst; try (cbn; auto; fail).
  - destruct s, s'; cbn; auto.
  - unfold SFadd. cbn [cond_Zopp]. 
    change (- Z.pos ?a + - Z.pos ?b) with (Z.neg (a + b)).
    apply binary_normalize_neg_class.
Qed.

Lemma SFsub_class x y :
  sgn_ok true x -> sgn_ok false y -> sgn_ok true (SFsub prec emax x y).
Proof.
  intros Hx Hy.
  destruct x as [s|s| |s m e], y as [s'|s'| |s' m' e']; cbn [sgn_ok] in *;
    try contradiction; subst; try (cbn; auto; fail).
  - destruct s, s'; cbn; auto.
  - unfold SFsub. cbn [cond_Zopp].
    change (- Z.pos ?a - Z.pos ?b) with (Z.neg (a + b)).
    apply binary_normalize_neg_class.
Qed.

End Signs.

Lemma mul_power s v w :
  cls true v -> cls s w -> follows v w ->
  cls (xorb s true) (w * v) /\ follows v (w * v).
Proof.
  unfold cls, follows. rewrite FloatAxioms.mul_spec. intros Hv Hw [Hi Hz]. split.
  - apply SFmul_class; auto.
    + intros Zw Iv. specialize (Hi Iv). destruct (Prim2SF w); contradiction.
    + intros Iw Zv. specialize (Hz Zv). destruct (Prim2SF w); contradiction.
  - split.
    + intro Iv. specialize (Hi Iv).
      destruct (Prim2SF v), (Prim2SF w); try contradiction; cbn; auto.
    + intro Zv. specialize (Hz Zv).
      destruct (Prim2SF v), (Prim2SF w); try contradiction; cbn; auto.
Qed.

Lemma mul_const s w c m e :
  cls s w -> Prim2SF c = S754_finite false m e -> cls s (w * c).
Proof.
  unfold cls. rewrite FloatAxioms.mul_spec. intros Hw Hc. rewrite Hc.
  assert (H : sgn_ok (xorb s false) (SFmul prec emax (Prim2SF w) (S754_finite false m e))).
  { apply SFmul_class; cbn; auto. }
  now rewrite xorb_false_r in H.
Qed.

Lemma add_nonpos x y : cls true x -> cls true y -> cls true (x + y).
Proof. unfold cls. rewrite FloatAxioms.add_spec. apply SFadd_class. Qed.

Lemma sub_nonpos x y : cls true x -> cls false y -> cls true (x - y).
Proof. unfold cls. rewrite FloatAxioms.sub_spec. apply SFsub_class. Qed.

Lemma nonpos_below_positive x m' e' :
  sgn_ok true x -> SFltb x (S754_finite false m' e') = true.
Proof.
  destruct x as [s|s| |s m e]; cbn [sgn_ok]; intro H; try contradiction; subst;
    reflexivity.
Qed.

Lemma nonpos_below_one x : cls true x -> (x <? 1) = true.
Proof.
  unfold cls. rewrite FloatAxioms.ltb_spec.
  change (Prim2SF 1) with (S754_finite false 4503599627370496 (-52)).
  apply nonpos_below_positive.
Qed.

Lemma at_most_zero_class x : (x <=? 0) = true -> cls true x.
Proof.
  unfold cls. rewrite FloatAxioms.leb_spec.
  change (Prim2SF 0) with (S754_zero false).
  destruct (Prim2SF x) as [s|s| |s m e]; cbn; try discriminate; auto;
    destruct s; auto; discriminate.
Qed.

(** X18.  For every vp that is at most 0, in particular the sentinel -1 that
    an absent model leaves in vp, the density is exactly 1000: every term of
    the polynomial has the sign that makes the sum non-positive, so the clamp
    at 1.0 applies. *)
Theorem density_of_a_non_positive_vp_is_1000 :
  forall vp, (vp <=? 0) = true -> ivlsu_calculate_density vp = 1000.
Proof.
  intros v H. apply at_most_zero_class in H.
  unfold ivlsu_calculate_density. cbv zeta.
  set (k := v * 0.001).
  assert (Hk : cls true k) by (eapply mul_const; [exact H|reflexivity]).
  assert (Fk : follows k k) by (split; auto).
  destruct (mul_power true k k Hk Hk Fk) as [H2 F2].
  destruct (mul_power false k (k * k) Hk H2 F2) as [H3 F3].
  destruct (mul_power true k (k * k * k) Hk H3 F3) as [H4 F4].
  destruct (mul_power false k (k * k * k * k) Hk H4 F4) as [H5 F5].
  cbn [xorb] in H2, H3, H4, H5.
  assert (T1 : cls true (k * 1.6612)) by (eapply mul_const; [exact Hk|reflexivity]).
  assert (T2 : cls false (k * k * 0.4721)) by (eapply mul_const; [exact H2|reflexivity]).
  assert (T3 : cls true (k * k * k * 0.0671)) by (eapply mul_const; [exact H3|reflexivity]).
  assert (T4 : cls false (k * k * k * k * 0.0043))
    by (eapply mul_const; [exact H4|reflexivity]).
  assert (T5 : cls true (k * k * k * k * k * 0.000106))
    by (eapply mul_const; [exact H5|reflexivity]).
  rewrite nonpos_below_one.
  - reflexivity.
  - apply add_nonpos; [|exact T5].
    apply sub_nonpos; [|exact T4].
    apply add_nonpos; [|exact T3].
    apply sub_nonpos; [exact T1|exact T2].
Qed.


(** ** The version string *)

Section VersionProperties.

Local Open Scope Z_scope.

Lemma c_string_until_zero a t :
  Forall (fun c => Ascii.eqb c Ascii.zero = false) a ->
  c_string (a ++ Ascii.zero :: t) = a.
Proof.
  induction 1 as [|c a Hc Ha IH]; cbn [app c_string].
  - reflexivity.
  - rewrite Hc. now rewrite IH.
Qed.

Lemma Forall_prefix {A} (P : A -> Prop) l :
  Forall P l -> forall n, Forall P (firstn n l).
Proof.
  induction 1 as [|c a Hc Ha IH]; intros [|n]; cbn [firstn]; constructor; auto.
Qed.

Lemma to_size_t_small n : 0 <= n <= 2147483647 -> to_size_t n = n.
Proof. intro H. unfold to_size_t. apply Z.mod_small. split; [lia|].
  apply Z.le_lt_trans with 2147483647; [lia|]. reflexivity. Qed.

(** X19.  Given room for at least one byte (1 <= len, and a buffer of at least
    len bytes), [ivlsu_version] returns 0 and leaves in the buffer a
    zero-terminated string: the first min(8, len - 1) characters of
    IMPERIAL.  The buffer keeps its size and the bytes from len on are not
    touched. *)
Theorem version_is_a_terminated_prefix :
  forall ver len,
    1 <= len <= 2147483647 ->
    len <= Z.of_nat (List.length ver) ->
    let n := Z.to_nat (Z.min 8 (len - 1)) in
    exists ver',
      ivlsu_version ver len = Ok (0, ver')
      /\ List.length ver' = List.length ver
      /\ c_string ver' = firstn n (list_ascii_of_string ivlsu_version_string)
      /\ skipn (Z.to_nat len) ver' = skipn (Z.to_nat len) ver.
Proof.
  intros ver len Hlen Hfit n.
  unfold ivlsu_version, memset_zero.
  rewrite to_size_t_small by lia.
  destruct (Z.leb_spec len (Z.of_nat (List.length ver))) as [_|]; [|lia].
  set (buf := repeat Ascii.zero (Z.to_nat len) ++ skipn (Z.to_nat len) ver).
  assert (Hbuf : List.length buf = List.length ver).
  { unfold buf. rewrite length_app, repeat_length, length_skipn. lia. }
  change (Z.of_nat (String.length ivlsu_version_string)) with 8.
  assert (Hv : (if len - 1 <? 8 then len - 1 else 8) = Z.of_nat n).
  { unfold n. destruct (Z.ltb_spec (len - 1) 8); lia. }
  rewrite Hv. unfold strncpy. rewrite to_size_t_small by lia.
  rewrite Nat2Z.id, Hbuf.
  destruct (Z.leb_spec (Z.of_nat n) (Z.of_nat (List.length ver))) as [_|]; [|lia].
  assert (Hn : (n <= 8)%nat) by lia.
  assert (Hnl : (n < Z.to_nat len)%nat) by lia.
  set (chars := list_ascii_of_string ivlsu_version_string).
  replace (n - List.length chars)%nat with 0%nat by (unfold chars; cbn; lia).
  cbn [repeat app].
  assert (Hskip : skipn n buf
                  = repeat Ascii.zero (Z.to_nat len - n) ++ skipn (Z.to_nat len) ver).
  { unfold buf. rewrite skipn_app, repeat_length.
    replace (n - Z.to_nat len)%nat with 0%nat by lia. cbn [skipn]. f_equal.
    replace (Z.to_nat len) with (n + (Z.to_nat len - n))%nat at 1 by lia.
    rewrite repeat_app, skipn_app, repeat_length, Nat.sub_diag. cbn [skipn].
    rewrite skipn_all2 by (rewrite repeat_length; lia). reflexivity. }
  rewrite Hskip.
  eexists. split; [reflexivity|].
  assert (Hfl : List.length (firstn n chars) = n).
  { rewrite length_firstn. unfold chars. cbn. lia. }
  split; [|split].
  - rewrite !length_app, Hfl, repeat_length, length_skipn. lia.
  - destruct (Z.to_nat len - n)%nat as [|k] eqn:Hk; [lia|]. cbn [repeat app].
    apply c_string_until_zero. apply Forall_prefix. unfold chars. cbn.
    repeat constructor.
  - rewrite skipn_app, Hfl.
    rewrite skipn_all2 by (rewrite Hfl; lia). cbn [app].
    rewrite skipn_app, repeat_length.
    rewrite skipn_all2 by (rewrite repeat_length; lia). cbn [app].
    replace (Z.to_nat len - n - (Z.to_nat len - n))%nat with 0%nat by lia.
    reflexivity.
Qed.

Lemma memset_zero_outcome s n :
  match memset_zero s n with
  | Ok b => List.length b = List.length s
  | Undefined why => why = OutOfBounds
  end.
Proof.
  unfold memset_zero.
  destruct (Z.leb_spec (to_size_t n) (Z.of_nat (List.length s))) as [H|H]; [|reflexivity].
  assert (0 <= to_size_t n) by (apply Z.mod_pos_bound; reflexivity).
  rewrite length_app, repeat_length, length_skipn. lia.
Qed.

(** X20.  With len <= 0 the call is undefined: the count len - 1 handed to
    [strncpy] (or len itself handed to [memset]) is negative and becomes a
    size beyond any buffer.  (At len = INT_MIN the subtraction len - 1 has
    already overflowed; the statement starts above it.) *)
Theorem version_with_no_room_is_undefined :
  forall ver len,
    -2147483647 <= len <= 0 ->
    Z.of_nat (List.length ver) < 2 ^ 63 ->
    ivlsu_version ver len = Undefined OutOfBounds.
Proof.
  intros ver len Hlen Hobj. unfold ivlsu_version.
  change (Z.of_nat (String.length ivlsu_version_string)) with 8.
  destruct (Z.ltb_spec (len - 1) 8) as [_|]; [|lia].
  pose proof (memset_zero_outcome ver len) as Hm.
  destruct (memset_zero ver len) as [buf|why]; [|now subst why].
  unfold strncpy.
  assert (Hs : to_size_t (len - 1) = 2 ^ 64 + (len - 1)).
  { unfold to_size_t. symmetry. apply Z.mod_unique with (q := -1).
    - left. split; [|lia]. assert (2147483649 < 2 ^ 64) by reflexivity. lia.
    - lia. }
  rewrite Hs, Hm.
  destruct (Z.leb_spec (2 ^ 64 + (len - 1)) (Z.of_nat (List.length ver))); [|reflexivity].
  assert (2 ^ 63 + 2147483649 < 2 ^ 64) by reflexivity. lia.
Qed.

End VersionProperties.


(** ** A batch is answered point by point *)

Lemma ret_parametric {A} (a : A) : log_parametric (ret a).
Proof. intro log. unfold ret. cbn. now rewrite app_nil_r. Qed.

Lemma undefined_parametric {A} why : log_parametric (@undefined A why).
Proof. intro log. unfold undefined. cbn. now rewrite app_nil_r. Qed.

Lemma lift_parametric {A} why (o : option A) : log_parametric (lift why o).
Proof. destruct o; [apply ret_parametric|apply undefined_parametric]. Qed.

Lemma called_parametric c : log_parametric (called c).
Proof. intro log. reflexivity. Qed.

Lemma bind_parametric {A B} (m : M A) (k : A -> M B) :
  log_parametric m -> (forall a, log_parametric (k a)) -> log_parametric (bind m k).
Proof.
  intros Hm Hk log. unfold bind. rewrite (Hm log).
  destruct (m []) as [[a|why] l1]; cbn [fst snd].
  - rewrite (Hk a (log ++ l1)), (Hk a l1). cbn [fst snd]. now rewrite app_assoc.
  - reflexivity.
Qed.

Ltac parametric :=
  repeat first
    [ apply bind_parametric; [|intro]
    | apply ret_parametric
    | apply undefined_parametric
    | apply lift_parametric
    | apply called_parametric
    | match goal with
      | |- log_parametric (if ?b then _ else _) => destruct b
      | |- log_parametric (match ?x with _ => _ end) => destruct x
      end ].

Lemma read_properties_parametric g x y z d :
  log_parametric (ivlsu_read_properties g x y z d).
Proof. unfold ivlsu_read_properties, fseek, fread_float. parametric. Qed.

Lemma read_into_parametric g x y z a k : log_parametric (read_into g x y z a k).
Proof.
  unfold read_into. apply bind_parametric; [apply read_properties_parametric|].
  intro. apply ret_parametric.
Qed.

Lemma gather_parametric g cfg c xp yp zp d sp :
  log_parametric (gather g cfg c xp yp zp d sp).
Proof.
  unfold gather. destruct c as [[x y] z].
  destruct ((z =? 0)%Z && (zp =? 0)); destruct (negb (interpolation cfg =? 0)%Z);
    repeat first
      [ apply read_into_parametric
      | apply read_properties_parametric
      | apply ret_parametric
      | apply bind_parametric; [|intro] ].
Qed.

Lemma query_point_parametric g cfg p d l : log_parametric (query_point E g cfg p d l).
Proof.
  unfold query_point.
  destruct (depth p <? 0); [apply ret_parametric|].
  destruct (project E g cfg p l) as [[pu pv] [px py]].
  apply bind_parametric; [apply lift_parametric|]. intro c.
  destruct (outside cfg p c); [apply ret_parametric|].
  apply bind_parametric; [apply gather_parametric|]. intros [d1 sp].
  apply ret_parametric.
Qed.

Lemma read_into_length g x y z a k log a' log' :
  read_into g x y z a k log = (Ok a', log') -> List.length a' = List.length a.
Proof.
  unfold read_into, bind, ret.
  destruct (ivlsu_read_properties g x y z (element a k) log) as [[d|?] l1];
    [|discriminate].
  intro H. inversion H; subst. apply store_length.
Qed.

Lemma gather_length g cfg c xp yp zp d sp log d' sp' log' :
  gather g cfg c xp yp zp d sp log = (Ok (d', sp'), log') ->
  List.length sp' = List.length sp.
Proof.
  unfold gather. destruct c as [[x y] z].
  destruct ((z =? 0)%Z && (zp =? 0)); destruct (negb (interpolation cfg =? 0)%Z);
    unfold bind, ret;
    repeat match goal with
      | |- context [read_into ?g ?a ?b ?c ?s ?k ?lg] =>
          let H := fresh "Hr" in
          destruct (read_into g a b c s k lg) as [[?|?] ?] eqn:H;
          [apply read_into_length in H|discriminate]
      | |- context [ivlsu_read_properties ?g ?a ?b ?c ?s ?lg] =>
          destruct (ivlsu_read_properties g a b c s lg) as [[?|?] ?]; [|discriminate]
      end;
    intro H; inversion H; subst; congruence.
Qed.

Lemma query_point_length g cfg p d l log d' l' log' :
  query_point E g cfg p d l log = (Ok (d', l'), log') ->
  List.length (surrounding_points l') = List.length (surrounding_points l).
Proof.
  unfold query_point.
  destruct (depth p <? 0).
  { unfold ret. intro H. now inversion H. }
  destruct (project E g cfg p l) as [[pu pv] [px py]].
  unfold bind at 1. unfold lift.
  destruct (load_coords cfg p px py) as [c|]; [|discriminate]. unfold ret at 1.
  destruct (outside cfg p c).
  { unfold ret. intro H. now inversion H. }
  unfold bind, ret. cbn [surrounding_points].
  destruct (gather g cfg c _ _ _ d (surrounding_points l) log)
    as [[[d1 sp]|?] l1] eqn:Hg; [|discriminate].
  intro H. inversion H; subst. cbn [surrounding_points].
  eapply gather_length; eauto.
Qed.


Lemma written_alone g cfg p d l l0 log :
  fst (proj_trans_fwd E (ivlsu_geo2utm g) (latitude p) (longitude p)) = 0%Z ->
  List.length (surrounding_points l) = 8%nat ->
  List.length (surrounding_points l0) = 8%nat ->
  written (query_point E g cfg p d l0 []) = written (query_point E g cfg p d l log).
Proof.
  intros Hok Hl Hl0.
  pose proof (answer_any_locals g cfg p d l0 l [] Hok Hl0 Hl) as Ha.
  rewrite (query_point_parametric g cfg p d l log).
  destruct (query_point E g cfg p d l0 []) as [[[d0 s0]|w0] lg0];
    destruct (query_point E g cfg p d l []) as [[[d1 s1]|w1] lg1];
    cbn in *; congruence.
Qed.

Lemma query_loop_point_by_point g cfg points :
  (forall p, In p points ->
     fst (proj_trans_fwd E (ivlsu_geo2utm g) (latitude p) (longitude p)) = 0%Z) ->
  forall count j data l log out log',
    List.length (surrounding_points l) = 8%nat ->
    query_loop E g cfg count j points data l log = (Ok out, log') ->
    forall i p d l0,
      (j <= i < j + count)%nat ->
      nth_error points i = Some p ->
      nth_error data i = Some d ->
      List.length (surrounding_points l0) = 8%nat ->
      written (query_point E g cfg p d l0 []) = nth_error out i.
Proof.
  intros Hok. induction count as [|count IH];
    intros j data l log out log' Hl H i p d l0 Hi Hp Hd Hl0; [lia|].
  simpl in H. unfold bind at 1 in H. unfold lift at 1 in H.
  destruct (nth_error points j) as [pj|] eqn:Hpj; [|discriminate]. unfold ret at 1 in H.
  unfold bind at 1 in H. unfold lift at 1 in H.
  destruct (nth_error data j) as [dj|] eqn:Hdj; [|discriminate]. unfold ret at 1 in H.
  unfold bind at 1 in H.
  destruct (query_point E g cfg pj dj l log) as [[[d' l1]|why] log1] eqn:Hq;
    [|discriminate].
  destruct (Nat.eq_dec i j) as [Heq|Hne].
  - subst i. rewrite Hpj in Hp. rewrite Hdj in Hd. inversion Hp; inversion Hd; subst.
    rewrite (query_loop_keeps_earlier_slots g cfg points _ _ _ _ _ _ _ H j) by lia.
    rewrite (store_same _ _ _ _ Hdj).
    rewrite (written_alone g cfg p d l l0 log); auto.
    + now rewrite Hq.
    + apply Hok. eapply nth_error_In; eauto.
  - apply (IH (S j) (store data j d') l1 log1 out log'); auto.
    + rewrite (query_point_length _ _ _ _ _ _ _ _ _ Hq). exact Hl.
    + lia.
    + rewrite store_other by lia. exact Hd.
Qed.

(** X21.  When the transform succeeds for every point of a batch, the call
    answers each point as if it were queried alone: the tuple found in slot
    i afterwards is the one a single iteration writes for points[i] over the
    original data[i], started from fresh locals and whatever the order and
    the other points of the batch are. *)
Theorem batch_is_answered_point_by_point :
  forall g cfg garbage points data numpoints log rc out log',
    ivlsu_configuration g = Some cfg ->
    (forall p, In p points ->
       fst (proj_trans_fwd E (ivlsu_geo2utm g) (latitude p) (longitude p)) = 0%Z) ->
    ivlsu_query E g garbage points data numpoints log = (Ok (rc, out), log') ->
    forall i p d,
      (i < Z.to_nat numpoints)%nat ->
      nth_error points i = Some p ->
      nth_error data i = Some d ->
      written (query_point E g cfg p d (mk_locals 0 0 (repeat garbage 8)) [])
      = nth_error out i.
Proof.
  intros g cfg garbage points data numpoints log rc out log' Hc Hok H i p d Hi Hp Hd.
  unfold ivlsu_query in H. unfold bind at 1 in H. unfold lift in H. rewrite Hc in H.
  unfold ret at 1 in H. unfold bind in H.
  destruct (query_loop E g cfg (Z.to_nat numpoints) 0 points data _ log)
    as [[out'|why] log1] eqn:Hl; [|discriminate].
  unfold ret in H. inversion H; subst.
  assert (H8 : List.length (surrounding_points (mk_locals 0 0 (repeat garbage 8))) = 8%nat)
    by (cbn [surrounding_points]; apply repeat_length).
  apply (query_loop_point_by_point g cfg points Hok _ _ _ _ _ _ _ H8 Hl i p d);
    auto. lia.
Qed.


(** ** A model without samples *)

(** X22.  When no sample file was found ([vp_status] neither 1 nor 2) and
    interpolation is off, a point that passes both checks is still answered:
    the read leaves the "not found" value -1 in vp, and the derived-property
    step then turns rho into 1000 and vs into [ivlsu_calculate_vs (-1)]
    instead of leaving the sentinels. *)
Theorem absent_model_answers_with_derived_values :
  forall g cfg model p d l log pu pv px py x y z,
    ivlsu_configuration g = Some cfg ->
    ivlsu_velocity_model g = Some model ->
    vp_status model <> 2%Z ->
    vp_status model <> 1%Z ->
    interpolation cfg = 0%Z ->
    (depth p <? 0) = false ->
    project E g cfg p l = (pu, pv, (px, py)) ->
    load_coords cfg p px py = Some (x, y, z) ->
    outside cfg p (x, y, z) = false ->
    query_point E g cfg p d l log
    = (Ok (mk_properties (-1) (ivlsu_calculate_vs (-1)) 1000 (qp d) (qs d),
           mk_locals pu pv (surrounding_points l)),
       log ++ [(x, y, z)]).
Proof.
  intros g cfg model p d l log pu pv px py x y z Hc Hm H2 H1 Hoff Hdepth Hproj Hload Hin.
  apply Z.eqb_neq in H1, H2.
  assert (Hread : forall z', ivlsu_read_properties g x y z' d log
                  = (Ok (mk_properties (-1) (-1) (-1) (qp d) (qs d)), log ++ [(x, y, z')])).
  { intro z'. unfold ivlsu_read_properties. unfold bind at 1. unfold called.
    unfold bind at 1. unfold lift at 1. rewrite Hc. unfold ret at 1.
    unfold bind at 1. unfold lift at 1. rewrite Hm. unfold ret at 1.
    rewrite H2, H1. reflexivity. }
  unfold query_point. rewrite Hdepth, Hproj. unfold bind at 1. unfold lift.
  rewrite Hload. unfold ret at 1. rewrite Hin.
  unfold gather. rewrite Hoff. cbn [Z.eqb negb surrounding_points].
  destruct ((z =? 0)%Z && (z_percent cfg p =? 0)) eqn:Hz.
  - apply andb_prop in Hz. destruct Hz as [Hz _]. apply Z.eqb_eq in Hz. subst z.
    unfold bind. rewrite Hread. reflexivity.
  - unfold bind. rewrite Hread. reflexivity.
Qed.


(** ** Running a batch again over its own output *)

(** The slot content enters an iteration through qp and qs only, and not at
    all for a point above the surface. *)
Lemma read_properties_same_qp_qs g x y z d1 d2 log :
  qp d1 = qp d2 -> qs d1 = qs d2 ->
  ivlsu_read_properties g x y z d1 log = ivlsu_read_properties g x y z d2 log.
Proof.
  destruct d1, d2. cbn [qp qs]. intros Hp Hs. subst. reflexivity.
Qed.

Lemma query_point_same_qp_qs g cfg p d1 d2 l log :
  (depth p <? 0) = true \/ (qp d1 = qp d2 /\ qs d1 = qs d2) ->
  query_point E g cfg p d1 l log = query_point E g cfg p d2 l log.
Proof.
  intro H. unfold query_point.
  destruct (depth p <? 0) eqn:Hdepth; [reflexivity|].
  destruct H as [H|[Hp Hs]]; [discriminate|].
  destruct d1, d2. cbn [qp qs] in Hp, Hs. subst.
  destruct (project E g cfg p l) as [[pu pv] [px py]].
  unfold bind, lift.
  destruct (load_coords cfg p px py) as [[[x y] z]|]; [|reflexivity].
  unfold ret.
  destruct (outside cfg p (x, y, z)); [reflexivity|].
  unfold gather.
  destruct ((z =? 0)%Z && (z_percent cfg p =? 0));
    destruct (negb (interpolation cfg =? 0)%Z); reflexivity.
Qed.


Lemma query_loop_same_qp_qs g cfg points :
  forall count j data1 data2 l log,
    List.length data1 = List.length data2 ->
    (forall i, (i < j \/ j + count <= i)%nat -> nth_error data1 i = nth_error data2 i) ->
    (forall i p d1 d2,
       (j <= i < j + count)%nat ->
       nth_error points i = Some p ->
       nth_error data1 i = Some d1 ->
       nth_error data2 i = Some d2 ->
       (depth p <? 0) = true \/ (qp d1 = qp d2 /\ qs d1 = qs d2)) ->
    query_loop E g cfg count j points data1 l log
    = query_loop E g cfg count j points data2 l log.
Proof.
  induction count as [|count IH]; intros j data1 data2 l log Hlen Hout Hin.
  - assert (data1 = data2) as ->; [|reflexivity].
    apply nth_error_ext. intro i. apply Hout. lia.
  - cbn [query_loop]. unfold bind, lift, ret, undefined.
    destruct (nth_error points j) as [p|] eqn:Hp; [|reflexivity].
    destruct (nth_error data1 j) as [d1|] eqn:H1;
      destruct (nth_error data2 j) as [d2|] eqn:H2; cbv beta iota.
    + rewrite (query_point_same_qp_qs g cfg p d1 d2 l log)
        by (apply (Hin j); auto; lia).
      destruct (query_point E g cfg p d2 l log) as [[[d' l']|why] log1]; [|reflexivity].
      apply IH.
      * now rewrite !store_length.
      * intros i Hi. destruct (Nat.eq_dec i j) as [->|Hne].
        -- now rewrite (store_same _ _ _ _ H1), (store_same _ _ _ _ H2).
        -- rewrite !store_other by lia. apply Hout. lia.
      * intros i q e1 e2 Hi Hq He1 He2.
        rewrite store_other in He1, He2 by lia.
        apply (Hin i); auto. lia.
    + apply nth_error_None in H2. rewrite <- Hlen in H2.
      apply nth_error_None in H2. congruence.
    + apply nth_error_None in H1. rewrite Hlen in H1.
      apply nth_error_None in H1. congruence.
    + reflexivity.
Qed.

Lemma query_loop_slots_keep_qp_qs g cfg points :
  forall count j data l log out log',
    query_loop E g cfg count j points data l log = (Ok out, log') ->
    forall i p d d',
      (j <= i < j + count)%nat ->
      nth_error points i = Some p ->
      nth_error data i = Some d ->
      nth_error out i = Some d' ->
      (depth p <? 0) = true \/ (qp d' = qp d /\ qs d' = qs d).
Proof.
  induction count as [|count IH];
    intros j data l log out log' H i p d d' Hi Hp Hd Hd'; [lia|].
  simpl in H. unfold bind at 1 in H. unfold lift at 1 in H.
  destruct (nth_error points j) as [pj|] eqn:Hpj; [|discriminate]. unfold ret at 1 in H.
  unfold bind at 1 in H. unfold lift at 1 in H.
  destruct (nth_error data j) as [dj|] eqn:Hdj; [|discriminate]. unfold ret at 1 in H.
  unfold bind at 1 in H.
  destruct (query_point E g cfg pj dj l log) as [[[dq l1]|why] log1] eqn:Hq;
    [|discriminate].
  destruct (Nat.eq_dec i j) as [Heq|Hne].
  - subst i. rewrite Hpj in Hp. rewrite Hdj in Hd. inversion Hp; inversion Hd; subst.
    rewrite (query_loop_keeps_earlier_slots g cfg points _ _ _ _ _ _ _ H j) in Hd' by lia.
    rewrite (store_same _ _ _ _ Hdj) in Hd'. inversion Hd'; subst.
    destruct (depth p <? 0) eqn:Hdepth; [now left|right].
    eapply query_point_keeps_qp_qs; eauto.
  - apply (IH (S j) (store data j dq) l1 log1 out log' H i p d d'); auto.
    + lia.
    + rewrite store_other by lia. exact Hd.
Qed.

(** X23.  The call never reads vp, vs or rho of the caller's array, and for
    a point above the surface it reads nothing of its slot: two arrays of
    one length that agree from slot [numpoints] on, and in qp and qs in the
    slot of each point whose depth is not negative, give the same return
    code, the same array on exit and the same sequence of reads (or the same
    undefined behaviour). *)
Theorem query_reads_only_qp_and_qs_of_its_slots :
  forall g garbage points data1 data2 numpoints log,
    List.length data1 = List.length data2 ->
    (forall i, (Z.to_nat numpoints <= i)%nat -> nth_error data1 i = nth_error data2 i) ->
    (forall i p d1 d2,
       (i < Z.to_nat numpoints)%nat ->
       nth_error points i = Some p ->
       nth_error data1 i = Some d1 ->
       nth_error data2 i = Some d2 ->
       (depth p <? 0) = true \/ (qp d1 = qp d2 /\ qs d1 = qs d2)) ->
    ivlsu_query E g garbage points data1 numpoints log
    = ivlsu_query E g garbage points data2 numpoints log.
Proof.
  intros g garbage points data1 data2 numpoints log Hlen Hout Hin.
  unfold ivlsu_query. unfold bind, lift, ret, undefined.
  destruct (ivlsu_configuration g) as [cfg|]; [|reflexivity]. cbv beta iota.
  rewrite (query_loop_same_qp_qs g cfg points (Z.to_nat numpoints) 0 data1 data2); auto.
  - intros i [Hi|Hi]; [lia|]. apply Hout. lia.
  - intros i p d1 d2 Hi. apply Hin. lia.
Qed.

(** X24.  A call that returns can be repeated over its own output: handing
    the array it produced back as [data], with the same points, gives the
    same array again and the same sequence of reads. *)
Theorem query_again_over_its_output_changes_nothing :
  forall g garbage points data numpoints log rc out log',
    ivlsu_query E g garbage points data numpoints log = (Ok (rc, out), log') ->
    ivlsu_query E g garbage points out numpoints log = (Ok (rc, out), log').
Proof.
  intros g garbage points data numpoints log rc out log' H.
  unfold ivlsu_query in *. unfold bind, lift, ret, undefined in *.
  destruct (ivlsu_configuration g) as [cfg|]; [|discriminate]. cbv beta iota in *.
  destruct (query_loop E g cfg (Z.to_nat numpoints) 0 points data _ log)
    as [[out'|why] log1] eqn:Hl; [|discriminate].
  inversion H; subst out' log1 rc.
  rewrite (query_loop_same_qp_qs g cfg points (Z.to_nat numpoints) 0 out data).
  - now rewrite Hl.
  - eapply query_loop_length; eauto.
  - intros i [Hi|Hi]; [lia|].
    eapply query_loop_keeps_later_slots; eauto.
  - intros i p d1 d2 Hi Hp H1 H2.
    eapply (query_loop_slots_keep_qp_qs g cfg points); eauto.
Qed.

End Properties.

(** * The theorems at the example installation *)

(** C8 at the first point of a batch of three. *)
Lemma negative_depth_is_all_sentinel_witness :
  let points := [mk_point 1.2 1.2 (-3); mk_point 1.2 1.2 3000; mk_point 1.2 1.2 0] in
  let data := [Example.zeros; Example.zeros; Example.zeros] in
  query_loop Example.E Example.g Example.cfg 3 0 points data locals0 []
  = query_loop Example.E Example.g Example.cfg 2 1 points (store data 0 sentinel) locals0 []
  /\ (forall out log',
        query_loop Example.E Example.g Example.cfg 3 0 points data locals0 []
        = (Ok out, log') ->
        nth_error out 0 = Some sentinel).
Proof.
  intros points data.
  apply (negative_depth_is_all_sentinel Example.E Example.g Example.cfg 2 0 points data
           locals0 [] (mk_point 1.2 1.2 (-3)) Example.zeros); reflexivity.
Defined.

(** C4 on the code.  A point on the east edge of the surface has the vertical
    index 0 and the vertical fraction 0, passes both checks and is answered
    by the bottom-plane branch with interpolation on.  Of its four reads only
    the origin (1, 1, 0) is a lattice point; the other three land on the
    positions 4, 5 and 6 of the array, which hold the first samples of the
    plane z = 1, and the answer 500 = 0.5 * 400 + 0.5 * 600 is above every
    sample of the plane z = 0.  On a grid with a single layer the second read
    is past the end of the array.  The cause is the boundary check of line
    210, which admits x = nx - 1 and y = ny - 1. *)
Theorem bottom_plane_blend_leaves_the_plane :
  let p := mk_point 2 1.5 0 in
  let buf := [100; 200; 300; 400; 500; 600; 700; 800] in
  ivlsu_velocity_model Example.g = Some (mk_model (Samples buf) 2)
  /\ project Example.E Example.g Example.cfg p locals0 = (1000, 500, (1000, 500))
  /\ load_coords Example.cfg p 1000 500 = Some (1, 1, 0)%Z
  /\ outside Example.cfg p (1, 1, 0)%Z = false
  /\ (z_percent Example.cfg p =? 0) = true
  /\ interpolation Example.cfg = 1%Z
  /\ ivlsu_query Example.E Example.g Example.zeros [p] [Example.zeros] 1 []
     = (Ok (SUCCESS, [mk_properties 500 352.25000000000011 1000 0 0]), plane 1 1 0)
  /\ map (in_grid Example.cfg) (plane 1 1 0) = [true; false; false; false]
  /\ map (int_location Example.cfg) (plane 1 1 0) = [Some 3; Some 4; Some 5; Some 6]%Z
  /\ map (int_location Example.cfg) (plane 0 0 1) = [Some 4; Some 5; Some 6; Some 7]%Z
  /\ map (sample Example.cfg buf) (plane 1 1 0) = [Some 400; Some 500; Some 600; Some 700]
  /\ map (sample Example.cfg buf) (plane 0 0 0) = [Some 100; Some 200; Some 300; Some 400]
  /\ x_percent Example.g Example.cfg 1000 = 0
  /\ y_percent Example.g Example.cfg 500 = 0.5
  /\ ivlsu_query Example.E Example.g_one_layer Example.zeros [p] [Example.zeros] 1 []
     = (Undefined OutOfBounds, [(1, 1, 0); (2, 1, 0)]%Z).
Proof. repeat split; vm_compute; reflexivity. Qed.

(** A point over the first cell, on the surface: the four reads of the plane
    z = 0 and the blend 0.8 * (0.8 * 100 + 0.2 * 200) + 0.2 * (0.8 * 300 + 0.2 * 400). *)
Example bottom_plane_query :
  ivlsu_query Example.E Example.g Example.zeros [mk_point 1.2 1.2 0] [Example.zeros] 1 []
  = (Ok (SUCCESS, [mk_properties 160 608.14254950400016 1000 0 0]), plane 0 0 0).
Proof. vm_compute. reflexivity. Qed.

(** C5 at a point 2500 m deep over the first cell. *)
Lemma indices_and_vertical_fraction_witness :
  let p := mk_point 1.2 1.2 2500 in
  load_coords Example.cfg p 200 200 = Spec.indices Example.cfg 200 200 (depth p)
  /\ (forall other,
        load_coords (with_depth_interval other Example.cfg) p 200 200
        = load_coords Example.cfg p 200 200)
  /\ z_percent Example.cfg p = Spec.zPercent (depth_interval Example.cfg) (depth p).
Proof.
  intro p.
  apply (indices_and_vertical_fraction Example.cfg p 200 200); reflexivity.
Defined.

(** There the layer is 2 and the fraction one half. *)
Example indices_2500_m_deep :
  load_coords Example.cfg (mk_point 1.2 1.2 2500) 200 200 = Some (0, 0, 2)%Z
  /\ z_percent Example.cfg (mk_point 1.2 1.2 2500) = 0.5
  /\ load_coords (with_depth_interval 500 Example.cfg) (mk_point 1.2 1.2 2500) 200 200
     = Some (0, 0, 2)%Z
  /\ z_percent (with_depth_interval 500 Example.cfg) (mk_point 1.2 1.2 2500) = 0.
Proof. repeat split; vm_compute; reflexivity. Qed.

(** C1 on the code.  The second point of the batch has a latitude the
    transform rejects: [to_utm] returns [UCVM_CODE_ERROR], yet the call
    returns SUCCESS, and the point is answered with the sample of the lattice
    node (1, 1, 0), found from the (u, v) the first point left behind. *)
Theorem failed_transform_is_not_fatal :
  let bad := mk_point 1.2 100 0 in
  fst (to_utm Example.E Example.g (longitude bad) (latitude bad) 2000 2000)
  = UCVM_CODE_ERROR Example.E
  /\ ivlsu_query Example.E Example.g Example.zeros [mk_point 3 3 0; bad]
       [Example.zeros; Example.zeros] 2 []
     = (Ok (SUCCESS, [mk_properties (-1) (-1) (-1) 0 0;
                      mk_properties 400 411.46464000000009 1000 0 0]),
        plane 1 1 0).
Proof. split; vm_compute; reflexivity. Qed.

(** C2 on the code.  A point on the east edge passes the boundary check with
    the indices (1, 1, 0) of a grid with nx = ny = nz = 2; the accessor is
    then called with x = 2 and y = 2, and the answer blends samples of two
    layers.  Half a layer down, the same column reads z = -1, in front of the
    array. *)
Theorem neighbour_reads_leave_the_grid :
  let p := mk_point 2 1.5 0 in
  load_coords Example.cfg p 1000 500 = Some (1, 1, 0)%Z
  /\ outside Example.cfg p (1, 1, 0)%Z = false
  /\ ivlsu_query Example.E Example.g Example.zeros [p] [Example.zeros] 1 []
     = (Ok (SUCCESS, [mk_properties 500 352.25000000000011 1000 0 0]), plane 1 1 0)
  /\ map (in_grid Example.cfg) (plane 1 1 0) = [true; false; false; false]
  /\ ivlsu_query Example.E Example.g Example.zeros [mk_point 1.5 1.5 500]
       [Example.zeros] 1 []
     = (Undefined OutOfBounds, plane 1 1 0 ++ [(1, 1, -1)%Z])
  /\ outside Example.cfg (mk_point 1.5 1.5 500) (1, 1, 0)%Z = false.
Proof. repeat split; vm_compute; reflexivity. Qed.

(** What [fread] of one float at the address of a double would leave there,
    had the stream been valid: the word of 1500.0f under the high half of -1. *)
Example float_bytes_in_a_double :
  float_of_bits 1153138688 = 1500
  /\ store_low_word 1153138688 (-1) = -1.0000002560482244.
Proof. split; vm_compute; reflexivity. Qed.

(** C6 on the code.  With the output array zeroed by the caller, a point
    below the model gets -1 in vp, vs and rho only, and a point inside gets
    its values; qp and qs are still 0 in both. *)
Theorem qp_qs_are_left_as_found :
  ivlsu_query Example.E Example.g Example.zeros
    [mk_point 1.2 1.2 3000; mk_point 1.2 1.2 0] [Example.zeros; Example.zeros] 2 []
  = (Ok (SUCCESS, [mk_properties (-1) (-1) (-1) 0 0;
                   mk_properties 160 608.14254950400016 1000 0 0]),
     plane 0 0 0).
Proof. vm_compute; reflexivity. Qed.

(** C7 as stated fails.  After an initialization that found no vp.dat,
    [ivlsu_init] has returned FAIL and the flag is 0; a query for a point on
    the surface is serviced all the same: the storage accessor is called for
    the four nodes of the cell, the slot is overwritten and the call returns
    SUCCESS.  With interpolation off the point gets vp = -1 with vs and rho
    derived from it after one call of the accessor. *)
Lemma query_answers_when_not_ready :
  fst (ivlsu_init Example.E Example.h_without_vp_dat globals0) = FAIL
  /\ ivlsu_is_initialized Example.g_not_ready = 0%Z
  /\ ivlsu_query Example.E Example.g_not_ready Example.zeros
       [mk_point 1.2 1.2 0] [Example.zeros] 1 []
     = (Ok (SUCCESS, [mk_properties nan nan nan 0 0]), plane 0 0 0)
  /\ ivlsu_is_initialized Example.g_nearest_not_ready = 0%Z
  /\ ivlsu_query Example.E Example.g_nearest_not_ready Example.zeros
       [mk_point 1.2 1.2 0] [Example.zeros] 1 []
     = (Ok (SUCCESS, [mk_properties (-1) 787.03519502380652 1000 0 0]), [(0, 0, 0)%Z]).
Proof. repeat split; vm_compute; reflexivity. Qed.

(** C7 as the code has it, at the example machine: the successful
    initialization sets the flag; a later initialization that finds no
    vp.dat fails and leaves the flag as it was; and with the flag cleared by
    hand on the loaded model, a point on the surface is answered as before. *)
Lemma ready_flag_set_by_init_not_read_by_query_witness :
  ivlsu_is_initialized (snd (ivlsu_init Example.E Example.h globals0)) = 1%Z
  /\ ivlsu_is_initialized Example.g = 1%Z
  /\ ivlsu_is_initialized (snd (ivlsu_init Example.E Example.h_without_vp_dat Example.g))
     = ivlsu_is_initialized Example.g
  /\ ivlsu_query Example.E (set_is_initialized 0 Example.g) Example.zeros
       [mk_point 1.2 1.2 0] [Example.zeros] 1 []
     = (Ok (SUCCESS, [mk_properties 160 608.14254950400016 1000 0 0]), plane 0 0 0).
Proof.
  assert (H : UCVM_CODE_ERROR Example.E <> SUCCESS) by discriminate.
  split; [|split; [reflexivity|split]].
  - apply (proj1 (ready_flag_set_by_init_not_read_by_query
                    Example.E Example.h globals0 H)).
    reflexivity.
  - apply (proj1 (proj2 (ready_flag_set_by_init_not_read_by_query
                           Example.E Example.h_without_vp_dat Example.g H))).
    vm_compute. discriminate.
  - rewrite (proj2 (proj2 (ready_flag_set_by_init_not_read_by_query
                             Example.E Example.h Example.g H))).
    vm_compute. reflexivity.
Defined.

(** * Further properties at the example installation *)

(** X1 at a point 3000 m deep under a model 1000 m deep. *)
Lemma out_of_domain_is_three_sentinels_witness :
  let p := mk_point 1.2 1.2 3000 in
  let answer := mk_properties (-1) (-1) (-1) (qp Example.zeros) (qs Example.zeros) in
  query_loop Example.E Example.g Example.cfg 1 0 [p] [Example.zeros] locals0 []
  = query_loop Example.E Example.g Example.cfg 0 1 [p] (store [Example.zeros] 0 answer)
      (mk_locals 200 200 (surrounding_points locals0)) []
  /\ (forall out log',
        query_loop Example.E Example.g Example.cfg 1 0 [p] [Example.zeros] locals0 []
        = (Ok out, log') ->
        nth_error out 0 = Some answer).
Proof.
  intros p answer.
  apply (out_of_domain_is_three_sentinels Example.E Example.g Example.cfg 0 0 [p]
           [Example.zeros] locals0 [] p Example.zeros 200 200 200 200 (0, 0, 3)%Z);
    reflexivity.
Defined.

(** X3 at a point over the first cell, 1000 m deep. *)
Lemma without_interpolation_one_read_at_the_node_witness :
  let p := mk_point 1.2 1.2 1000 in
  query_point Example.E Example.g_nearest Example.cfg_nearest p Example.zeros locals0 []
  = (d' <- ivlsu_read_properties Example.g_nearest 0 0 1 Example.zeros ;;
     ret (derive d', mk_locals 200 200 (surrounding_points locals0))) []
  /\ snd (query_point Example.E Example.g_nearest Example.cfg_nearest p Example.zeros
            locals0 [])
     = [] ++ [(0, 0, 1)%Z]
  /\ (0 <= 0 <= nx Example.cfg_nearest - 1)%Z
  /\ (0 <= 0 <= ny Example.cfg_nearest - 1)%Z
  /\ (0 <= 1)%Z.
Proof.
  intro p.
  apply (without_interpolation_one_read_at_the_node Example.E Example.g_nearest
           Example.cfg_nearest p Example.zeros locals0 [] 200 200 200 200 0%Z 0%Z 1%Z);
    reflexivity.
Defined.

(** There the sample is the first of the second layer. *)
Example nearest_node_query :
  ivlsu_query Example.E Example.g_nearest Example.zeros [mk_point 1.2 1.2 1000]
    [Example.zeros] 1 []
  = (Ok (SUCCESS, [mk_properties 500 352.25000000000011 1000 0 0]), [(0, 0, 1)%Z]).
Proof. vm_compute. reflexivity. Qed.

(** X4 at the nodes (1, 0, 1) and (1, 0, 0), one above the other. *)
Lemma flat_location_is_injective_on_the_grid_witness :
  exists i j,
    int_location Example.cfg (1, 0, 1)%Z = Some i
    /\ int_location Example.cfg (1, 0, 0)%Z = Some j
    /\ i <> j
    /\ (0 <= i < nx Example.cfg * ny Example.cfg * nz Example.cfg)%Z
    /\ (0 <= j < nx Example.cfg * ny Example.cfg * nz Example.cfg)%Z.
Proof.
  apply (flat_location_is_injective_on_the_grid Example.cfg (1, 0, 1)%Z (1, 0, 0)%Z);
    first [reflexivity | discriminate].
Defined.

(** On the grid of 65536 x 65536 x 2 samples the same two nodes are beyond
    the bound: the plane size nx * ny is not an [int]. *)
Example location_overflows_on_a_wide_grid :
  in_grid Example.cfg_wide (1, 0, 1)%Z = true
  /\ int_location Example.cfg_wide (1, 0, 1)%Z = None
  /\ int_sample_count Example.cfg_wide = None.
Proof. repeat split; vm_compute; reflexivity. Qed.

(** X5 at the node (1, 0, 1) of the example store. *)
Lemma in_grid_read_returns_the_sample_witness :
  exists i v,
    int_location Example.cfg (1, 0, 1)%Z = Some i
    /\ subscript [100; 200; 300; 400; 500; 600; 700; 800] i = Some v
    /\ ivlsu_read_properties Example.g 1 0 1 Example.zeros []
       = (Ok (mk_properties v (-1) (-1) (qp Example.zeros) (qs Example.zeros)),
          [] ++ [(1, 0, 1)%Z]).
Proof.
  apply (in_grid_read_returns_the_sample Example.g Example.cfg
           [100; 200; 300; 400; 500; 600; 700; 800] (1, 0, 1)%Z Example.zeros []);
    first [reflexivity | vm_compute; discriminate].
Defined.

(** X7 at the example machine. *)
Lemma init_succeeds_iff_witness :
  let rc := fst (ivlsu_read_configuration (config_file Example.h) calloc_configuration) in
  let c := snd (ivlsu_read_configuration (config_file Example.h) calloc_configuration) in
  (fst (ivlsu_init Example.E Example.h globals0) = SUCCESS
   <-> rc = SUCCESS /\ vp_dat Example.h <> None
       /\ proj_create_crs_to_crs Example.h (utm_zone c) <> None)
  /\ (fst (ivlsu_init Example.E Example.h globals0) = SUCCESS ->
      let g' := snd (ivlsu_init Example.E Example.h globals0) in
      ivlsu_configuration g' = Some c
      /\ (exists m, ivlsu_velocity_model g' = Some m
                    /\ vp_status m = if malloc_succeeds Example.h then 2%Z else 1%Z)
      /\ ivlsu_geo2utm g' <> None
      /\ ivlsu_is_initialized g' = 1%Z).
Proof.
  apply (init_succeeds_iff Example.E Example.h globals0). discriminate.
Defined.

(** X8 at the node (1, 0, 1): position 5, the sixth word of vp.dat, 600.0f. *)
Lemma loaded_sample_is_the_word_of_the_file_witness :
  int_sample_count Example.cfg = Some 8%Z
  /\ (0 <= 5 < 8)%Z
  /\ ivlsu_read_properties (snd (ivlsu_init Example.E Example.h globals0)) 1 0 1
       Example.zeros []
     = (Ok (mk_properties (float_of_bits 1142292480) (-1) (-1)
              (qp Example.zeros) (qs Example.zeros)),
        [] ++ [(1, 0, 1)%Z]).
Proof.
  apply (loaded_sample_is_the_word_of_the_file Example.E Example.h globals0
           Example.vp_words (1, 0, 1)%Z Example.zeros [] 5%Z 1142292480%Z);
    first [reflexivity | discriminate].
Defined.

(** X9 at a point over the first cell, after two different histories. *)
Lemma answer_does_not_depend_on_earlier_points_witness :
  let p := mk_point 1.2 1.2 0 in
  answer (query_point Example.E Example.g Example.cfg p Example.zeros locals0 [])
  = answer (query_point Example.E Example.g Example.cfg p Example.zeros
              (mk_locals 5 7 (repeat sentinel 8)) []).
Proof.
  intro p.
  apply (answer_does_not_depend_on_earlier_points Example.E Example.g Example.cfg p
           Example.zeros locals0 (mk_locals 5 7 (repeat sentinel 8)) []);
    reflexivity.
Defined.

(** X10 at two rocks. *)
Lemma linear_interpolation_endpoints_witness :
  same_vp_vs_rho (ivlsu_linear_interpolation 0 Example.rock Example.hard_rock
                    Example.zeros) Example.rock = true
  /\ same_vp_vs_rho (ivlsu_linear_interpolation 1 Example.rock Example.hard_rock
                       Example.zeros) Example.hard_rock = true.
Proof.
  apply (linear_interpolation_endpoints Example.rock Example.hard_rock Example.zeros);
    reflexivity.
Defined.

(** X12 at a cube of rocks. *)
Lemma bilinear_and_trilinear_corners_witness :
  same_vp_vs_rho
    (ivlsu_bilinear_interpolation 0 0
       [Example.rock; Example.hard_rock; Example.rock; Example.hard_rock] Example.zeros)
    Example.rock = true
  /\ same_vp_vs_rho
       (ivlsu_bilinear_interpolation 1 1
          [Example.rock; Example.hard_rock; Example.rock; Example.hard_rock] Example.zeros)
       Example.hard_rock = true
  /\ same_vp_vs_rho (ivlsu_trilinear_interpolation 0 0 0 Example.cube Example.zeros)
       Example.rock = true
  /\ same_vp_vs_rho (ivlsu_trilinear_interpolation 1 1 1 Example.cube Example.zeros)
       Example.rock = true.
Proof.
  apply (bilinear_and_trilinear_corners Example.rock Example.hard_rock Example.rock
           Example.hard_rock Example.hard_rock Example.rock Example.hard_rock Example.rock
           Example.zeros).
  reflexivity.
Defined.

(** X14 at a point over the first cell, on the surface. *)
Lemma resolved_point_carries_derived_vs_and_rho_witness :
  let d' := mk_properties 160 608.14254950400016 1000 0 0 in
  rho d' = ivlsu_calculate_density (vp d')
  /\ vs d' = ivlsu_calculate_vs (vp d')
  /\ (rho d' <? 1000) = false.
Proof.
  intro d'.
  apply (resolved_point_carries_derived_vs_and_rho Example.E Example.g Example.cfg
           (mk_point 1.2 1.2 0) Example.zeros locals0 [] 200 200 200 200 (0, 0, 0)%Z d'
           (mk_locals 200 200
              [mk_properties 100 (-1) (-1) 0 0; mk_properties 200 (-1) (-1) 0 0;
               mk_properties 300 (-1) (-1) 0 0; mk_properties 400 (-1) (-1) 0 0;
               Example.zeros; Example.zeros; Example.zeros; Example.zeros])
           (plane 0 0 0));
    reflexivity.
Defined.

(** X15 at a point over the first cell, 1000 m deep: the cell between the
    two layers of the example grid. *)
Lemma trilinear_branch_reads_two_planes_witness :
  let p := mk_point 1.2 1.2 1000 in
  let buf := [100; 200; 300; 400; 500; 600; 700; 800] in
  exists vals,
    map (sample Example.cfg buf) (plane 0 0 1 ++ plane 0 0 (1 - 1)) = map Some vals
    /\ forallb (in_grid Example.cfg) (plane 0 0 1 ++ plane 0 0 (1 - 1)) = true
    /\ let sp := refill vals (surrounding_points locals0) in
       query_point Example.E Example.g Example.cfg p Example.zeros locals0 []
       = (Ok (derive (ivlsu_trilinear_interpolation (x_percent Example.g Example.cfg 200)
                        (y_percent Example.g Example.cfg 200) (z_percent Example.cfg p)
                        sp Example.zeros),
              mk_locals 200 200 sp),
          [] ++ plane 0 0 1 ++ plane 0 0 (1 - 1)).
Proof.
  intros p buf.
  apply (trilinear_branch_reads_two_planes Example.E Example.g Example.cfg buf p
           Example.zeros locals0 [] 200 200 200 200 0%Z 0%Z 1%Z);
    first [reflexivity | discriminate | vm_compute; discriminate].
Defined.

(** There all eight reads are made, and the blend weighs the two layers by
    the vertical fraction 0. *)
Example two_plane_query :
  ivlsu_query Example.E Example.g Example.zeros [mk_point 1.2 1.2 1000]
    [Example.zeros] 1 []
  = (Ok (SUCCESS, [mk_properties 560 322.70478694400015 1000 0 0]),
     plane 0 0 1 ++ plane 0 0 0).
Proof. vm_compute. reflexivity. Qed.

(** X25 at a point over the first cell, on the surface. *)
Lemma bottom_plane_inside_the_grid_is_bilinear_witness :
  let p := mk_point 1.2 1.2 0 in
  let buf := [100; 200; 300; 400; 500; 600; 700; 800] in
  exists vals,
    map (sample Example.cfg buf) (plane 0 0 0) = map Some vals
    /\ forallb (in_grid Example.cfg) (plane 0 0 0) = true
    /\ let sp := refill vals (surrounding_points locals0) in
       query_point Example.E Example.g Example.cfg p Example.zeros locals0 []
       = (Ok (derive (ivlsu_bilinear_interpolation (x_percent Example.g Example.cfg 200)
                        (y_percent Example.g Example.cfg 200) sp Example.zeros),
              mk_locals 200 200 sp),
          [] ++ plane 0 0 0).
Proof.
  intros p buf.
  apply (bottom_plane_inside_the_grid_is_bilinear Example.E Example.g Example.cfg buf p
           Example.zeros locals0 [] 200 200 200 200 0%Z 0%Z);
    first [reflexivity | discriminate | vm_compute; discriminate].
Defined.

(** X16 at the example machine without memory for the samples. *)
Lemma model_left_on_disk_cannot_be_read_witness :
  ivlsu_is_initialized (snd (ivlsu_init Example.E Example.h_without_memory globals0)) = 1%Z
  /\ ivlsu_read_properties (snd (ivlsu_init Example.E Example.h_without_memory globals0))
       0 0 0 Example.zeros []
     = (Undefined NullStream, [] ++ [(0, 0, 0)%Z]).
Proof.
  apply (model_left_on_disk_cannot_be_read Example.E Example.h_without_memory globals0
           0%Z 0%Z 0%Z Example.zeros []);
    first [reflexivity | discriminate].
Defined.

(** X17 at a NaN depth. *)
Lemma depth_without_a_value_is_undefined_witness :
  query_point Example.E Example.g Example.cfg (mk_point 1.2 1.2 nan) Example.zeros
    locals0 []
  = (Undefined IntConversion, []).
Proof.
  apply (depth_without_a_value_is_undefined Example.E Example.g Example.cfg
           (mk_point 1.2 1.2 nan) Example.zeros locals0 []);
    reflexivity.
Defined.

(** X18 at the sentinel. *)
Lemma density_of_a_non_positive_vp_is_1000_witness :
  ivlsu_calculate_density (-1) = 1000.
Proof.
  apply (density_of_a_non_positive_vp_is_1000 (-1)). reflexivity.
Defined.

(** X19 with a buffer of four bytes: the string is IMP. *)
Lemma version_is_a_terminated_prefix_witness :
  let n := Z.to_nat (Z.min 8 (4 - 1)) in
  exists ver',
    ivlsu_version Example.four_bytes 4 = Ok (0%Z, ver')
    /\ List.length ver' = List.length Example.four_bytes
    /\ c_string ver' = firstn n (list_ascii_of_string ivlsu_version_string)
    /\ skipn (Z.to_nat 4) ver' = skipn (Z.to_nat 4) Example.four_bytes.
Proof.
  apply (version_is_a_terminated_prefix Example.four_bytes 4);
    first [reflexivity | (split; discriminate) | discriminate].
Defined.

Example version_in_four_bytes :
  ivlsu_version Example.four_bytes 4 = Ok (0%Z, ["I"; "M"; "P"; Ascii.zero]%char).
Proof. reflexivity. Qed.

(** X20 with len = 0. *)
Lemma version_with_no_room_is_undefined_witness :
  ivlsu_version Example.four_bytes 0 = Undefined OutOfBounds.
Proof.
  apply (version_with_no_room_is_undefined Example.four_bytes 0);
    first [reflexivity | (split; discriminate)].
Defined.

(** X21 at the second point of a batch of two. *)
Lemma batch_is_answered_point_by_point_witness :
  written (query_point Example.E Example.g Example.cfg (mk_point 1.2 1.2 3000)
             Example.zeros (mk_locals 0 0 (repeat Example.zeros 8)) [])
  = nth_error [mk_properties 160 608.14254950400016 1000 0 0;
               mk_properties (-1) (-1) (-1) 0 0] 1.
Proof.
  apply (batch_is_answered_point_by_point Example.E Example.g Example.cfg Example.zeros
           [mk_point 1.2 1.2 0; mk_point 1.2 1.2 3000] [Example.zeros; Example.zeros]
           2 [] SUCCESS
           [mk_properties 160 608.14254950400016 1000 0 0;
            mk_properties (-1) (-1) (-1) 0 0]
           (plane 0 0 0));
    try reflexivity.
  - intros p [H | [H | []]]; subst p; reflexivity.
  - apply Nat.lt_succ_diag_r.
Defined.

(** X22 on the variables a failed initialization leaves. *)
Lemma absent_model_answers_with_derived_values_witness :
  query_point Example.E Example.g_nearest_not_ready Example.cfg_nearest
    (mk_point 1.2 1.2 500) Example.zeros locals0 []
  = (Ok (mk_properties (-1) (ivlsu_calculate_vs (-1)) 1000
           (qp Example.zeros) (qs Example.zeros),
         mk_locals 200 200 (surrounding_points locals0)),
     [] ++ [(0, 0, 0)%Z]).
Proof.
  apply (absent_model_answers_with_derived_values Example.E Example.g_nearest_not_ready
           Example.cfg_nearest calloc_model (mk_point 1.2 1.2 500) Example.zeros locals0
           [] 200 200 0 0 0%Z 0%Z 0%Z);
    first [reflexivity | discriminate].
Defined.


(** X23 at a batch of a point above the surface and a point on the top
    plane, over a zeroed array and over one holding other numbers. *)
Lemma query_reads_only_qp_and_qs_of_its_slots_witness :
  ivlsu_query Example.E Example.g Example.zeros
    [mk_point 1.2 1.2 (-5); mk_point 1.2 1.2 0]
    [mk_properties 1 2 3 4 5; mk_properties 6 7 8 0 0] 2 []
  = ivlsu_query Example.E Example.g Example.zeros
      [mk_point 1.2 1.2 (-5); mk_point 1.2 1.2 0]
      [Example.zeros; Example.zeros] 2 [].
Proof.
  apply (query_reads_only_qp_and_qs_of_its_slots Example.E Example.g Example.zeros
           [mk_point 1.2 1.2 (-5); mk_point 1.2 1.2 0]
           [mk_properties 1 2 3 4 5; mk_properties 6 7 8 0 0]
           [Example.zeros; Example.zeros] 2 []).
  - reflexivity.
  - intros [|[|i]] Hi; [inversion Hi| |reflexivity].
    apply Nat.succ_le_mono in Hi. inversion Hi.
  - intros [|[|i]] p d1 d2 Hi Hp H1 H2.
    + inversion Hp; subst p. left. reflexivity.
    + inversion H1; inversion H2; subst d1 d2. right. split; reflexivity.
    + apply Nat.succ_lt_mono, Nat.succ_lt_mono in Hi. inversion Hi.
Defined.

(** X24 at the same batch: the array the first call produced goes in again
    and comes out unchanged. *)
Lemma query_again_over_its_output_changes_nothing_witness :
  ivlsu_query Example.E Example.g Example.zeros
    [mk_point 1.2 1.2 (-5); mk_point 1.2 1.2 0]
    [sentinel; mk_properties 160 608.14254950400016 1000 0 0] 2 []
  = (Ok (SUCCESS, [sentinel; mk_properties 160 608.14254950400016 1000 0 0]),
     plane 0 0 0).
Proof.
  apply (query_again_over_its_output_changes_nothing Example.E Example.g Example.zeros
           [mk_point 1.2 1.2 (-5); mk_point 1.2 1.2 0]
           [Example.zeros; Example.zeros] 2 [] SUCCESS
           [sentinel; mk_properties 160 608.14254950400016 1000 0 0] (plane 0 0 0)).
  reflexivity.
Defined.
